(** * Voice-Assistant: session state of the conversation manager

    A shallow embedding of [backup/app.py]: the suggestion micro-format
    ([_extract_suggestions] and the client's [renderSuggestions]), the
    recipient sanitizer, the [ConversationManager] methods that keep the
    focus context, the pending draft, the recent contacts and the
    handled/announced sets, the new-mail notifier and the audio endpoint.

    Python values are kept as the code has them: [str] is [string], a value
    that may be [None] is an [option], a [dict] read with [.get] is a finite
    map, [set] is [gset], and truthiness ([if x], [x or y]) is written out.
    Calls that leave the process (Gmail, Microsoft Graph, the TTS endpoint)
    and the Python standard-library parsers are fields of a [World] record,
    so every statement holds for whatever the provider answers. *)

From stdpp Require Import gmap strings list pretty.
From Stdlib Require Import Ascii ZArith Lia.

Local Open Scope Z_scope.
Local Open Scope nat_scope.

(** ** Python string primitives *)

Module Py.

(** [bool(s)] for a [str]. *)
Definition truthy (s : string) : bool :=
  match s with EmptyString => false | String _ _ => true end.

(** [bool(v)] for an [Optional[str]]. *)
Definition otruthy (v : option string) : bool :=
  match v with Some s => truthy s | None => false end.

(** [a or b] on [Optional[str]] operands. *)
Definition or_ (a b : option string) : option string :=
  if otruthy a then a else b.

(** [v or ""] *)
Definition or_empty (v : option string) : string :=
  match v with Some s => s | None => "" end.

(** [c.isspace()] on the code points below 128. *)
Definition is_space (c : ascii) : bool :=
  let n := nat_of_ascii c in
  ((9 <=? n) && (n <=? 13)) || ((28 <=? n) && (n <=? 32)).

Fixpoint lstrip (s : string) : string :=
  match s with
  | EmptyString => EmptyString
  | String c s' => if is_space c then lstrip s' else s
  end.

(** [s.rstrip()]: a character is dropped when everything after it is
    dropped and it is white space itself. *)
Fixpoint rstrip (s : string) : string :=
  match s with
  | EmptyString => EmptyString
  | String c s' =>
      match rstrip s' with
      | EmptyString => if is_space c then EmptyString else String c EmptyString
      | r => String c r
      end
  end.

(** [s.strip()] *)
Definition strip (s : string) : string := rstrip (lstrip s).

Definition lower_char (c : ascii) : ascii :=
  let n := nat_of_ascii c in
  if (65 <=? n) && (n <=? 90) then ascii_of_nat (n + 32) else c.

(** [s.lower()] *)
Fixpoint lower (s : string) : string :=
  match s with
  | EmptyString => EmptyString
  | String c s' => String (lower_char c) (lower s')
  end.

(** [s.startswith(p)] *)
Fixpoint startswith (p s : string) : bool :=
  match p, s with
  | EmptyString, _ => true
  | String _ _, EmptyString => false
  | String a p', String b s' => if Ascii.eqb a b then startswith p' s' else false
  end.

(** [s[n:]] *)
Fixpoint drop (n : nat) (s : string) : string :=
  match n, s with
  | O, _ => s
  | S _, EmptyString => EmptyString
  | S n', String _ s' => drop n' s'
  end.

(** [s[:n]] *)
Fixpoint take (n : nat) (s : string) : string :=
  match n, s with
  | O, _ => EmptyString
  | S _, EmptyString => EmptyString
  | S n', String c s' => String c (take n' s')
  end.

(** [s.partition(p)] when [p] occurs: the text before the first
    occurrence of [p] and the text after it; [None] when [p not in s]. *)
Fixpoint find_sub (p s : string) : option (string * string) :=
  if startswith p s then Some (EmptyString, drop (String.length p) s)
  else
    match s with
    | EmptyString => None
    | String c s' =>
        match find_sub p s' with
        | Some (a, b) => Some (String c a, b)
        | None => None
        end
    end.

(** [p in s] *)
Definition contains (p s : string) : bool :=
  match find_sub p s with Some _ => true | None => false end.

(** [s.split(sep)[0]] *)
Definition split_head (sep s : string) : string :=
  match find_sub sep s with Some (a, _) => a | None => s end.

(** [s.split(",")], one character at a time: [cur] is the field being
    read. *)
Fixpoint split_comma_aux (cur s : string) : list string :=
  match s with
  | EmptyString => [cur]
  | String c s' =>
      if Ascii.eqb c ","%char then cur :: split_comma_aux EmptyString s'
      else split_comma_aux (cur +:+ String c EmptyString) s'
  end.

Definition split_comma (s : string) : list string :=
  split_comma_aux EmptyString s.

(** [sep.join(parts)] *)
Fixpoint join (sep : string) (parts : list string) : string :=
  match parts with
  | [] => EmptyString
  | [p] => p
  | p :: rest => p +:+ sep +:+ join sep rest
  end.

End Py.

(** ** Results of calls that may raise *)

(** A Python call either returns or raises; [Raise] carries the exception's
    text. *)
Inductive result (A : Type) : Type :=
| Ok (a : A)
| Raise (exn : string).
Arguments Ok {A} a.
Arguments Raise {A} exn.

(** ** The suggestion micro-format *)

Module Suggest.

Set Warnings "-register-all".

(** What [json.loads] returns.  An object keeps its members in textual
    order; [dict] semantics (the last binding of a key wins) is in
    [jget]. *)
Inductive json : Type :=
| JNull
| JBool (b : bool)
| JNum (n : Z)
| JStr (s : string)
| JArr (items : list json)
| JObj (members : list (string * json)).

(** [bool(v)] *)
Definition jtruthy (v : json) : bool :=
  match v with
  | JNull => false
  | JBool b => b
  | JNum n => negb (Z.eqb n 0)
  | JStr s => Py.truthy s
  | JArr l => match l with [] => false | _ => true end
  | JObj m => match m with [] => false | _ => true end
  end.

(** [d.get(k)] on the dict built from [members]: [None] when the key is
    missing. *)
Fixpoint jget (k : string) (members : list (string * json)) : option json :=
  match members with
  | [] => None
  | (k', v) :: rest =>
      match jget k rest with
      | Some v' => Some v'
      | None => if String.eqb k k' then Some v else None
      end
  end.

(** [a or b] *)
Definition jor (a b : json) : json := if jtruthy a then a else b.

(** [item.get(k)], where a missing key reads as [None]. *)
Definition jget_none (k : string) (members : list (string * json)) : json :=
  match jget k members with Some v => v | None => JNull end.

(** [v.strip()]: only [str] has the method. *)
Definition jstrip (v : json) : result string :=
  match v with
  | JStr s => Ok (Py.strip s)
  | _ => Raise "AttributeError"
  end.

Record suggestion : Type := { label : string; prompt : string }.

Definition open_tag : string := "<suggestions>".
Definition close_tag : string := "</suggestions>".

(** The leftmost match of [SUGGESTION_BLOCK_RE] in [s]: the text before
    it, the group [(.*?)] and the text after it.  The group is lazy, so it
    stops at the first closing tag after the first opening tag; when that
    opening tag has no closing tag after it, no later one has either. *)
Definition next_block (s : string) : option (string * string * string) :=
  match Py.find_sub open_tag s with
  | Some (before, after) =>
      match Py.find_sub close_tag after with
      | Some (raw, rest) => Some (before, raw, rest)
      | None => None
      end
  | None => None
  end.

(** All non-overlapping matches from left to right: for each, the text
    that precedes it and its group; and the text after the last match.
    Every match consumes at least the two tags, so the length of the
    string is enough fuel. *)
Fixpoint scan (fuel : nat) (s : string) : list (string * string) * string :=
  match next_block s with
  | None => ([], s)
  | Some (before, raw, rest) =>
      match fuel with
      | O => ([], s)
      | S fuel' =>
          let '(blocks, tail) := scan fuel' rest in
          ((before, raw) :: blocks, tail)
      end
  end.

Definition blocks_of (message : string) : list (string * string) * string :=
  scan (String.length message) message.

(** [SUGGESTION_BLOCK_RE.findall(message)] *)
Definition findall (message : string) : list string :=
  (fst (blocks_of message)).*2.

Fixpoint concat_str (l : list string) : string :=
  match l with
  | [] => EmptyString
  | s :: l' => s +:+ concat_str l'
  end.

(** [SUGGESTION_BLOCK_RE.sub("", message)] *)
Definition sub_empty (message : string) : string :=
  concat_str (fst (blocks_of message)).*1 +:+ snd (blocks_of message).


(** The body of [for item in ...]: one entry of ["items"]. *)
Definition item_suggestion (item : json) : result (option suggestion) :=
  match item with
  | JObj m =>
      match jstrip (jor (jget_none "label" m) (jor (jget_none "title" m) (JStr ""))) with
      | Raise e => Raise e
      | Ok lbl =>
          match jstrip (jor (jget_none "prompt" m) (jor (jget_none "text" m) (JStr lbl))) with
          | Raise e => Raise e
          | Ok pr =>
              if Py.truthy lbl && Py.truthy pr
              then Ok (Some {| label := lbl; prompt := pr |})
              else Ok None
          end
      end
  | _ => Raise "AttributeError"
  end.

Fixpoint items_suggestions (items : list json) : result (list suggestion) :=
  match items with
  | [] => Ok []
  | item :: rest =>
      match item_suggestion item with
      | Raise e => Raise e
      | Ok o =>
          match items_suggestions rest with
          | Raise e => Raise e
          | Ok l => Ok (match o with Some s => s :: l | None => l end)
          end
      end
  end.

(** [for item in payload.get("items", [])] for a parsed [payload].
    Iterating a [dict] or a [str] yields strings, which have no [.get]. *)
Definition payload_suggestions (payload : json) : result (list suggestion) :=
  match payload with
  | JObj m =>
      match jget "items" m with
      | None => Ok []
      | Some (JArr items) => items_suggestions items
      | Some (JObj []) => Ok []
      | Some (JObj (_ :: _)) => Raise "AttributeError"
      | Some (JStr EmptyString) => Ok []
      | Some (JStr (String _ _)) => Raise "AttributeError"
      | Some _ => Raise "TypeError"
      end
  | _ => Raise "AttributeError"
  end.

Section Extract.
(** [json.loads]; [None] stands for [json.JSONDecodeError]. *)
Variable json_loads : string -> option json.

(** The loop over [findall(message)]. *)
Fixpoint collect (raws : list string) : result (list suggestion) :=
  match raws with
  | [] => Ok []
  | raw :: rest =>
      match json_loads raw with
      | None => collect rest
      | Some payload =>
          match payload_suggestions payload with
          | Raise e => Raise e
          | Ok here =>
              match collect rest with
              | Raise e => Raise e
              | Ok more => Ok (here ++ more)
              end
          end
      end
  end.

Definition _extract_suggestions (message : string)
  : result (string * list suggestion) :=
  if negb (Py.truthy message) then Ok (EmptyString, [])
  else
    match collect (findall message) with
    | Raise e => Raise e
    | Ok suggestions => Ok (Py.strip (sub_empty message), suggestions)
    end.
End Extract.

(** The client's [renderSuggestions(items)]: one chip per entry of
    [items.slice(0, 3)] whose label and prompt are both non-empty, each
    falling back on the other. *)
Definition chip_of (item : suggestion) : option suggestion :=
  let lbl := if Py.truthy (label item) then label item else prompt item in
  let pr := if Py.truthy (prompt item) then prompt item else label item in
  if Py.truthy lbl && Py.truthy pr then Some {| label := lbl; prompt := pr |}
  else None.

Definition renderSuggestions (items : list suggestion) : list suggestion :=
  omap chip_of (firstn 3 items).

End Suggest.

(** ** Data model of a session *)

(** A Python [dict] with string keys whose values are [str] or [None]:
    the contact observations handed to [_merge_contact], the entries of a
    search result, the payload of a read. *)
Abbreviation pydict := (gmap string (option string)).

(** [d.get(k)]: [None] for a missing key and for a key bound to [None]. *)
Definition dget (d : pydict) (k : string) : option string :=
  match d !! k with Some v => v | None => None end.

(** [a or b] on [str] operands. *)
Definition sor (a b : string) : string := if Py.truthy a then a else b.

(** The [{"name", "email", "display"}] dicts of the header helpers. *)
Record Identity : Type := {
  i_name : string;
  i_email : string;
  i_display : string;
}.

(** [current_email_context].  The Gmail loader and the Outlook loader build
    dicts with different keys; a key one of them leaves out is an [option]
    here. *)
Record EmailContext : Type := {
  ctx_id : string;
  ctx_threadId : option string;
  ctx_from : string;
  ctx_from_name : string;
  ctx_from_email : string;
  ctx_subject : string;
  ctx_message_id : option string;
  ctx_references : option string;
  ctx_reply_to_recipients : list Identity;
  ctx_reply_to_emails : list string;
  ctx_to_recipients : list Identity;
  ctx_cc_recipients : list Identity;
  ctx_to : string;
  ctx_cc : string;
  ctx_date : string;
  ctx_reply_to : string;
  ctx_internet_message_id : option string;
  ctx_body_preview : string;
}.

(** [current_event_context]: read by [update_context_display] and
    [calendar_delete_event]. *)
Record EventContext : Type := {
  ev_id : option string;
  ev_organizer : option string;
  ev_summary : option string;
}.

(** An entry of [recent_contacts]: the [normalized] dict of
    [_merge_contact], whose eight keys are always bound to a [str]. *)
Record Contact : Type := {
  c_id : string;
  c_name : string;
  c_email : string;
  c_display : string;
  c_subject : string;
  c_preview : string;
  c_received : string;
  c_service : string;
}.

Record AccountIdentity : Type := {
  acct_email : string;
  acct_display_name : string;
}.

(** [last_draft_google] *)
Record GoogleDraft : Type := {
  gd_to : string;
  gd_subject : string;
  gd_body : string;
}.

(** The [ctx] object of a [context_update] packet. *)
Inductive ContextDisplay : Type :=
| CalendarEventDisplay (id organizer title : option string)
| EmailDisplay (id from from_email subject : string).

(** What [ws.send_json] is called with. *)
Inductive WsMessage : Type :=
| chat_append (role text : string)
| suggestions (items : list Suggest.suggestion)
| play_audio (url status_text : string)
| context_update (ctx : option ContextDisplay)
| draft_preview (to subject body : string)
| draft_clear
| people_list (people : list Contact)
| update_status (text : string).

(** The attributes of [ConversationManager] that the mail tools read or
    write; [ws_sent] is the sequence of packets sent on [self.ws], oldest
    first.  ([history] and the polling task belong to the tool loop and the
    notifier, which none of the methods below touches.) *)
Record Session : Type := {
  service_type : string;
  last_draft_google : option GoogleDraft;
  last_draft_microsoft_id : option string;
  current_email_context : option EmailContext;
  current_event_context : option EventContext;
  recent_contacts : list Contact;
  account_identity : AccountIdentity;
  _handled_email_ids : gset string;
  _announced_unread_ids : gset string;
  ws_sent : list WsMessage;
}.

(** [ConversationManager.__init__] *)
Definition init_session (service : string) : Session := {|
  service_type := service;
  last_draft_google := None;
  last_draft_microsoft_id := None;
  current_email_context := None;
  current_event_context := None;
  recent_contacts := [];
  account_identity := {| acct_email := ""; acct_display_name := "" |};
  _handled_email_ids := ∅;
  _announced_unread_ids := ∅;
  ws_sent := [];
|}.

Definition set_last_draft_google (v : option GoogleDraft) (s : Session) : Session := {|
  service_type := service_type s;
  last_draft_google := v;
  last_draft_microsoft_id := last_draft_microsoft_id s;
  current_email_context := current_email_context s;
  current_event_context := current_event_context s;
  recent_contacts := recent_contacts s;
  account_identity := account_identity s;
  _handled_email_ids := _handled_email_ids s;
  _announced_unread_ids := _announced_unread_ids s;
  ws_sent := ws_sent s;
|}.

Definition set_last_draft_microsoft_id (v : option string) (s : Session) : Session := {|
  service_type := service_type s;
  last_draft_google := last_draft_google s;
  last_draft_microsoft_id := v;
  current_email_context := current_email_context s;
  current_event_context := current_event_context s;
  recent_contacts := recent_contacts s;
  account_identity := account_identity s;
  _handled_email_ids := _handled_email_ids s;
  _announced_unread_ids := _announced_unread_ids s;
  ws_sent := ws_sent s;
|}.

Definition set_current_email_context (v : option EmailContext) (s : Session) : Session := {|
  service_type := service_type s;
  last_draft_google := last_draft_google s;
  last_draft_microsoft_id := last_draft_microsoft_id s;
  current_email_context := v;
  current_event_context := current_event_context s;
  recent_contacts := recent_contacts s;
  account_identity := account_identity s;
  _handled_email_ids := _handled_email_ids s;
  _announced_unread_ids := _announced_unread_ids s;
  ws_sent := ws_sent s;
|}.

Definition set_current_event_context (v : option EventContext) (s : Session) : Session := {|
  service_type := service_type s;
  last_draft_google := last_draft_google s;
  last_draft_microsoft_id := last_draft_microsoft_id s;
  current_email_context := current_email_context s;
  current_event_context := v;
  recent_contacts := recent_contacts s;
  account_identity := account_identity s;
  _handled_email_ids := _handled_email_ids s;
  _announced_unread_ids := _announced_unread_ids s;
  ws_sent := ws_sent s;
|}.

Definition set_recent_contacts (v : list Contact) (s : Session) : Session := {|
  service_type := service_type s;
  last_draft_google := last_draft_google s;
  last_draft_microsoft_id := last_draft_microsoft_id s;
  current_email_context := current_email_context s;
  current_event_context := current_event_context s;
  recent_contacts := v;
  account_identity := account_identity s;
  _handled_email_ids := _handled_email_ids s;
  _announced_unread_ids := _announced_unread_ids s;
  ws_sent := ws_sent s;
|}.

Definition set_account_identity (v : AccountIdentity) (s : Session) : Session := {|
  service_type := service_type s;
  last_draft_google := last_draft_google s;
  last_draft_microsoft_id := last_draft_microsoft_id s;
  current_email_context := current_email_context s;
  current_event_context := current_event_context s;
  recent_contacts := recent_contacts s;
  account_identity := v;
  _handled_email_ids := _handled_email_ids s;
  _announced_unread_ids := _announced_unread_ids s;
  ws_sent := ws_sent s;
|}.

Definition set_handled_email_ids (v : gset string) (s : Session) : Session := {|
  service_type := service_type s;
  last_draft_google := last_draft_google s;
  last_draft_microsoft_id := last_draft_microsoft_id s;
  current_email_context := current_email_context s;
  current_event_context := current_event_context s;
  recent_contacts := recent_contacts s;
  account_identity := account_identity s;
  _handled_email_ids := v;
  _announced_unread_ids := _announced_unread_ids s;
  ws_sent := ws_sent s;
|}.

Definition set_announced_unread_ids (v : gset string) (s : Session) : Session := {|
  service_type := service_type s;
  last_draft_google := last_draft_google s;
  last_draft_microsoft_id := last_draft_microsoft_id s;
  current_email_context := current_email_context s;
  current_event_context := current_event_context s;
  recent_contacts := recent_contacts s;
  account_identity := account_identity s;
  _handled_email_ids := _handled_email_ids s;
  _announced_unread_ids := v;
  ws_sent := ws_sent s;
|}.

Definition set_ws_sent (v : list WsMessage) (s : Session) : Session := {|
  service_type := service_type s;
  last_draft_google := last_draft_google s;
  last_draft_microsoft_id := last_draft_microsoft_id s;
  current_email_context := current_email_context s;
  current_event_context := current_event_context s;
  recent_contacts := recent_contacts s;
  account_identity := account_identity s;
  _handled_email_ids := _handled_email_ids s;
  _announced_unread_ids := _announced_unread_ids s;
  ws_sent := v;
|}.

(** ** The session monad

    A method runs on the session and either returns or raises; what it
    wrote to [self] before raising stays written.  A method is run from its
    first statement to its last: the notifier task, which shares the session,
    is not interleaved at the [await]s. *)

Definition M (A : Type) : Type := Session -> result A * Session.

Definition ret {A} (a : A) : M A := fun s => (Ok a, s).

Definition bind {A B} (m : M A) (k : A -> M B) : M B :=
  fun s =>
    match m s with
    | (Ok a, s') => k a s'
    | (Raise e, s') => (Raise e, s')
    end.

(** The outcome of a call that leaves the process. *)
Definition call {A} (r : result A) : M A := fun s => (r, s).

Definition raise {A} (e : string) : M A := fun s => (Raise e, s).

Definition get : M Session := fun s => (Ok s, s).

Definition modify (f : Session -> Session) : M unit := fun s => (Ok tt, f s).

(** [try: m  except Exception as e: h e] *)
Definition try_except {A} (m : M A) (h : string -> M A) : M A :=
  fun s =>
    match m s with
    | (Ok a, s') => (Ok a, s')
    | (Raise e, s') => h e s'
    end.

(** [if b: m] *)
Definition when (b : bool) (m : M unit) : M unit := if b then m else ret tt.

Declare Scope session_scope.
Delimit Scope session_scope with session.
Notation "'let*' x ':=' m 'in' k" := (bind m (fun x => k))
  (at level 10, x name, m at level 100, k at level 200,
   format "'[v' 'let*'  x  ':='  m  'in' '/' k ']'") : session_scope.
Notation "'let*' ' p ':=' m 'in' k" :=
  (bind m (fun x => match x with p => k end))
  (at level 10, p strict pattern, m at level 100, k at level 200,
   format "'[v' 'let*'  ' p  ':='  m  'in' '/' k ']'") : session_scope.
Notation "m '>>' k" := (bind m (fun _ => k))
  (at level 100, k at level 200, right associativity,
   format "'[v' m  '>>' '/' k ']'") : session_scope.
Local Open Scope session_scope.

(** [await self.ws.send_json(msg)], on a socket that is open: the packet is
    sent. *)
Definition ws_send_json (msg : WsMessage) : M unit :=
  modify (fun s => set_ws_sent (ws_sent s ++ [msg]) s).

(** ** What the providers and the standard library answer *)

(** A message resource of the Gmail API, as far as the code reads it;
    [gm_body] is the text [_get_email_body(msg)] decodes from the payload. *)
Record GmailMessage : Type := {
  gm_id : string;
  gm_threadId : string;
  gm_headers : list (string * string);
  gm_body : string;
  gm_snippet : option string;
}.

(** The label change of a [messages().modify] request. *)
Inductive LabelChange : Type :=
| remove_UNREAD
| add_UNREAD
| remove_INBOX.

(** The [EmailMessage] that [gmail_send_draft] hands to [messages().send]. *)
Record OutgoingMail : Type := {
  om_to : string;
  om_from : string;
  om_subject : string;
  om_content : string;
  om_in_reply_to : option string;
  om_references : option string;
  om_threadId : option string;
}.

(** An [emailAddress] object of Microsoft Graph.  For every Graph JSON
    object below, [None] is a key that is missing. *)
Record GraphAddress : Type := {
  ga_name : option string;
  ga_address : option string;
}.

(** A Graph message; a recipient entry is its [emailAddress] member. *)
Record GraphMessage : Type := {
  g_id : option string;
  g_subject : option string;
  g_from : option GraphAddress;
  g_bodyPreview : option string;
  g_body_content : option string;
  g_toRecipients : list (option GraphAddress);
  g_ccRecipients : list (option GraphAddress);
  g_replyTo : list (option GraphAddress);
  g_sentDateTime : option string;
  g_receivedDateTime : option string;
  g_internetMessageId : option string;
  g_isRead : bool;
}.

(** The answer of [GET /me]. *)
Record GraphMe : Type := {
  me_displayName : option string;
  me_mail : option string;
  me_userPrincipalName : option string;
}.

(** The two inbox queries of [outlook_search_emails]. *)
Inductive InboxQuery : Type :=
| unread_latest (top : Z)
| search_text (search : string) (top : Z).

Record World : Type := {
  (** [json.loads], [None] for [JSONDecodeError] *)
  json_loads : string -> option Suggest.json;
  (** [email.utils.parseaddr] and [email.utils.getaddresses([value])] *)
  parseaddr : string -> string * string;
  getaddresses : string -> list (string * string);
  (** [tts_any] *)
  tts_any : string -> result string;
  (** [_gmail_service()]: raises without valid credentials *)
  gmail_service : result unit;
  (** [messages().list(q, maxResults)]: the ids of [results['messages']] *)
  gmail_messages_list : string -> Z -> result (list string);
  gmail_messages_get : string -> result GmailMessage;
  gmail_messages_modify : string -> LabelChange -> result unit;
  gmail_messages_trash : string -> result unit;
  gmail_messages_send : OutgoingMail -> result unit;
  (** [getProfile()]: the [emailAddress] member *)
  gmail_getProfile : result (option string);
  (** [graph_request] on the endpoints the mail tools use *)
  graph_me : result GraphMe;
  graph_inbox_messages : InboxQuery -> result (list GraphMessage);
  graph_get_message : string -> result GraphMessage;
  graph_patch_isRead : string -> bool -> result unit;
  graph_delete_message : string -> result unit;
  graph_archive_folders : result (list string);
  graph_move_message : string -> string -> result unit;
  (** [POST /me/messages]: the [id] of the created draft *)
  graph_create_message : string -> string -> list string -> result (option string);
  (** [POST /me/messages/{id}/createReply]: [r.json() if r.content else {}] *)
  graph_createReply : string -> string -> result GraphMessage;
  graph_list_drafts : result (list GraphMessage);
  graph_send_draft : string -> result unit;
}.

(** ** Module-level helpers *)

(** The three-way choice of a display string the helpers share. *)
Definition display_of (name email : string) : string :=
  if Py.truthy name && Py.truthy email then name +:+ " <" +:+ email +:+ ">"
  else if Py.truthy email then email
  else name.

Definition _identity_from_header (w : World) (value : option string) : Identity :=
  let '(name, email) := parseaddr w (Py.or_empty value) in
  let name := Py.strip name in
  let email := Py.strip email in
  let display := display_of name email in
  {| i_name := name; i_email := email;
     i_display := sor display (Py.strip (Py.or_empty value)) |}.

Definition _identities_from_header (w : World) (value : option string) : list Identity :=
  match value with
  | Some v =>
      if Py.truthy v then
        omap (fun '(name, email) =>
                let name := Py.strip name in
                let email := Py.strip email in
                if negb (Py.truthy name) && negb (Py.truthy email) then None
                else Some {| i_name := name; i_email := email;
                             i_display := display_of name email |})
             (getaddresses w v)
      else []
  | None => []
  end.

Definition _identity_from_graph (email_address : option GraphAddress) : Identity :=
  let name := Py.strip (Py.or_empty (email_address ≫= ga_name)) in
  let email := Py.strip (Py.or_empty (email_address ≫= ga_address)) in
  {| i_name := name; i_email := email; i_display := display_of name email |}.

Definition _identities_from_graph (entries : list (option GraphAddress)) : list Identity :=
  filter (fun ident => Py.truthy (i_name ident) || Py.truthy (i_email ident)
                       || Py.truthy (i_display ident))
         (map _identity_from_graph entries).

Definition _join_identity_displays (identities : list Identity) : string :=
  Py.join ", "
    (omap (fun ident =>
             let name := Py.strip (i_name ident) in
             let email := Py.strip (i_email ident) in
             let display := Py.strip (i_display ident) in
             if Py.truthy name && Py.truthy email
             then Some (name +:+ " <" +:+ email +:+ ">")
             else if Py.truthy email then Some email
             else if Py.truthy display then Some display
             else None)
          identities).

(** The loop of [_split_recipients]: [seen] holds the lower-cased addresses
    already kept. *)
Fixpoint split_recipients_loop (seen : gset string) (parts : list string) : list string :=
  match parts with
  | [] => []
  | addr :: rest =>
      if Py.truthy addr && negb (bool_decide (Py.lower addr ∈ seen))
      then addr :: split_recipients_loop ({[Py.lower addr]} ∪ seen) rest
      else split_recipients_loop seen rest
  end.

Definition _split_recipients (to : string) : list string :=
  split_recipients_loop ∅ (map Py.strip (Py.split_comma to)).

(** [_parse_headers]: [{h['name'].lower(): h['value'] for h in headers}] *)
Definition _parse_headers (headers : list (string * string)) : gmap string string :=
  foldl (fun d h => <[Py.lower h.1 := h.2]> d) ∅ headers.

(** ** ConversationManager: display, draft and dedup helpers *)

Definition update_context_display : M unit :=
  let* s := get in
  let ctx :=
    match current_event_context s with
    | Some ev => Some (CalendarEventDisplay (ev_id ev) (ev_organizer ev) (ev_summary ev))
    | None =>
        match current_email_context s with
        | Some c =>
            let sender_name := Py.strip (ctx_from_name c) in
            let sender_email := Py.strip (ctx_from_email c) in
            let sender_display :=
              if Py.truthy sender_name && Py.truthy sender_email
              then sender_name +:+ " <" +:+ sender_email +:+ ">"
              else sor (ctx_from c) (sor sender_email sender_name) in
            Some (EmailDisplay (ctx_id c) sender_display sender_email (ctx_subject c))
        | None => None
        end
    end in
  ws_send_json (context_update ctx).

Definition show_draft (to subject body : string) : M unit :=
  ws_send_json (draft_preview to subject body).

Definition clear_draft : M unit :=
  modify (set_last_draft_google None) >>
  modify (set_last_draft_microsoft_id None) >>
  ws_send_json draft_clear.

Definition _remember_handled_email (message_id : option string) : M unit :=
  match message_id with
  | Some i =>
      when (Py.truthy i)
        (modify (fun s => set_handled_email_ids ({[i]} ∪ _handled_email_ids s) s))
  | None => ret tt
  end.

Definition _is_handled_email (s : Session) (message_id : option string) : bool :=
  match message_id with
  | Some i => Py.truthy i && bool_decide (i ∈ _handled_email_ids s)
  | None => false
  end.

Definition _forget_handled_email (message_id : option string) : M unit :=
  match message_id with
  | Some i =>
      when (Py.truthy i)
        (modify (fun s => set_handled_email_ids (_handled_email_ids s ∖ {[i]}) s) >>
         modify (fun s => set_announced_unread_ids (_announced_unread_ids s ∖ {[i]}) s))
  | None => ret tt
  end.

(** [self._announced_unread_ids.discard(target_id)] *)
Definition announced_discard (target_id : string) : M unit :=
  modify (fun s => set_announced_unread_ids (_announced_unread_ids s ∖ {[target_id]}) s).

Definition _publish_people_list : M unit :=
  let* s := get in
  ws_send_json (people_list (recent_contacts s)).

(** ** The contact aggregator *)

(** The [normalized] dict of [_merge_contact]. *)
Definition normalize_contact (service : string) (contact : pydict) : Contact :=
  let g := dget contact in
  let name := Py.strip (Py.or_empty (Py.or_ (g "name") (Py.or_ (g "from_name") (Py.or_ (g "from") (Some ""))))) in
  let email := Py.strip (Py.or_empty (Py.or_ (g "email") (Py.or_ (g "from_email") (Some "")))) in
  let name := if negb (Py.truthy name) && Py.truthy email then Py.split_head "@" email else name in
  let display := Py.strip (Py.or_empty (Py.or_ (g "display") (Py.or_ (g "from") (Some "")))) in
  let display :=
    if negb (Py.truthy display) then
      if Py.truthy name && Py.truthy email then name +:+ " <" +:+ email +:+ ">"
      else sor name (sor email "Unknown Sender")
    else display in
  {| c_id := Py.or_empty (Py.or_ (g "id") (Py.or_ (g "message_id") (Some "")));
     c_name := sor name (sor display "Unknown Sender");
     c_email := email;
     c_display := display;
     c_subject := Py.or_empty (Py.or_ (g "subject") (Some ""));
     c_preview := Py.strip (Py.or_empty (Py.or_ (g "preview") (Py.or_ (g "body_preview") (Some ""))));
     c_received := Py.or_empty (Py.or_ (g "received") (Py.or_ (g "date") (Some "")));
     c_service := Py.or_empty (Py.or_ (g "service") (Some service)) |}.

(** [for k, v in normalized.items(): if v: existing[k] = v] *)
Definition overwrite_fields (existing normalized : Contact) : Contact :=
  {| c_id := sor (c_id normalized) (c_id existing);
     c_name := sor (c_name normalized) (c_name existing);
     c_email := sor (c_email normalized) (c_email existing);
     c_display := sor (c_display normalized) (c_display existing);
     c_subject := sor (c_subject normalized) (c_subject existing);
     c_preview := sor (c_preview normalized) (c_preview existing);
     c_received := sor (c_received normalized) (c_received existing);
     c_service := sor (c_service normalized) (c_service existing) |}.

(** [x.lower() if x else None] *)
Definition key_of (x : string) : option string :=
  if Py.truthy x then Some (Py.lower x) else None.

(** The test of the loop [for existing in self.recent_contacts]. *)
Definition contact_matches (key_email key_name : option string) (existing : Contact) : bool :=
  let existing_email := Py.lower (c_email existing) in
  let existing_name := Py.lower (c_name existing) in
  (Py.otruthy key_email && bool_decide (Some existing_email = key_email))
  || (negb (Py.otruthy key_email) && Py.otruthy key_name
      && bool_decide (Some existing_name = key_name)).

(** The loop itself: the first matching entry is updated in place and the
    loop breaks; [None] when it ends with [merged] still false. *)
Fixpoint merge_existing (key_email key_name : option string) (normalized : Contact)
    (contacts : list Contact) : option (list Contact) :=
  match contacts with
  | [] => None
  | existing :: rest =>
      if contact_matches key_email key_name existing
      then Some (overwrite_fields existing normalized :: rest)
      else
        match merge_existing key_email key_name normalized rest with
        | Some rest' => Some (existing :: rest')
        | None => None
        end
  end.

(** [_merge_contact] on the three attributes it reads. *)
Definition merge_contact_list (service : string) (account : AccountIdentity)
    (contacts : list Contact) (contact : pydict) : list Contact :=
  if bool_decide (contact = ∅) then contacts
  else
    let normalized := normalize_contact service contact in
    let key_email := key_of (c_email normalized) in
    let key_name := key_of (c_name normalized) in
    let account_email := Py.lower (acct_email account) in
    let account_name := Py.lower (acct_display_name account) in
    if Py.otruthy key_email && Py.truthy account_email
       && bool_decide (key_email = Some account_email)
    then contacts
    else if negb (Py.otruthy key_email) && Py.otruthy key_name && Py.truthy account_name
            && bool_decide (key_name = Some account_name)
    then contacts
    else
      firstn 15
        match merge_existing key_email key_name normalized contacts with
        | Some merged => merged
        | None => normalized :: contacts
        end.

Definition _merge_contact (contact : pydict) : M unit :=
  modify (fun s =>
    set_recent_contacts
      (merge_contact_list (service_type s) (account_identity s) (recent_contacts s) contact) s).

(** ** ConversationManager: the mail tools *)

(** What a tool returns to the tool loop.  The code returns a [str]; where
    that string is [json.dumps] of a list of dicts or of a dict, the value
    that is serialised is kept. *)
Inductive reply : Type :=
| text (message : string)
| json_list (items : list pydict)
| json_dict (item : pydict).

Definition err_no_message_id : reply := text "Error: No message ID.".
Definition err_no_draft : reply := text "Error: No draft to send.".
Definition err_no_context : reply := text "Error: No email context to reply to.".

Section Tools.
Variable w : World.

Definition _ensure_account_identity : M unit :=
  let* s := get in
  if Py.truthy (acct_email (account_identity s)) then ret tt
  else
    try_except
      (let* '(email, display_name) :=
         if bool_decide (service_type s = "google") then
           (let* _ := call (gmail_service w) in
            let* profile := call (gmail_getProfile w) in
            let email := Py.strip (Py.or_empty profile) in
            ret (email, email))
         else
           (let* data := call (graph_me w) in
            let email :=
              Py.strip (Py.or_empty (Py.or_ (me_mail data)
                                       (Py.or_ (me_userPrincipalName data) (Some "")))) in
            let display_name :=
              Py.strip (Py.or_empty (Py.or_ (me_displayName data) (Some email))) in
            ret (email, display_name)) in
       modify (set_account_identity
                 {| acct_email := Py.lower email; acct_display_name := display_name |}))
      (fun _ => modify (set_account_identity {| acct_email := ""; acct_display_name := "" |})).

(** [message_id or (self.current_email_context and
    self.current_email_context.get('id'))] *)
Definition target_of (s : Session) (message_id : option string) : option string :=
  Py.or_ message_id (ctx_id <$> current_email_context s).

Definition _gmail_context_action (message_id : option string)
    (action_func : string -> result unit) (success_msg : string)
    (clear_ctx : bool) : M reply :=
  let* s := get in
  match target_of s message_id with
  | Some target_id =>
      if Py.truthy target_id then
        let* _ := call (action_func target_id) in
        let* s := get in
        when (clear_ctx &&
              match current_email_context s with
              | Some c => bool_decide (ctx_id c = target_id)
              | None => false
              end)
          (modify (set_current_email_context None) >> update_context_display) >>
        ret (text success_msg)
      else ret err_no_message_id
  | None => ret err_no_message_id
  end.

(** [_gmail_service().users().messages().trash] and the two [modify]
    lambdas: the service is built when the request is. *)
Definition gmail_action (request : string -> result unit) (target_id : string) : result unit :=
  match gmail_service w with
  | Ok _ => request target_id
  | Raise e => Raise e
  end.

Definition gmail_delete_email (message_id : option string) : M reply :=
  let* _ := call (gmail_service w) in
  _gmail_context_action message_id (gmail_messages_trash w) "Email deleted." true.

Definition gmail_archive_email (message_id : option string) : M reply :=
  _gmail_context_action message_id
    (gmail_action (fun i => gmail_messages_modify w i remove_INBOX)) "Email archived." true.

Definition gmail_mark_as_read (message_id : option string) : M reply :=
  let* s := get in
  match target_of s message_id with
  | Some target_id =>
      if Py.truthy target_id then
        let* result :=
          _gmail_context_action (Some target_id)
            (gmail_action (fun i => gmail_messages_modify w i remove_UNREAD))
            "Email marked as read." false in
        _remember_handled_email (Some target_id) >>
        announced_discard target_id >>
        ret result
      else ret err_no_message_id
  | None => ret err_no_message_id
  end.

Definition gmail_mark_as_unread (message_id : option string) : M reply :=
  let* s := get in
  match target_of s message_id with
  | Some target_id =>
      if Py.truthy target_id then
        let* result :=
          _gmail_context_action (Some target_id)
            (gmail_action (fun i => gmail_messages_modify w i add_UNREAD))
            "Email marked as unread." false in
        _forget_handled_email (Some target_id) >>
        announced_discard target_id >>
        ret result
      else ret err_no_message_id
  | None => ret err_no_message_id
  end.

Definition outlook_mark_as_read (message_id : option string) : M reply :=
  let* s := get in
  match target_of s message_id with
  | Some target_id =>
      if Py.truthy target_id then
        let* _ := call (graph_patch_isRead w target_id true) in
        _remember_handled_email (Some target_id) >>
        announced_discard target_id >>
        ret (text "Email marked as read.")
      else ret err_no_message_id
  | None => ret err_no_message_id
  end.

Definition outlook_mark_as_unread (message_id : option string) : M reply :=
  let* s := get in
  match target_of s message_id with
  | Some target_id =>
      if Py.truthy target_id then
        let* _ := call (graph_patch_isRead w target_id false) in
        _forget_handled_email (Some target_id) >>
        announced_discard target_id >>
        ret (text "Email marked as unread.")
      else ret err_no_message_id
  | None => ret err_no_message_id
  end.

Definition outlook_delete_email (message_id : option string) : M reply :=
  let* s := get in
  match target_of s message_id with
  | Some target_id =>
      if Py.truthy target_id then
        let* _ := call (graph_delete_message w target_id) in
        let* s := get in
        when (match current_email_context s with
              | Some c => bool_decide (ctx_id c = target_id)
              | None => false
              end)
          (modify (set_current_email_context None) >> update_context_display) >>
        ret (text "Email deleted.")
      else ret err_no_message_id
  | None => ret err_no_message_id
  end.

Definition outlook_archive_email (message_id : option string) : M reply :=
  let* s := get in
  match target_of s message_id with
  | Some target_id =>
      if Py.truthy target_id then
        let* folders := call (graph_archive_folders w) in
        match folders with
        | [] => ret (text "Error: Could not find Archive folder.")
        | folder :: _ =>
            let* _ := call (graph_move_message w target_id folder) in
            let* s := get in
            when (match current_email_context s with
                  | Some c => bool_decide (ctx_id c = target_id)
                  | None => false
                  end)
              (modify (set_current_email_context None) >> update_context_display) >>
            ret (text "Email archived.")
        end
      else ret err_no_message_id
  | None => ret err_no_message_id
  end.

(** [dict.get(k, "")] on the parsed headers. *)
Definition header (headers : gmap string string) (k : string) : string :=
  default "" (headers !! k).

(** The dict [_load_*_email_into_context] hands to [_merge_contact]. *)
Definition context_contact (service : string) (context : EmailContext) (body_text : string)
    : pydict :=
  list_to_map
    [("id", Some (ctx_id context)); ("name", Some (ctx_from_name context));
     ("email", Some (ctx_from_email context)); ("display", Some (ctx_from context));
     ("subject", Some (ctx_subject context)); ("received", Some (ctx_date context));
     ("preview", Some (Py.take 200 body_text)); ("service", Some service)].

(** [[ident.get("email") for ident in reply_to_list if ident.get("email")]] *)
Definition emails_of (identities : list Identity) : list string :=
  filter (fun e => Py.truthy e) (map i_email identities).

(** [parsed or ([sender] if sender.get("email") or sender.get("name") else [])] *)
Definition reply_to_or_sender (parsed : list Identity) (sender : Identity) : list Identity :=
  match parsed with
  | [] => if Py.truthy (i_email sender) || Py.truthy (i_name sender) then [sender] else []
  | _ => parsed
  end.

Definition gmail_context (msg : GmailMessage) : EmailContext :=
  let headers := _parse_headers (gm_headers msg) in
  let sender := _identity_from_header w (headers !! "from") in
  let reply_to_list :=
    reply_to_or_sender (_identities_from_header w (headers !! "reply-to")) sender in
  let to_recipients := _identities_from_header w (headers !! "to") in
  let cc_recipients := _identities_from_header w (headers !! "cc") in
  {| ctx_id := gm_id msg;
     ctx_threadId := Some (gm_threadId msg);
     ctx_from := sor (i_display sender) (header headers "from");
     ctx_from_name := sor (i_name sender) "";
     ctx_from_email := sor (i_email sender) "";
     ctx_subject := header headers "subject";
     ctx_message_id := Some (header headers "message-id");
     ctx_references := Some (header headers "references");
     ctx_reply_to_recipients := reply_to_list;
     ctx_reply_to_emails := emails_of reply_to_list;
     ctx_to_recipients := to_recipients;
     ctx_cc_recipients := cc_recipients;
     ctx_to := _join_identity_displays to_recipients;
     ctx_cc := _join_identity_displays cc_recipients;
     ctx_date := header headers "date";
     ctx_reply_to := _join_identity_displays reply_to_list;
     ctx_internet_message_id := None;
     ctx_body_preview := Py.take 1000 (gm_body msg) |}.

Definition _load_gmail_email_into_context (message_id : string) (mark_read : bool)
    : M (EmailContext * string) :=
  let* _ := call (gmail_service w) in
  let* msg := call (gmail_messages_get w message_id) in
  let body_text := gm_body msg in
  let context := gmail_context msg in
  modify (set_current_email_context (Some context)) >>
  modify (set_current_event_context None) >>
  update_context_display >>
  _ensure_account_identity >>
  let* s := get in
  _merge_contact (context_contact (service_type s) context body_text) >>
  _publish_people_list >>
  let* s := get in
  when (mark_read && negb (_is_handled_email s (Some (ctx_id context))))
    (try_except (gmail_mark_as_read (Some (ctx_id context)) >> ret tt)
                (fun _ => ret tt)) >>
  ret (context, body_text).

(** [body_text] of the Outlook loader. *)
Definition graph_body_text (msg : GraphMessage) : string :=
  sor (Py.or_empty (g_body_content msg)) (Py.or_empty (g_bodyPreview msg)).

Definition outlook_context (message_id : string) (msg : GraphMessage) : EmailContext :=
  let sender := _identity_from_graph (g_from msg) in
  let reply_to_list := reply_to_or_sender (_identities_from_graph (g_replyTo msg)) sender in
  let to_recipients := _identities_from_graph (g_toRecipients msg) in
  let cc_recipients := _identities_from_graph (g_ccRecipients msg) in
  let received :=
    Py.or_empty (Py.or_ (g_receivedDateTime msg) (Py.or_ (g_sentDateTime msg) (Some ""))) in
  {| ctx_id := default message_id (g_id msg);
     ctx_threadId := None;
     ctx_from := sor (i_display sender) (sor (i_email sender) (sor (i_name sender) ""));
     ctx_from_name := sor (i_name sender) "";
     ctx_from_email := sor (i_email sender) "";
     ctx_subject := Py.or_empty (g_subject msg);
     ctx_message_id := None;
     ctx_references := None;
     ctx_reply_to_recipients := reply_to_list;
     ctx_reply_to_emails := emails_of reply_to_list;
     ctx_to_recipients := to_recipients;
     ctx_cc_recipients := cc_recipients;
     ctx_to := _join_identity_displays to_recipients;
     ctx_cc := _join_identity_displays cc_recipients;
     ctx_date := received;
     ctx_reply_to := _join_identity_displays reply_to_list;
     ctx_internet_message_id := Some (Py.or_empty (g_internetMessageId msg));
     ctx_body_preview := Py.take 1000 (graph_body_text msg) |}.

Definition _load_outlook_email_into_context (message_id : string) (mark_read : bool)
    : M (EmailContext * string) :=
  let* msg := call (graph_get_message w message_id) in
  let body_text := graph_body_text msg in
  let context := outlook_context message_id msg in
  modify (set_current_email_context (Some context)) >>
  modify (set_current_event_context None) >>
  update_context_display >>
  _ensure_account_identity >>
  let* s := get in
  _merge_contact (context_contact (service_type s) context body_text) >>
  _publish_people_list >>
  let* s := get in
  when (mark_read && negb (_is_handled_email s (Some (ctx_id context))))
    (try_except (outlook_mark_as_read (Some (ctx_id context)) >> ret tt)
                (fun _ => ret tt)) >>
  ret (context, body_text).

(** A loop of [_ensure_email_context] over [recent_contacts]: [target_id]
    becomes the message id of the first contact of this service (of the
    first unhandled one when [unhandled_only]) and stays as it is when there
    is none. *)
Definition contact_target (s : Session) (unhandled_only : bool) (target_id : option string)
    : option string :=
  match find (fun contact =>
                bool_decide (c_service contact = service_type s)
                && Py.truthy (c_id contact)
                && (negb unhandled_only
                    || negb (_is_handled_email s (Some (c_id contact)))))
             (recent_contacts s) with
  | Some contact => Some (c_id contact)
  | None => target_id
  end.

Definition _ensure_email_context (message_id : option string) (mark_read : bool) : M bool :=
  let* s := get in
  let in_focus :=
    match current_email_context s with
    | Some c =>
        if negb (Py.otruthy message_id) || bool_decide (Some (ctx_id c) = message_id)
        then Some c else None
    | None => None
    end in
  match in_focus with
  | Some c =>
      when (mark_read && negb (_is_handled_email s (Some (ctx_id c))))
        (try_except
           ((if bool_decide (service_type s = "google")
             then gmail_mark_as_read (Some (ctx_id c))
             else outlook_mark_as_read (Some (ctx_id c))) >> ret tt)
           (fun _ => ret tt)) >>
      ret true
  | None =>
      let target_id := message_id in
      let target_id :=
        if negb (Py.otruthy target_id) then contact_target s true target_id else target_id in
      let target_id :=
        if negb (Py.otruthy target_id) then contact_target s false target_id else target_id in
      match target_id with
      | Some target =>
          if Py.truthy target then
            try_except
              ((if bool_decide (service_type s = "google")
                then _load_gmail_email_into_context target mark_read
                else _load_outlook_email_into_context target mark_read) >> ret true)
              (fun _ => ret false)
          else ret false
      | None => ret false
      end
  end.

(** The query [gmail_search_emails] sends. *)
Definition gmail_normalized_query (query : string) : string :=
  let q := Py.strip query in
  let q := if negb (Py.contains "in:" (Py.lower q)) then Py.strip ("in:inbox " +:+ q) else q in
  if negb (Py.contains "is:" (Py.lower q)) && negb (Py.contains "label:" (Py.lower q))
  then Py.strip (q +:+ " is:unread") else q.

(** The [contact] dict of one Gmail search hit. *)
Definition gmail_hit (service : string) (id : string) (meta : GmailMessage) : pydict :=
  let headers := _parse_headers (gm_headers meta) in
  let sender := _identity_from_header w (headers !! "from") in
  list_to_map
    [("id", Some id);
     ("from", Some (sor (i_display sender) (sor (default "..." (headers !! "from")) "...")));
     ("from_name", Some (sor (i_name sender) ""));
     ("from_email", Some (sor (i_email sender) ""));
     ("subject", Some (default "(No Subject)" (headers !! "subject")));
     ("received", Some (header headers "date"));
     ("body_preview", Some (Py.take 200 (sor (gm_body meta) (sor (Py.or_empty (gm_snippet meta)) ""))));
     ("service", Some service)].

(** [for msg in messages] of [gmail_search_emails]; [email_list] is the
    list built so far. *)
Fixpoint gmail_search_loop (max_results : Z) (publish : bool) (messages : list string)
    (email_list : list pydict) : M (list pydict) :=
  match messages with
  | [] => ret email_list
  | msg :: rest =>
      let* s := get in
      if _is_handled_email s (Some msg)
      then gmail_search_loop max_results publish rest email_list
      else
        let* meta := call (gmail_messages_get w msg) in
        let contact := gmail_hit (service_type s) msg meta in
        let email_list := email_list ++ [contact] in
        when publish (_merge_contact contact) >>
        if (Z.of_nat (length email_list) >=? max_results)%Z then ret email_list
        else gmail_search_loop max_results publish rest email_list
  end.

Definition gmail_search_emails (query : string) (max_results : Z) (publish : bool) : M reply :=
  let* _ := call (gmail_service w) in
  when publish _ensure_account_identity >>
  let* messages := call (gmail_messages_list w (gmail_normalized_query query) max_results) in
  let* email_list := gmail_search_loop max_results publish messages [] in
  match email_list with
  | [] => ret (text ("No emails found for '" +:+ query +:+ "'"))
  | _ =>
      when publish _publish_people_list >>
      ret (json_list email_list)
  end.

(** The [contact] dict of one Outlook search hit. *)
Definition outlook_hit (service : string) (m : GraphMessage) : pydict :=
  let sender_name := Py.strip (Py.or_empty (g_from m ≫= ga_name)) in
  let sender_email := Py.strip (Py.or_empty (g_from m ≫= ga_address)) in
  let sender_display :=
    if Py.truthy sender_name && Py.truthy sender_email
    then sender_name +:+ " <" +:+ sender_email +:+ ">"
    else sor sender_name (sor sender_email "...") in
  list_to_map
    [("id", g_id m);
     ("from", Some sender_display);
     ("from_name", Some sender_name);
     ("from_email", Some sender_email);
     ("subject", Some (Py.or_empty (Py.or_ (g_subject m) (Some "(No Subject)"))));
     ("received", Some (Py.or_empty (g_receivedDateTime m)));
     ("body_preview", Some (Py.take 200 (Py.or_empty (g_bodyPreview m))));
     ("service", Some service)].

Fixpoint outlook_search_loop (max_results : Z) (publish : bool) (messages : list GraphMessage)
    (email_list : list pydict) : M (list pydict) :=
  match messages with
  | [] => ret email_list
  | m :: rest =>
      let* s := get in
      if g_isRead m then outlook_search_loop max_results publish rest email_list
      else if _is_handled_email s (g_id m)
      then outlook_search_loop max_results publish rest email_list
      else
        let contact := outlook_hit (service_type s) m in
        let email_list := email_list ++ [contact] in
        when publish (_merge_contact contact) >>
        if (Z.of_nat (length email_list) >=? max_results)%Z then ret email_list
        else outlook_search_loop max_results publish rest email_list
  end.

Definition outlook_search_emails (query : string) (max_results : Z) (publish : bool) : M reply :=
  when publish _ensure_account_identity >>
  let* messages :=
    call (graph_inbox_messages w
            (if negb (Py.truthy query) || negb (Py.truthy (Py.strip query))
             then unread_latest max_results
             else search_text query (max_results * 3)%Z)) in
  let* email_list := outlook_search_loop max_results publish messages [] in
  match email_list with
  | [] =>
      ret (text (if negb (Py.truthy (Py.strip query)) then "No emails found."
                 else "No emails found for '" +:+ query +:+ "'"))
  | _ =>
      when publish _publish_people_list >>
      ret (json_list email_list)
  end.

(** The dict the two read tools serialise. *)
Definition read_view (context : EmailContext) (body_text : string) : pydict :=
  list_to_map
    [("id", Some (ctx_id context)); ("from", Some (ctx_from context));
     ("from_name", Some (ctx_from_name context));
     ("from_email", Some (ctx_from_email context));
     ("reply_to", Some (ctx_reply_to context)); ("subject", Some (ctx_subject context));
     ("to", Some (ctx_to context)); ("cc", Some (ctx_cc context));
     ("received", Some (ctx_date context));
     ("body_preview", Some (Py.take 1000 body_text))].

Definition gmail_read_email (message_id : option string) : M reply :=
  let* s := get in
  match target_of s message_id with
  | Some target_id =>
      if Py.truthy target_id then
        let* '(context, body_text) := _load_gmail_email_into_context target_id true in
        ret (json_dict (read_view context body_text))
      else ret err_no_message_id
  | None => ret err_no_message_id
  end.

Definition outlook_read_email (message_id : option string) : M reply :=
  let* s := get in
  match target_of s message_id with
  | Some target_id =>
      if Py.truthy target_id then
        let* '(context, body_text) := _load_outlook_email_into_context target_id true in
        ret (json_dict (read_view context body_text))
      else ret err_no_message_id
  | None => ret err_no_message_id
  end.

Definition gmail_draft_new_email (to subject body : string) : M reply :=
  modify (set_current_email_context None) >>
  update_context_display >>
  let recipients := _split_recipients to in
  modify (set_last_draft_google
            (Some {| gd_to := Py.join ", " recipients; gd_subject := subject;
                     gd_body := body |})) >>
  show_draft (Py.join ", " recipients) subject body >>
  ret (text "Draft created. Ask user to confirm.").

(** The draft [gmail_draft_reply] builds from the email in focus. *)
Definition reply_draft (c : EmailContext) (body : string) : GoogleDraft :=
  let subject := ctx_subject c in
  let subject :=
    if negb (Py.startswith "re:" (Py.lower subject)) then "Re: " +:+ subject else subject in
  let reply_to_recipients :=
    match ctx_reply_to_recipients c with
    | [] => [{| i_name := ctx_from_name c; i_email := ctx_from_email c;
                i_display := ctx_from c |}]
    | l => l
    end in
  let to_field := sor (_join_identity_displays reply_to_recipients) (sor (ctx_from c) "") in
  {| gd_to := to_field; gd_subject := subject; gd_body := body |}.

Definition gmail_draft_reply (body : string) : M reply :=
  let* found := _ensure_email_context None true in
  if negb found then ret err_no_context
  else
    let* s := get in
    match current_email_context s with
    | None => raise "AttributeError"
    | Some c =>
        let d := reply_draft c body in
        modify (set_last_draft_google (Some d)) >>
        show_draft (gd_to d) (gd_subject d) body >>
        ret (text "Reply draft created.")
    end.

Definition gmail_send_draft : M reply :=
  let* s := get in
  match last_draft_google s with
  | None => ret err_no_draft
  | Some d =>
      let* _ := call (gmail_service w) in
      let* profile := call (gmail_getProfile w) in
      let* from :=
        match profile with Some a => ret a | None => raise "KeyError" end in
      let* message :=
        match current_email_context s with
        | Some c =>
            if Py.otruthy (ctx_message_id c) then
              let mid := Py.or_empty (ctx_message_id c) in
              let refs := Py.strip (Py.or_empty (ctx_references c)) in
              match ctx_threadId c with
              | Some thread =>
                  ret {| om_to := gd_to d; om_from := from; om_subject := gd_subject d;
                         om_content := gd_body d; om_in_reply_to := Some mid;
                         om_references :=
                           Some ((if Py.truthy refs then refs +:+ " " else "") +:+ mid);
                         om_threadId := Some thread |}
              | None => raise "KeyError"
              end
            else
              ret {| om_to := gd_to d; om_from := from; om_subject := gd_subject d;
                     om_content := gd_body d; om_in_reply_to := None;
                     om_references := None; om_threadId := None |}
        | None =>
            ret {| om_to := gd_to d; om_from := from; om_subject := gd_subject d;
                   om_content := gd_body d; om_in_reply_to := None;
                   om_references := None; om_threadId := None |}
        end in
      let* _ := call (gmail_messages_send w message) in
      match current_email_context s with
      | Some c => gmail_mark_as_read (Some (ctx_id c)) >> ret tt
      | None => ret tt
      end >>
      clear_draft >>
      modify (set_current_email_context None) >>
      update_context_display >>
      ret (text "Email sent.")
  end.

Definition outlook_draft_new_email (to subject body : string) : M reply :=
  modify (set_current_email_context None) >>
  update_context_display >>
  let recipients := _split_recipients to in
  let* draft_id := call (graph_create_message w subject body recipients) in
  modify (set_last_draft_microsoft_id draft_id) >>
  show_draft (Py.join ", " recipients) subject body >>
  ret (text "Draft created. Ask user to confirm.").

(** [rcpt.get('emailAddress')] is truthy for a non-empty object. *)
Definition address_truthy (a : option GraphAddress) : bool :=
  match a with
  | Some a => bool_decide (is_Some (ga_name a)) || bool_decide (is_Some (ga_address a))
  | None => false
  end.

(** The [to_str] of [outlook_draft_reply]. *)
Definition draft_recipients (draft : GraphMessage) : string :=
  Py.join ", "
    (map (fun a => Py.or_empty (a ≫= ga_address))
         (filter (fun a => address_truthy a) (g_toRecipients draft))).

Definition outlook_draft_reply (body : string) : M reply :=
  let* found := _ensure_email_context None true in
  if negb found then ret err_no_context
  else
    let* s := get in
    match current_email_context s with
    | None => raise "TypeError"
    | Some c =>
        let* draft := call (graph_createReply w (ctx_id c) body) in
        let draft_id := g_id draft in
        let* '(draft_id, draft) :=
          if negb (Py.otruthy draft_id) then
            try_except
              (let* drafts := call (graph_list_drafts w) in
               match find (fun m =>
                             let subj := Py.lower (Py.or_empty (g_subject m)) in
                             Py.startswith "re:" subj || Py.startswith "fw:" subj)
                          drafts with
               | Some m => ret (g_id m, m)
               | None => ret (draft_id, draft)
               end)
              (fun _ => ret (draft_id, draft))
          else ret (draft_id, draft) in
        if negb (Py.otruthy draft_id)
        then ret (text "Error: Could not create a reply draft.")
        else
          modify (set_last_draft_microsoft_id draft_id) >>
          show_draft (draft_recipients draft)
                     (default "(No Subject)" (g_subject draft)) body >>
          ret (text "Reply draft created.")
    end.

Definition outlook_send_draft : M reply :=
  let* s := get in
  if negb (Py.otruthy (last_draft_microsoft_id s)) then ret err_no_draft
  else
    let* sent :=
      try_except
        (let* _ := call (graph_send_draft w (Py.or_empty (last_draft_microsoft_id s))) in
         ret None)
        (fun e => ret (Some (text ("Error: Could not send the draft. " +:+ e)))) in
    match sent with
    | Some failure => ret failure
    | None =>
        let handled_id := ctx_id <$> current_email_context s in
        clear_draft >>
        let* s := get in
        when (Py.otruthy handled_id && negb (_is_handled_email s handled_id))
          (try_except (outlook_mark_as_read handled_id >> ret tt) (fun _ => ret tt)) >>
        modify (set_current_email_context None) >>
        update_context_display >>
        ret (text "Email sent.")
    end.

(** [handle_ws_packet] on a [cancel_draft] packet, up to the point where
    the user message is handed to the tool loop. *)
Definition cancel_draft : M unit := clear_draft.

Definition send_audio_response (message : option string) (status_text : string) : M unit :=
  let* '(display_text, items) :=
    call (Suggest._extract_suggestions (json_loads w) (Py.or_empty message)) in
  let display_text := if negb (Py.truthy display_text) then "Done." else display_text in
  ws_send_json (chat_append "assistant" display_text) >>
  ws_send_json (suggestions items) >>
  let* audio_url := call (tts_any w display_text) in
  ws_send_json (play_audio audio_url status_text).

End Tools.


(** ** Notions used in the statements *)

(** The drafts a session holds: the Gmail slot and the Outlook slot. *)
Inductive PendingDraft : Type :=
| google_pending (d : GoogleDraft)
| microsoft_pending (draft_id : string).

Definition pending_drafts (s : Session) : list PendingDraft :=
  match last_draft_google s with Some d => [google_pending d] | None => [] end
  ++ match last_draft_microsoft_id s with
     | Some i => if Py.truthy i then [microsoft_pending i] else []
     | None => []
     end.

(** A draft-creating tool call, as the tool loop receives it. *)
Inductive draft_call : Type :=
| draft_new (to subject body : string)
| draft_reply (body : string).

Definition gmail_draft_call (w : World) (c : draft_call) : M reply :=
  match c with
  | draft_new to subject body => gmail_draft_new_email to subject body
  | draft_reply body => gmail_draft_reply w body
  end.

Definition outlook_draft_call (w : World) (c : draft_call) : M reply :=
  match c with
  | draft_new to subject body => outlook_draft_new_email w to subject body
  | draft_reply body => outlook_draft_reply w body
  end.



(** The provider whose tools are on the session's menu. *)
Inductive provider : Type := google | microsoft.





(** The mail tools in the table of [execute_tool_calls], with their
    arguments. *)
Inductive mail_tool : Type :=
| search_emails (query : string) (max_results : Z)
| read_email (message_id : option string)
| draft_email (c : draft_call)
| send_draft
| delete_email (message_id : option string)
| archive_email (message_id : option string)
| mark_as_read (message_id : option string)
| mark_as_unread (message_id : option string).

Definition run_tool (p : provider) (w : World) (t : mail_tool) : M reply :=
  match p, t with
  | google, search_emails query n => gmail_search_emails w query n true
  | google, read_email i => gmail_read_email w i
  | google, draft_email c => gmail_draft_call w c
  | google, send_draft => gmail_send_draft w
  | google, delete_email i => gmail_delete_email w i
  | google, archive_email i => gmail_archive_email w i
  | google, mark_as_read i => gmail_mark_as_read w i
  | google, mark_as_unread i => gmail_mark_as_unread w i
  | microsoft, search_emails query n => outlook_search_emails w query n true
  | microsoft, read_email i => outlook_read_email w i
  | microsoft, draft_email c => outlook_draft_call w c
  | microsoft, send_draft => outlook_send_draft w
  | microsoft, delete_email i => outlook_delete_email w i
  | microsoft, archive_email i => outlook_archive_email w i
  | microsoft, mark_as_read i => outlook_mark_as_read w i
  | microsoft, mark_as_unread i => outlook_mark_as_unread w i
  end.

(** The tools that remove a message from the inbox: the id they are given
    and the reply that reports success. *)
Definition removal (t : mail_tool) : option (option string * string) :=
  match t with
  | delete_email i => Some (i, "Email deleted.")
  | archive_email i => Some (i, "Email archived.")
  | _ => None
  end.

(** The tools that work on one message: the id they are given. *)
Definition message_target (t : mail_tool) : option (option string) :=
  match t with
  | read_email i | delete_email i | archive_email i | mark_as_read i | mark_as_unread i =>
      Some i
  | _ => None
  end.

(** A method keeps a property of the session. *)
Definition stable {A} (P : Session -> Prop) (m : M A) : Prop :=
  forall s, P s -> P (m s).2.

Definition no_event (s : Session) : Prop := current_event_context s = None.


(** An entry of [recent_contacts] is the account owner: by its email, or by
    its name when it has no email. *)
Definition is_owner (account : AccountIdentity) (c : Contact) : bool :=
  if Py.truthy (c_email c)
  then Py.truthy (acct_email account)
       && bool_decide (Py.lower (c_email c) = Py.lower (acct_email account))
  else Py.truthy (acct_display_name account)
       && bool_decide (Py.lower (c_name c) = Py.lower (acct_display_name account)).

Definition contacts_ok (s : Session) : Prop :=
  Forall (fun c => is_owner (account_identity s) c = false) (recent_contacts s)
  /\ length (recent_contacts s) <= 15.

(** The two early returns of [_merge_contact] on the owner's identity. *)
Definition skipped_as_owner (account : AccountIdentity) (normalized : Contact) : bool :=
  let key_email := key_of (c_email normalized) in
  let key_name := key_of (c_name normalized) in
  let account_email := Py.lower (acct_email account) in
  let account_name := Py.lower (acct_display_name account) in
  (Py.otruthy key_email && Py.truthy account_email
   && bool_decide (key_email = Some account_email))
  || (negb (Py.otruthy key_email) && Py.otruthy key_name && Py.truthy account_name
      && bool_decide (key_name = Some account_name)).

(** An existing entry is the one an observation is merged into. *)
Definition merges_into (normalized existing : Contact) : bool :=
  contact_matches (key_of (c_email normalized)) (key_of (c_name normalized)) existing.


(** The lookup key of a contact record: its lower-cased email, else its
    lower-cased name. *)
Definition contact_key (c : Contact) : string :=
  if Py.truthy (c_email c) then Py.lower (c_email c) else Py.lower (c_name c).

(** The state after a successful [*_mark_as_read] of [t]. *)
Definition marked_read (t : string) (s : Session) : Session :=
  set_announced_unread_ids (_announced_unread_ids s ∖ {[t]})
    (set_handled_email_ids ({[t]} ∪ _handled_email_ids s) s).

(** The state after a successful [*_mark_as_unread] of [t]. *)
Definition marked_unread (t : string) (s : Session) : Session :=
  set_announced_unread_ids (_announced_unread_ids s ∖ {[t]})
    (set_handled_email_ids (_handled_email_ids s ∖ {[t]}) s).

(** The state after a successful delete or archive of [t]: the focus is
    dropped, and the client told so, when it is on [t]. *)
Definition unfocused (t : string) (s : Session) : Session :=
  match current_email_context s with
  | Some c =>
      if bool_decide (ctx_id c = t)
      then (update_context_display (set_current_email_context None s)).2
      else s
  | None => s
  end.

(** The state after [clear_draft]. *)
Definition draft_cleared (s : Session) : Session :=
  set_ws_sent (ws_sent s ++ [draft_clear])
    (set_last_draft_microsoft_id None (set_last_draft_google None s)).

(** No contact of the session's provider carries a message id: the two
    loops of [_ensure_email_context] find no target. *)
Definition no_contact_target (s : Session) : Prop :=
  Forall (fun c => c_service c = service_type s -> c_id c = "") (recent_contacts s).

(** The email with id [X] is in focus, and no event is. *)
Definition focus_is (X : string) (s : Session) : Prop :=
  (exists c, current_email_context s = Some c /\ ctx_id c = X)
  /\ current_event_context s = None.

(** A method leaves an attribute of the session alone. *)
Definition preserves {A B} (attr : Session -> B) (m : M A) : Prop :=
  forall s, attr (m s).2 = attr s.

(** A method that returns, returns [v]. *)
Definition returns {A} (v : A) (m : M A) : Prop :=
  forall s a s', m s = (Ok a, s') -> a = v.

(** ** A provider for the examples *)

Definition dquote : string := String "034"%char "".
Definition quoted (s : string) : string := dquote +:+ s +:+ dquote.

(** [{"items": [{"label": "a"}, {"label": "b"}, {"label": "c"}, {"label": "d"}]}] *)
Definition four_items_text : string :=
  "{" +:+ quoted "items" +:+ ": [{" +:+ quoted "label" +:+ ": " +:+ quoted "a" +:+ "}, {"
  +:+ quoted "label" +:+ ": " +:+ quoted "b" +:+ "}, {" +:+ quoted "label" +:+ ": "
  +:+ quoted "c" +:+ "}, {" +:+ quoted "label" +:+ ": " +:+ quoted "d" +:+ "}]}".

Definition four_items_json : Suggest.json :=
  Suggest.JObj
    [("items",
      Suggest.JArr
        [Suggest.JObj [("label", Suggest.JStr "a")]; Suggest.JObj [("label", Suggest.JStr "b")];
         Suggest.JObj [("label", Suggest.JStr "c")]; Suggest.JObj [("label", Suggest.JStr "d")]])].

(** [json.loads] on the texts of the examples: the payload above parses to
    the value above, and the other text used, ["{oops"], is not JSON. *)
Definition example_json_loads (raw : string) : option Suggest.json :=
  if String.eqb raw four_items_text then Some four_items_json else None.

(** A Gmail account holding [inbox], with nothing unusual happening: every
    request is answered, and the Graph endpoints are not connected. *)
Definition gmail_world (inbox : list GmailMessage) : World := {|
  json_loads := example_json_loads;
  parseaddr := fun value => ("", value);
  getaddresses := fun value => [("", value)];
  tts_any := fun _ => Ok "/audio/1";
  gmail_service := Ok tt;
  gmail_messages_list := fun _ _ => Ok (map gm_id inbox);
  gmail_messages_get := fun id =>
    match find (fun m => String.eqb (gm_id m) id) inbox with
    | Some m => Ok m
    | None => Raise "HttpError 404"
    end;
  gmail_messages_modify := fun _ _ => Ok tt;
  gmail_messages_trash := fun _ => Ok tt;
  gmail_messages_send := fun _ => Ok tt;
  gmail_getProfile := Ok (Some "owner@example.com");
  graph_me := Raise "Microsoft not connected.";
  graph_inbox_messages := fun _ => Raise "Microsoft not connected.";
  graph_get_message := fun _ => Raise "Microsoft not connected.";
  graph_patch_isRead := fun _ _ => Raise "Microsoft not connected.";
  graph_delete_message := fun _ => Raise "Microsoft not connected.";
  graph_archive_folders := Raise "Microsoft not connected.";
  graph_move_message := fun _ _ => Raise "Microsoft not connected.";
  graph_create_message := fun _ _ _ => Raise "Microsoft not connected.";
  graph_createReply := fun _ _ => Raise "Microsoft not connected.";
  graph_list_drafts := Raise "Microsoft not connected.";
  graph_send_draft := fun _ => Raise "Microsoft not connected.";
|}.

(** An Outlook account holding [inbox]; a created draft gets the id
    ["draft-1"]. *)
Definition outlook_world (inbox : list GraphMessage) : World := {|
  json_loads := example_json_loads;
  parseaddr := fun value => ("", value);
  getaddresses := fun value => [("", value)];
  tts_any := fun _ => Ok "/audio/1";
  gmail_service := Raise "Google not connected.";
  gmail_messages_list := fun _ _ => Raise "Google not connected.";
  gmail_messages_get := fun _ => Raise "Google not connected.";
  gmail_messages_modify := fun _ _ => Raise "Google not connected.";
  gmail_messages_trash := fun _ => Raise "Google not connected.";
  gmail_messages_send := fun _ => Raise "Google not connected.";
  gmail_getProfile := Raise "Google not connected.";
  graph_me := Ok {| me_displayName := Some "Owner"; me_mail := Some "owner@example.com";
                    me_userPrincipalName := None |};
  graph_inbox_messages := fun _ => Ok inbox;
  graph_get_message := fun id =>
    match find (fun m => bool_decide (g_id m = Some id)) inbox with
    | Some m => Ok m
    | None => Raise "Graph error 404"
    end;
  graph_patch_isRead := fun _ _ => Ok tt;
  graph_delete_message := fun _ => Ok tt;
  graph_archive_folders := Ok ["archive"];
  graph_move_message := fun _ _ => Ok tt;
  graph_create_message := fun _ _ _ => Ok (Some "draft-1");
  graph_createReply := fun id _ =>
    Ok {| g_id := Some "draft-1"; g_subject := Some "Re: hello"; g_from := None;
          g_bodyPreview := None; g_body_content := None;
          g_toRecipients := [Some {| ga_name := None; ga_address := Some "dana@example.com" |}];
          g_ccRecipients := []; g_replyTo := []; g_sentDateTime := None;
          g_receivedDateTime := None; g_internetMessageId := None; g_isRead := false |};
  graph_list_drafts := Ok [];
  graph_send_draft := fun _ => Ok tt;
|}.

(** The same provider, except that it refuses every label change. *)
Definition refusing_label_changes (w : World) : World := {|
  json_loads := json_loads w;
  parseaddr := parseaddr w;
  getaddresses := getaddresses w;
  tts_any := tts_any w;
  gmail_service := gmail_service w;
  gmail_messages_list := gmail_messages_list w;
  gmail_messages_get := gmail_messages_get w;
  gmail_messages_modify := fun _ _ => Raise "HttpError 403";
  gmail_messages_trash := gmail_messages_trash w;
  gmail_messages_send := gmail_messages_send w;
  gmail_getProfile := gmail_getProfile w;
  graph_me := graph_me w;
  graph_inbox_messages := graph_inbox_messages w;
  graph_get_message := graph_get_message w;
  graph_patch_isRead := graph_patch_isRead w;
  graph_delete_message := graph_delete_message w;
  graph_archive_folders := graph_archive_folders w;
  graph_move_message := graph_move_message w;
  graph_create_message := graph_create_message w;
  graph_createReply := graph_createReply w;
  graph_list_drafts := graph_list_drafts w;
  graph_send_draft := graph_send_draft w;
|}.

(** A message from Dana in either mailbox. *)
Definition dana_gmail : GmailMessage := {|
  gm_id := "m1"; gm_threadId := "t1";
  gm_headers := [("From", "dana@example.com"); ("Subject", "hello")];
  gm_body := "See you at 3."; gm_snippet := None;
|}.

Definition dana_graph : GraphMessage := {|
  g_id := Some "m1"; g_subject := Some "hello";
  g_from := Some {| ga_name := Some "Dana"; ga_address := Some "dana@example.com" |};
  g_bodyPreview := Some "See you at 3."; g_body_content := None;
  g_toRecipients := []; g_ccRecipients := []; g_replyTo := [];
  g_sentDateTime := None; g_receivedDateTime := None; g_internetMessageId := None;
  g_isRead := false;
|}.


(** A session that has seen Dana's message in a search, and has not opened
    anything. *)
Definition dana_contact : Contact := {|
  c_id := "m1"; c_name := "dana"; c_email := "dana@example.com";
  c_display := "dana@example.com"; c_subject := "hello"; c_preview := "See you at 3.";
  c_received := ""; c_service := "google";
|}.

Definition after_search : Session :=
  set_recent_contacts [dana_contact] (init_session "google").

Definition erin_gmail : GmailMessage := {|
  gm_id := "m2"; gm_threadId := "t2";
  gm_headers := [("From", "erin@example.com"); ("Subject", "invoice")];
  gm_body := "Attached."; gm_snippet := None;
|}.

(** Dana's message opened and a reply drafted. *)
Definition reply_pending : Session :=
  (gmail_draft_reply (gmail_world [dana_gmail]) "I'll be there at 3"
     (gmail_read_email (gmail_world [dana_gmail]) (Some "m1") (init_session "google")).2).2.


(** A session in which Dana's message has been marked read. *)
Definition dana_handled : Session :=
  set_handled_email_ids {["m1"]} (init_session "google").

(** Two senders already seen, Alice first. *)
Definition alice : Contact := {|
  c_id := "m7"; c_name := "Alice"; c_email := "alice@example.com";
  c_display := "Alice <alice@example.com>"; c_subject := "lunch"; c_preview := "";
  c_received := ""; c_service := "google";
|}.

Definition bob : Contact := {|
  c_id := "m8"; c_name := "Bob"; c_email := "bob@example.com";
  c_display := "Bob <bob@example.com>"; c_subject := "report"; c_preview := "draft attached";
  c_received := ""; c_service := "google";
|}.

Definition owner : AccountIdentity := {|
  acct_email := "owner@example.com"; acct_display_name := "owner@example.com";
|}.

(** A new message of Bob, as a search lists it. *)
Definition bob_again : pydict :=
  list_to_map [("id", Some "m9"); ("from_email", Some "BOB@example.com");
               ("subject", Some "report v2")].


(** ** Further notions for the statements *)

(** The [ctx] object [update_context_display] sends from a session. *)
Definition displayed (s : Session) : option ContextDisplay :=
  match last (ws_sent (update_context_display s).2) with
  | Some (context_update ctx) => ctx
  | _ => None
  end.

(** The context the client shows after [packets]: that of the last
    [context_update] packet, none before the first one. *)
Definition shown (packets : list WsMessage) : option ContextDisplay :=
  foldl (fun ctx msg => match msg with context_update c => c | _ => ctx end) None packets.

(** The client shows the focus of the session. *)
Definition display_in_sync (s : Session) : Prop := shown (ws_sent s) = displayed s.

(** [_ensure_account_identity] has found the owner's address. *)
Definition identity_resolved (s : Session) : Prop :=
  Py.truthy (acct_email (account_identity s)) = true.

(** The session knows its owner to be [account], and the recent contacts
    are as they should be for it. *)
Definition owner_is_known_and_absent (account : AccountIdentity) (s : Session) : Prop :=
  account_identity s = account /\ contacts_ok s.

(** The tools that write the draft slots. *)
Definition writes_draft (t : mail_tool) : bool :=
  match t with draft_email _ | send_draft => true | _ => false end.

(** The tools that take an id out of the handled set. *)
Definition forgets (t : mail_tool) : bool :=
  match t with mark_as_unread _ => true | _ => false end.

(** The draft slots are [google_slot] and [microsoft_slot]. *)
Definition drafts_are (google_slot : option GoogleDraft) (microsoft_slot : option string)
    (s : Session) : Prop :=
  last_draft_google s = google_slot /\ last_draft_microsoft_id s = microsoft_slot.

(** The handled set holds [kept] at least, the announced set [allowed] at
    most. *)
Definition dedup_between (kept allowed : gset string) (s : Session) : Prop :=
  kept ⊆ _handled_email_ids s /\ _announced_unread_ids s ⊆ allowed.

(** The announced set holds [allowed] at most. *)
Definition announced_within (allowed : gset string) (s : Session) : Prop :=
  _announced_unread_ids s ⊆ allowed.

(** The session after Dana's message has been opened. *)
Definition dana_open : Session :=
  (gmail_read_email (gmail_world [dana_gmail]) (Some "m1") (init_session "google")).2.

(** The same session when marking the message read has not succeeded, and
    the context built from the message. *)
Definition dana_unmarked : Session := set_handled_email_ids ∅ dana_open.

Definition dana_focus : EmailContext := gmail_context (gmail_world [dana_gmail]) dana_gmail.

(** The provider accepts the request that marks message [i] read. *)
Definition marking_succeeds (p : provider) (w : World) (i : string) : bool :=
  match p with
  | google =>
      match gmail_messages_modify w i remove_UNREAD with Ok _ => true | Raise _ => false end
  | microsoft =>
      match graph_patch_isRead w i true with Ok _ => true | Raise _ => false end
  end.

(** ** The new-mail notifier

    One turn of the loop of [_poll_for_new_emails], between two sleeps.  As
    for the tools, the turn is run from its first statement to its last. *)

(** [needle in json.dumps(items)], for a needle made of letters and blanks
    that starts with a capital letter.  [json.dumps] writes each key and each
    [str] value between double quotes, a character either as it is or as an
    escape sequence, which starts with a backslash and ends in a quote, a
    backslash, a lower-case letter or a digit; [None] is written [null].  So
    such a needle occurs in the output exactly when it occurs in a key or in
    a value. *)
Definition dumps_contains (needle : string) (items : list pydict) : bool :=
  existsb (fun d : pydict =>
             existsb (fun kv : string * option string =>
                        Py.contains needle kv.1 || Py.contains needle (Py.or_empty kv.2))
                     (map_to_list d))
          items.

(** [json.dumps(suggestions)] of the notifier's three suggestions. *)
Definition new_mail_suggestions : string :=
  "{" +:+ quoted "items" +:+ ": [{"
  +:+ quoted "label" +:+ ": " +:+ quoted "Read it" +:+ ", "
  +:+ quoted "prompt" +:+ ": " +:+ quoted "Please read my latest email." +:+ "}, {"
  +:+ quoted "label" +:+ ": " +:+ quoted "Summarize it" +:+ ", "
  +:+ quoted "prompt" +:+ ": " +:+ quoted "Summarize the newest email for me." +:+ "}, {"
  +:+ quoted "label" +:+ ": " +:+ quoted "Reply" +:+ ", "
  +:+ quoted "prompt" +:+ ": " +:+ quoted "Draft a quick reply to the latest email."
  +:+ "}]}".

(** The [message] the notifier speaks for [first :: others]. *)
Definition new_mail_message (first : pydict) (others : list pydict) : string :=
  let count := S (length others) in
  let sender :=
    Py.or_empty (Py.or_ (dget first "from")
                   (Py.or_ (dget first "from_name")
                      (Py.or_ (dget first "from_email") (Some "someone")))) in
  let subject := Py.or_empty (Py.or_ (dget first "subject") (Some "(No Subject)")) in
  let spoken :=
    if 1 <? count
    then "You just received " +:+ pretty count +:+ " new emails. The most recent is from "
         +:+ sender +:+ " about " +:+ quoted subject +:+ ". Want me to open it?"
    else "You just received a new email from " +:+ sender +:+ " about "
         +:+ quoted subject +:+ ". Want me to open it?" in
  spoken +:+ " <suggestions>" +:+ new_mail_suggestions +:+ "</suggestions>".

Section Notifier.
Variable w : World.

(** [_fetch_unread_email_contacts].  A reply of the searches that is a text
    is one of their "No emails found" messages, for which the method returns
    the empty list; the other replies are [json.dumps] of the list of hits,
    which [json.loads] gives back. *)
Definition _fetch_unread_email_contacts (max_results : Z) : M (list pydict) :=
  try_except
    (let* s := get in
     let* resp :=
       if bool_decide (service_type s = "google")
       then gmail_search_emails w "in:inbox is:unread" max_results false
       else outlook_search_emails w "" max_results false in
     match resp with
     | json_list items =>
         if dumps_contains "No emails found" items then ret [] else ret items
     | text _ => ret []
     | json_dict _ => ret []
     end)
    (fun _ => ret []).

(** [for contact in contacts] of the notifier; [new_contacts] is the list
    built so far. *)
Fixpoint announce_loop (contacts new_contacts : list pydict) : M (list pydict) :=
  match contacts with
  | [] => ret new_contacts
  | contact :: rest =>
      let* s := get in
      let cid := dget contact "id" in
      if negb (Py.otruthy cid) || _is_handled_email s cid
         || bool_decide (Py.or_empty cid ∈ _announced_unread_ids s)
      then announce_loop rest new_contacts
      else
        modify (fun s => set_announced_unread_ids
                           ({[Py.or_empty cid]} ∪ _announced_unread_ids s) s) >>
        announce_loop rest (new_contacts ++ [contact])
  end.

(** [for contact in new_contacts: self._merge_contact(contact)] *)
Fixpoint merge_each (new_contacts : list pydict) : M unit :=
  match new_contacts with
  | [] => ret tt
  | contact :: rest => _merge_contact contact >> merge_each rest
  end.

(** The body of [while self._active]: what is raised is printed and the
    loop goes on. *)
Definition poll_once : M unit :=
  try_except
    (let* contacts := _fetch_unread_email_contacts 5 in
     let* new_contacts := announce_loop contacts [] in
     match new_contacts with
     | [] => ret tt
     | first :: others =>
         merge_each new_contacts >>
         _publish_people_list >>
         send_audio_response w (Some (new_mail_message first others)) "New email arrived."
     end)
    (fun _ => ret tt).

End Notifier.

(** ** The audio endpoint *)

(** [\d] on the code points below 128. *)
Definition is_digit (c : ascii) : bool :=
  let n := nat_of_ascii c in (48 <=? n) && (n <=? 57).

(** The longest run of digits a string starts with, and what follows it. *)
Fixpoint digits (s : string) : string * string :=
  match s with
  | EmptyString => (EmptyString, EmptyString)
  | String c s' =>
      if is_digit c then (String c (digits s').1, (digits s').2) else (EmptyString, s)
  end.

(** [int(ds)] for a run of digits, read from the left with [acc] so far. *)
Fixpoint int_from (acc : nat) (ds : string) : nat :=
  match ds with
  | EmptyString => acc
  | String c ds' => int_from (10 * acc + (nat_of_ascii c - 48)) ds'
  end.

Definition int (ds : string) : nat := int_from 0 ds.

(** A match of the range pattern at the start of [s]: [bytes=], one digit
    or more (the first group), a dash, and the digits that follow, if any
    (the second group).  Both groups are greedy; the first cannot give a
    digit back, since what follows it has to be the dash. *)
Definition range_match_here (s : string) : option (string * string) :=
  if Py.startswith "bytes=" s then
    let '(first, after) := digits (Py.drop 6 s) in
    if Py.truthy first then
      match after with
      | String "-" after => Some (first, (digits after).1)
      | _ => None
      end
    else None
  else None.

(** [re.search] of the range pattern in [s]: the leftmost match. *)
Fixpoint range_search (s : string) : option (string * string) :=
  match range_match_here s with
  | Some groups => Some groups
  | None =>
      match s with
      | EmptyString => None
      | String _ s' => range_search s'
      end
  end.

(** What [get_audio] answers.  An audio response carries the three fixed
    headers; [content_length] and [content_range] are the numbers written in
    the headers of these names. *)
Inductive AudioAnswer : Type :=
| PlainTextResponse (text : string) (status_code : nat)
| Response (content : list Byte.byte) (content_length : nat)
    (content_range : option (nat * nat * nat)) (status_code : nat).

(** [get_audio], on the store [_GENERATED_AUDIO]. *)
Definition get_audio (_GENERATED_AUDIO : gmap string (list Byte.byte))
    (audio_id : string) (range : option string) : AudioAnswer :=
  match _GENERATED_AUDIO !! audio_id with
  | None | Some [] => PlainTextResponse "Not Found" 404
  | Some audio_data =>
      let file_size := length audio_data in
      match range with
      | None => Response audio_data file_size None 200
      | Some range =>
          match range_search range with
          | None => PlainTextResponse "Invalid Range header" 416
          | Some (first, last) =>
              let start := int first in
              let end_ := if Py.truthy last then int last else file_size - 1 in
              if (file_size <=? start) || (end_ <? start)
              then PlainTextResponse "Range not satisfiable" 416
              else
                let content := take (end_ + 1 - start) (drop start audio_data) in
                Response content (length content) (Some (start, end_, file_size)) 206
          end
      end
  end.

(** A stored clip of ten bytes. *)
Definition ten_bytes : list Byte.byte :=
  [Byte.x00; Byte.x01; Byte.x02; Byte.x03; Byte.x04; Byte.x05; Byte.x06; Byte.x07;
   Byte.x08; Byte.x09].

(** The test of the notifier's loop, on the two sets it reads: the contact
    has no id, or its id is handled or announced. *)
Definition passed_over (handled announced : gset string) (contact : pydict) : bool :=
  let cid := dget contact "id" in
  negb (Py.otruthy cid)
  || (match cid with Some i => Py.truthy i && bool_decide (i ∈ handled) | None => false end)
  || bool_decide (Py.or_empty cid ∈ announced).

(** A message of the Outlook inbox that a search lists: it is unread and
    the session has not handled it. *)
Definition listable (s : Session) (m : GraphMessage) : bool :=
  negb (g_isRead m) && negb (_is_handled_email s (g_id m)).

(** The number of entries a search with limit [max_results] lets through. *)
Definition search_limit (max_results : Z) : nat := Z.to_nat (Z.max 1 max_results).

(** * Properties *)

(** ** Strings *)

Module PyFacts.
Import Py.

Lemma append_nil_l (s : string) : "" +:+ s = s.
Proof. reflexivity. Qed.

Lemma append_cons (c : ascii) (a b : string) : String c a +:+ b = String c (a +:+ b).
Proof. reflexivity. Qed.

Lemma append_assoc (a b c : string) : (a +:+ b) +:+ c = a +:+ (b +:+ c).
Proof. induction a as [|x a IH]; [done | by rewrite !append_cons, IH]. Qed.


Lemma truthy_true (s : string) : truthy s = true <-> s <> "".
Proof. destruct s; simpl; split; congruence. Qed.

Lemma truthy_false (s : string) : truthy s = false <-> s = "".
Proof. destruct s; simpl; split; congruence. Qed.

Lemma truthy_lower (s : string) : truthy (lower s) = truthy s.
Proof. by destruct s. Qed.

Lemma startswith_append (p y : string) : startswith p (p +:+ y) = true.
Proof.
  induction p as [|c p IH]; [done |].
  rewrite append_cons. simpl. by rewrite Ascii.eqb_refl.
Qed.

Lemma startswith_drop (p s : string) :
  startswith p s = true -> s = p +:+ drop (String.length p) s.
Proof.
  revert s. induction p as [|c p IH]; intros s; simpl; [done |].
  destruct s as [|d s]; [done |].
  destruct (Ascii.eqb c d) eqn:E; [| done].
  apply Ascii.eqb_eq in E as ->. intros H. rewrite append_cons. f_equal. by apply IH.
Qed.

(** [find_sub] cuts the string at an occurrence of the pattern ... *)
Lemma find_sub_Some (p s a b : string) :
  find_sub p s = Some (a, b) -> s = a +:+ p +:+ b.
Proof.
  revert a b. induction s as [|c s IH]; intros a b.
  - simpl. destruct (startswith p "") eqn:E; [| done].
    intros [= <- <-]. by apply startswith_drop in E.
  - cbn [find_sub]. destruct (startswith p (String c s)) eqn:E.
    + intros [= <- <-]. by apply startswith_drop in E.
    + destruct (find_sub p s) as [[a' b']|] eqn:F; [| done].
      intros [= <- <-]. rewrite append_cons. f_equal. by apply IH.
Qed.


(** Without an occurrence there is nothing to find, and conversely. *)
Lemma find_sub_None (p s : string) :
  find_sub p s = None <-> forall x y, s <> x +:+ p +:+ y.
Proof.
  split.
  - induction s as [|c s IH].
    + simpl. destruct (startswith p "") eqn:E; [done |]. intros _ x y Hs.
      destruct x; [| done].
      rewrite append_nil_l in Hs. rewrite Hs, startswith_append in E. done.
    + cbn [find_sub]. destruct (startswith p (String c s)) eqn:E; [done |].
      destruct (find_sub p s) as [[a' b']|] eqn:F; [done |].
      intros _ x y Hs. destruct x as [|d x].
      * rewrite append_nil_l in Hs. rewrite Hs, startswith_append in E. done.
      * rewrite append_cons in Hs. injection Hs as -> Hs. by apply (IH eq_refl x y).
  - intros H. destruct (find_sub p s) as [[a b]|] eqn:F; [| done].
    apply find_sub_Some in F. by apply H in F.
Qed.

End PyFacts.

(** ** Frame rules of the session monad *)

Section Frame.
Context {B : Type} (attr : Session -> B).

Lemma preserves_ret {A} (a : A) : preserves attr (ret a).
Proof. done. Qed.

Lemma preserves_call {A} (r : result A) : preserves attr (call r).
Proof. done. Qed.

Lemma preserves_raise {A} (e : string) : preserves attr (@raise A e).
Proof. done. Qed.

Lemma preserves_get : preserves attr get.
Proof. done. Qed.

Lemma preserves_modify (f : Session -> Session) :
  (forall s, attr (f s) = attr s) -> preserves attr (modify f).
Proof. intros H s. apply H. Qed.

Lemma preserves_bind {A C} (m : M A) (k : A -> M C) :
  preserves attr m -> (forall a, preserves attr (k a)) -> preserves attr (bind m k).
Proof.
  intros Hm Hk s. unfold bind. specialize (Hm s).
  destruct (m s) as [[a|e] s1]; simpl in *; [| done].
  by rewrite Hk.
Qed.

Lemma preserves_try_except {A} (m : M A) (h : string -> M A) :
  preserves attr m -> (forall e, preserves attr (h e)) -> preserves attr (try_except m h).
Proof.
  intros Hm Hh s. unfold try_except. specialize (Hm s).
  destruct (m s) as [[a|e] s1]; simpl in *; [done |].
  by rewrite Hh.
Qed.

Lemma preserves_when (b : bool) (m : M unit) :
  preserves attr m -> preserves attr (when b m).
Proof. intros Hm. destruct b; [done | apply preserves_ret]. Qed.

End Frame.

(** Decomposes a method along its control flow, leaving the writes that
    touch the attribute in question. *)
Ltac frame_step :=
  first
    [ apply preserves_ret | apply preserves_call | apply preserves_raise
    | apply preserves_get
    | apply preserves_bind | apply preserves_try_except | apply preserves_when
    | apply preserves_modify; intros; reflexivity
    | match goal with
      | |- preserves _ (let _ := _ in _) => cbv zeta
      | |- preserves _ (match ?x with _ => _ end) => destruct x
      | |- preserves _ (if ?b then _ else _) => destruct b
      | |- forall _, _ => intros
      end
    | assumption ].

Ltac frame := repeat frame_step.

(** The methods the loaders are made of, down to the writes. *)
Ltac unfold_methods :=
  unfold _ensure_email_context, _load_gmail_email_into_context,
    _load_outlook_email_into_context, gmail_mark_as_read, outlook_mark_as_read,
    _gmail_context_action, _ensure_account_identity, _merge_contact,
    _publish_people_list, update_context_display, show_draft, ws_send_json,
    _remember_handled_email, announced_discard.

(** *** The focus is written by the loaders, the draft tools, send, delete
    and archive only *)

Lemma _remember_handled_email_focus (i : option string) :
  preserves current_email_context (_remember_handled_email i)
  /\ preserves current_event_context (_remember_handled_email i).
Proof. split; unfold _remember_handled_email; frame. Qed.

Lemma _forget_handled_email_focus (i : option string) :
  preserves current_email_context (_forget_handled_email i)
  /\ preserves current_event_context (_forget_handled_email i).
Proof. split; unfold _forget_handled_email; frame. Qed.

Lemma gmail_mark_as_read_focus (w : World) (i : option string) :
  preserves current_email_context (gmail_mark_as_read w i)
  /\ preserves current_event_context (gmail_mark_as_read w i).
Proof.
  split; unfold gmail_mark_as_read, _gmail_context_action, announced_discard;
    frame; simpl; frame; apply _remember_handled_email_focus.
Qed.

Lemma gmail_mark_as_unread_focus (w : World) (i : option string) :
  preserves current_email_context (gmail_mark_as_unread w i)
  /\ preserves current_event_context (gmail_mark_as_unread w i).
Proof.
  split; unfold gmail_mark_as_unread, _gmail_context_action, announced_discard;
    frame; simpl; frame; apply _forget_handled_email_focus.
Qed.

Lemma outlook_mark_as_read_focus (w : World) (i : option string) :
  preserves current_email_context (outlook_mark_as_read w i)
  /\ preserves current_event_context (outlook_mark_as_read w i).
Proof.
  split; unfold outlook_mark_as_read, announced_discard;
    frame; apply _remember_handled_email_focus.
Qed.

Lemma outlook_mark_as_unread_focus (w : World) (i : option string) :
  preserves current_email_context (outlook_mark_as_unread w i)
  /\ preserves current_event_context (outlook_mark_as_unread w i).
Proof.
  split; unfold outlook_mark_as_unread, announced_discard;
    frame; apply _forget_handled_email_focus.
Qed.

(** C10. Marking a message read or unread never clears the focus: the four
    tools leave [current_email_context] and [current_event_context] as they
    were, for every session, every message id (given or taken from the
    focus) and every answer of the provider. *)
Theorem mark_read_unread_keep_focus (w : World) (message_id : option string) (s : Session) :
  let keeps (tool : option string -> M reply) :=
    current_email_context (tool message_id s).2 = current_email_context s
    /\ current_event_context (tool message_id s).2 = current_event_context s in
  keeps (gmail_mark_as_read w) /\ keeps (gmail_mark_as_unread w)
  /\ keeps (outlook_mark_as_read w) /\ keeps (outlook_mark_as_unread w).
Proof.
  cbv zeta. repeat split.
  all: first
    [ apply gmail_mark_as_read_focus | apply gmail_mark_as_unread_focus
    | apply outlook_mark_as_read_focus | apply outlook_mark_as_unread_focus ].
Qed.

(** ** Marking as read twice *)

Lemma gset_add_twice (i : string) (X : gset string) : {[i]} ∪ ({[i]} ∪ X) = {[i]} ∪ X.
Proof. apply set_eq. intros x. rewrite !elem_of_union. tauto. Qed.

Lemma gset_discard_twice (i : string) (X : gset string) : X ∖ {[i]} ∖ {[i]} = X ∖ {[i]}.
Proof. apply set_eq. intros x. rewrite !elem_of_difference. tauto. Qed.

(** What [_gmail_context_action] does for a given id when it is told not to
    clear the focus. *)
Lemma _gmail_context_action_keep (t : string) (action_func : string -> result unit)
    (success_msg : string) (s : Session) :
  Py.truthy t = true ->
  _gmail_context_action (Some t) action_func success_msg false s
  = (match action_func t with Ok _ => Ok (text success_msg) | Raise e => Raise e end, s).
Proof.
  intros Tt.
  unfold _gmail_context_action, target_of, Py.or_, bind, get, call, ret, when. simpl.
  rewrite !Tt. by destruct (action_func t).
Qed.

Lemma gmail_mark_as_read_eq (w : World) (message_id : option string) (s : Session) :
  gmail_mark_as_read w message_id s
  = match target_of s message_id with
    | Some t =>
        if Py.truthy t then
          match gmail_action w (fun i => gmail_messages_modify w i remove_UNREAD) t with
          | Ok _ => (Ok (text "Email marked as read."), marked_read t s)
          | Raise e => (Raise e, s)
          end
        else (Ok err_no_message_id, s)
    | None => (Ok err_no_message_id, s)
    end.
Proof.
  unfold gmail_mark_as_read, bind at 1, get.
  destruct (target_of s message_id) as [t|]; [| done].
  destruct (Py.truthy t) eqn:Tt; [| done].
  unfold bind. rewrite _gmail_context_action_keep by done.
  destruct (gmail_action w _ t); [| done].
  unfold _remember_handled_email, when, announced_discard, modify. by rewrite Tt.
Qed.

Lemma outlook_mark_as_read_eq (w : World) (message_id : option string) (s : Session) :
  outlook_mark_as_read w message_id s
  = match target_of s message_id with
    | Some t =>
        if Py.truthy t then
          match graph_patch_isRead w t true with
          | Ok _ => (Ok (text "Email marked as read."), marked_read t s)
          | Raise e => (Raise e, s)
          end
        else (Ok err_no_message_id, s)
    | None => (Ok err_no_message_id, s)
    end.
Proof.
  unfold outlook_mark_as_read, bind at 1, get.
  destruct (target_of s message_id) as [t|]; [| done].
  destruct (Py.truthy t) eqn:Tt; [| done].
  unfold bind, call. destruct (graph_patch_isRead w t true); [| done].
  unfold _remember_handled_email, when, announced_discard, modify. by rewrite Tt.
Qed.

Lemma marked_read_twice (t : string) (s : Session) :
  marked_read t (marked_read t s) = marked_read t s.
Proof.
  unfold marked_read, set_handled_email_ids, set_announced_unread_ids. simpl.
  by rewrite gset_add_twice, gset_discard_twice.
Qed.

Lemma target_of_marked_read (t : string) (s : Session) (message_id : option string) :
  target_of (marked_read t s) message_id = target_of s message_id.
Proof. done. Qed.

Lemma gmail_mark_as_read_twice (w : World) (message_id : option string) (s : Session) :
  gmail_mark_as_read w message_id (gmail_mark_as_read w message_id s).2
  = gmail_mark_as_read w message_id s.
Proof.
  rewrite !gmail_mark_as_read_eq.
  destruct (target_of s message_id) as [t|] eqn:Ht; simpl; [| by rewrite Ht].
  destruct (Py.truthy t) eqn:Tt; simpl; [| by rewrite Ht, Tt].
  destruct (gmail_action w _ t) eqn:G; simpl.
  - by rewrite target_of_marked_read, Ht, Tt, G, marked_read_twice.
  - by rewrite Ht, Tt, G.
Qed.

Lemma outlook_mark_as_read_twice (w : World) (message_id : option string) (s : Session) :
  outlook_mark_as_read w message_id (outlook_mark_as_read w message_id s).2
  = outlook_mark_as_read w message_id s.
Proof.
  rewrite !outlook_mark_as_read_eq.
  destruct (target_of s message_id) as [t|] eqn:Ht; simpl; [| by rewrite Ht].
  destruct (Py.truthy t) eqn:Tt; simpl; [| by rewrite Ht, Tt].
  destruct (graph_patch_isRead w t true) eqn:G; simpl.
  - by rewrite target_of_marked_read, Ht, Tt, G, marked_read_twice.
  - by rewrite Ht, Tt, G.
Qed.

Lemma gmail_mark_as_read_done (w : World) (message_id : option string) (s : Session) :
  let once := gmail_mark_as_read w message_id s in
  ws_sent once.2 = ws_sent s
  /\ (once.1 = Ok (text "Email marked as read.") ->
      exists t, target_of s message_id = Some t /\ t ∈ _handled_email_ids once.2).
Proof.
  cbv zeta. rewrite gmail_mark_as_read_eq.
  destruct (target_of s message_id) as [t|]; [| done].
  destruct (Py.truthy t); [| done].
  destruct (gmail_action w _ t); [| done].
  split; [done |]. intros _. exists t. split; [done |].
  simpl. apply elem_of_union_l. by apply elem_of_singleton.
Qed.

Lemma outlook_mark_as_read_done (w : World) (message_id : option string) (s : Session) :
  let once := outlook_mark_as_read w message_id s in
  ws_sent once.2 = ws_sent s
  /\ (once.1 = Ok (text "Email marked as read.") ->
      exists t, target_of s message_id = Some t /\ t ∈ _handled_email_ids once.2).
Proof.
  cbv zeta. rewrite outlook_mark_as_read_eq.
  destruct (target_of s message_id) as [t|]; [| done].
  destruct (Py.truthy t); [| done].
  destruct (graph_patch_isRead w t true); [| done].
  split; [done |]. intros _. exists t. split; [done |].
  simpl. apply elem_of_union_l. by apply elem_of_singleton.
Qed.

(** C8. [markRead] is idempotent: with the provider answering the second
    request as it answered the first, [gmail_mark_as_read] and
    [outlook_mark_as_read] called a second time return the same reply and
    leave the whole session (handled set, announced set, focus, everything
    sent to the client) as the first call left it.  The call sends nothing to
    the client, and when it reports success the message id is in the handled
    set. *)
Theorem mark_as_read_idempotent (w : World) (message_id : option string) (s : Session) :
  let idempotent (tool : option string -> M reply) :=
    tool message_id (tool message_id s).2 = tool message_id s
    /\ ws_sent (tool message_id s).2 = ws_sent s
    /\ ((tool message_id s).1 = Ok (text "Email marked as read.") ->
        exists t, target_of s message_id = Some t
                  /\ t ∈ _handled_email_ids (tool message_id s).2
                  /\ t ∈ _handled_email_ids (tool message_id (tool message_id s).2).2) in
  idempotent (gmail_mark_as_read w) /\ idempotent (outlook_mark_as_read w).
Proof.
  cbv zeta. split.
  - rewrite gmail_mark_as_read_twice.
    destruct (gmail_mark_as_read_done w message_id s) as [Hws Hin].
    split; [done |]. split; [done |]. intros H. destruct (Hin H) as (t & Ht & Hh). eauto.
  - rewrite outlook_mark_as_read_twice.
    destruct (outlook_mark_as_read_done w message_id s) as [Hws Hin].
    split; [done |]. split; [done |]. intros H. destruct (Hin H) as (t & Ht & Hh). eauto.
Qed.

(** ** Send and cancel without a draft *)

Lemma pending_drafts_nil (s : Session) :
  pending_drafts s = [] <->
  last_draft_google s = None /\ Py.otruthy (last_draft_microsoft_id s) = false.
Proof.
  unfold pending_drafts.
  destruct (last_draft_google s), (last_draft_microsoft_id s) as [i|]; simpl;
    try destruct (Py.truthy i); simpl; split; try done; by intros [? ?].
Qed.

(** C3, as stated, fails for cancel: cancelling with no pending draft is not
    an error.  In a fresh session [cancel_draft] returns normally. *)
Lemma cancel_without_draft_is_no_error :
  ~ (forall s : Session, pending_drafts s = [] -> exists e, (cancel_draft s).1 = Raise e).
Proof.
  intros H. destruct (H (init_session "google") eq_refl) as [e He].
  vm_compute in He. discriminate.
Qed.

(** C3, amended. With no pending draft, [gmail_send_draft] and
    [outlook_send_draft] return the no-draft error and leave the session
    untouched; cancelling returns normally: it leaves both draft slots empty,
    tells the client to clear its draft preview and changes nothing else. *)
Theorem send_without_draft_fails_cancel_clears (w : World) (s : Session) :
  pending_drafts s = [] ->
  gmail_send_draft w s = (Ok err_no_draft, s)
  /\ outlook_send_draft w s = (Ok err_no_draft, s)
  /\ cancel_draft s = (Ok tt, draft_cleared s)
  /\ pending_drafts (draft_cleared s) = [].
Proof.
  intros [Hg Hm]%pending_drafts_nil. repeat split.
  - unfold gmail_send_draft, bind, get. by rewrite Hg.
  - unfold outlook_send_draft, bind, get. by rewrite Hm.
Qed.

Lemma send_without_draft_fails_cancel_clears_witness :
  pending_drafts (init_session "microsoft") = []
  /\ outlook_send_draft (outlook_world []) (init_session "microsoft")
     = (Ok err_no_draft, init_session "microsoft").
Proof.
  split; [reflexivity |].
  apply (send_without_draft_fails_cancel_clears (outlook_world []) (init_session "microsoft")).
  reflexivity.
Defined.

(** ** Replying without a focus *)

Lemma find_none_Forall {A} (f : A -> bool) (l : list A) :
  Forall (fun x => f x = false) l -> find f l = None.
Proof. induction 1 as [|x l Hx _ IH]; simpl; [done | by rewrite Hx]. Qed.

Lemma contact_target_none (s : Session) (unhandled_only : bool) (target_id : option string) :
  no_contact_target s -> contact_target s unhandled_only target_id = target_id.
Proof.
  intros H. unfold contact_target. rewrite find_none_Forall; [done |].
  eapply Forall_impl; [exact H |]. intros c Hc. simpl in Hc.
  destruct (bool_decide (c_service c = service_type s)) eqn:E; [| done].
  apply bool_decide_eq_true in E. by rewrite (Hc E).
Qed.

Lemma _ensure_email_context_none (w : World) (mark_read : bool) (s : Session) :
  current_email_context s = None -> no_contact_target s ->
  _ensure_email_context w None mark_read s = (Ok false, s).
Proof.
  intros Hc Hn. unfold _ensure_email_context, bind at 1, get. rewrite Hc. simpl.
  by rewrite !contact_target_none.
Qed.

(** C5, as stated, fails: with no email in focus [gmail_draft_reply] falls
    back on the recent contacts.  After a search that listed Dana's message,
    and no read, the reply draft is created (and her message is opened and
    marked read on the way). *)
Lemma draft_reply_falls_back_on_contacts :
  ~ (forall (w : World) (body : string) (s : Session),
       current_email_context s = None ->
       gmail_draft_reply w body s = (Ok err_no_context, s)).
Proof.
  intros H.
  specialize (H (gmail_world [dana_gmail]) "I'll be there at 3" after_search eq_refl).
  vm_compute in H. discriminate.
Qed.

(** C5, amended. When no email is in focus and no recent contact of the
    session's provider carries a message id, [gmail_draft_reply] and
    [outlook_draft_reply] return the no-context error and the session is
    exactly as before: no draft, no focus, nothing sent to the client. *)
Theorem draft_reply_without_target (w : World) (body : string) (s : Session) :
  current_email_context s = None -> no_contact_target s ->
  gmail_draft_reply w body s = (Ok err_no_context, s)
  /\ outlook_draft_reply w body s = (Ok err_no_context, s).
Proof.
  intros Hc Hn. split.
  - unfold gmail_draft_reply, bind. by rewrite _ensure_email_context_none.
  - unfold outlook_draft_reply, bind. by rewrite _ensure_email_context_none.
Qed.

Lemma draft_reply_without_target_witness :
  gmail_draft_reply (gmail_world [dana_gmail]) "I'll be there at 3" (init_session "google")
  = (Ok err_no_context, init_session "google").
Proof.
  apply (draft_reply_without_target (gmail_world [dana_gmail]) "I'll be there at 3"
           (init_session "google")).
  - reflexivity.
  - unfold no_contact_target. simpl. constructor.
Defined.

(** ** One pending draft *)














(** ** Reading an email *)

Lemma returns_ret {A} (v : A) : returns v (ret v).
Proof. by intros s a s' [= <- _]. Qed.

Lemma returns_bind {A C} (v : C) (m : M A) (k : A -> M C) :
  (forall a, returns v (k a)) -> returns v (bind m k).
Proof.
  intros Hk s c s'. unfold bind. destruct (m s) as [[a|e] s1]; [| done].
  apply Hk.
Qed.

Lemma bind_modify {A} (f : Session -> Session) (m : M A) (s : Session) :
  bind (modify f) (fun _ => m) s = m (f s).
Proof. done. Qed.

(** What the Gmail loader leaves behind when it returns: the context built
    from the provider's answer is in focus, and no event is. *)
Lemma _load_gmail_email_into_context_focus (w : World) (message_id : string)
    (mark_read : bool) (s s' : Session) (c : EmailContext) (body : string) :
  _load_gmail_email_into_context w message_id mark_read s = (Ok (c, body), s') ->
  exists msg, gmail_messages_get w message_id = Ok msg
              /\ c = gmail_context w msg
              /\ current_email_context s' = Some c
              /\ current_event_context s' = None.
Proof.
  unfold _load_gmail_email_into_context, bind at 1, call.
  destruct (gmail_service w); [| done].
  unfold bind at 1, call.
  destruct (gmail_messages_get w message_id) as [msg|e]; [| done].
  rewrite !bind_modify.
  set (s2 := set_current_event_context None _).
  set (rest := bind update_context_display _).
  intros E. exists msg. split; [done |].
  assert (Hret : returns (gmail_context w msg, gm_body msg) rest).
  { unfold rest. repeat (apply returns_bind; intros). apply returns_ret. }
  assert (Hc : preserves current_email_context rest).
  { unfold rest. unfold_methods. frame. }
  assert (He : preserves current_event_context rest).
  { unfold rest. unfold_methods. frame. }
  specialize (Hret _ _ _ E). injection Hret as -> _.
  specialize (Hc s2). specialize (He s2). rewrite E in Hc, He. simpl in *.
  by rewrite Hc, He.
Qed.

Lemma _load_outlook_email_into_context_focus (w : World) (message_id : string)
    (mark_read : bool) (s s' : Session) (c : EmailContext) (body : string) :
  _load_outlook_email_into_context w message_id mark_read s = (Ok (c, body), s') ->
  exists msg, graph_get_message w message_id = Ok msg
              /\ c = outlook_context message_id msg
              /\ current_email_context s' = Some c
              /\ current_event_context s' = None.
Proof.
  unfold _load_outlook_email_into_context, bind at 1, call.
  destruct (graph_get_message w message_id) as [msg|e]; [| done].
  rewrite !bind_modify.
  set (s2 := set_current_event_context None _).
  set (rest := bind update_context_display _).
  intros E. exists msg. split; [done |].
  assert (Hret : returns (outlook_context message_id msg, graph_body_text msg) rest).
  { unfold rest. repeat (apply returns_bind; intros). apply returns_ret. }
  assert (Hc : preserves current_email_context rest).
  { unfold rest. unfold_methods. frame. }
  assert (He : preserves current_event_context rest).
  { unfold rest. unfold_methods. frame. }
  specialize (Hret _ _ _ E). injection Hret as -> _.
  specialize (Hc s2). specialize (He s2). rewrite E in Hc, He. simpl in *.
  by rewrite Hc, He.
Qed.


(** ** Searching *)

Lemma dget_gmail_hit (w : World) (service id : string) (meta : GmailMessage) :
  dget (gmail_hit w service id meta) "id" = Some id.
Proof. done. Qed.

Lemma dget_outlook_hit (service : string) (m : GraphMessage) :
  dget (outlook_hit service m) "id" = g_id m.
Proof. unfold dget, outlook_hit. simpl. by destruct (g_id m). Qed.

Lemma _merge_contact_handled (contact : pydict) :
  preserves _handled_email_ids (_merge_contact contact).
Proof. unfold_methods. frame. Qed.

Lemma _ensure_account_identity_handled (w : World) :
  preserves _handled_email_ids (_ensure_account_identity w).
Proof. unfold_methods. frame. Qed.

Lemma _is_handled_email_ext (s1 s2 : Session) (i : option string) :
  _handled_email_ids s1 = _handled_email_ids s2 ->
  _is_handled_email s1 i = _is_handled_email s2 i.
Proof. intros H. unfold _is_handled_email. by rewrite H. Qed.

(** The loop of [gmail_search_emails] keeps the handled set, and every entry
    it adds to [email_list] carries an id that is not handled. *)
Lemma gmail_search_loop_unhandled (w : World) (max_results : Z) (publish : bool)
    (messages : list string) (email_list found : list pydict) (s s' : Session) :
  gmail_search_loop w max_results publish messages email_list s = (Ok found, s') ->
  _handled_email_ids s' = _handled_email_ids s
  /\ forall item, item ∈ found ->
       item ∈ email_list
       \/ exists id, dget item "id" = Some id /\ _is_handled_email s (Some id) = false.
Proof.
  revert email_list s. induction messages as [|msg rest IH]; intros email_list s.
  - intros [= <- <-]. split; [done |]. intros item Hi. by left.
  - cbn [gmail_search_loop]. unfold bind at 1, get.
    destruct (_is_handled_email s (Some msg)) eqn:Hh.
    + apply IH.
    + unfold bind at 1, call. destruct (gmail_messages_get w msg) as [meta|e]; [| done].
      cbv zeta. unfold bind at 1.
      pose proof (preserves_when _handled_email_ids publish _
                    (_merge_contact_handled (gmail_hit w (service_type s) msg meta)) s) as Hm.
      destruct (when publish (_merge_contact (gmail_hit w (service_type s) msg meta)) s)
        as [[[]|e] s1]; [| done].
      simpl in Hm.
      assert (Hnew : forall item,
                 item ∈ email_list ++ [gmail_hit w (service_type s) msg meta] ->
                 item ∈ email_list
                 \/ exists id, dget item "id" = Some id
                               /\ _is_handled_email s (Some id) = false).
      { intros item [Hi | ->%list_elem_of_singleton]%elem_of_app; [by left |].
        right. exists msg. by rewrite dget_gmail_hit. }
      destruct (_ >=? _)%Z.
      * intros [= <- <-]. by split.
      * intros E. apply IH in E as [Heq Hitems]. split; [by rewrite Heq |].
        intros item Hi. destruct (Hitems item Hi) as [Ha | (id & Hid & Hu)].
        -- by apply Hnew.
        -- right. exists id. split; [done |].
           by rewrite <- (_is_handled_email_ext s1 s).
Qed.

Lemma outlook_search_loop_unhandled (max_results : Z) (publish : bool)
    (messages : list GraphMessage) (email_list found : list pydict) (s s' : Session) :
  outlook_search_loop max_results publish messages email_list s = (Ok found, s') ->
  _handled_email_ids s' = _handled_email_ids s
  /\ forall item, item ∈ found ->
       item ∈ email_list
       \/ _is_handled_email s (dget item "id") = false.
Proof.
  revert email_list s. induction messages as [|m rest IH]; intros email_list s.
  - intros [= <- <-]. split; [done |]. intros item Hi. by left.
  - cbn [outlook_search_loop]. unfold bind at 1, get.
    destruct (g_isRead m); [apply IH |].
    destruct (_is_handled_email s (g_id m)) eqn:Hh; [apply IH |].
    cbv zeta. unfold bind at 1.
    pose proof (preserves_when _handled_email_ids publish _
                  (_merge_contact_handled (outlook_hit (service_type s) m)) s) as Hm.
    destruct (when publish (_merge_contact (outlook_hit (service_type s) m)) s)
      as [[[]|e] s1]; [| done].
    simpl in Hm.
    assert (Hnew : forall item,
               item ∈ email_list ++ [outlook_hit (service_type s) m] ->
               item ∈ email_list \/ _is_handled_email s (dget item "id") = false).
    { intros item [Hi | ->%list_elem_of_singleton]%elem_of_app; [by left |].
      right. by rewrite dget_outlook_hit. }
    destruct (_ >=? _)%Z.
    + intros [= <- <-]. by split.
    + intros E. apply IH in E as [Heq Hitems]. split; [by rewrite Heq |].
      intros item Hi. destruct (Hitems item Hi) as [Ha | Hu].
      * by apply Hnew.
      * right. by rewrite <- (_is_handled_email_ext s1 s).
Qed.

Lemma handled_is_handled (s : Session) (id : string) :
  id ∈ _handled_email_ids s -> id <> "" -> _is_handled_email s (Some id) = true.
Proof.
  intros Hin Hne. unfold _is_handled_email.
  apply PyFacts.truthy_true in Hne. rewrite Hne. simpl. by apply bool_decide_eq_true.
Qed.

(** C4. A handled message does not come back in a search.  For every query,
    limit and provider answer, and every non-empty id in the handled set of
    the session, the list [gmail_search_emails] or [outlook_search_emails]
    returns has no entry with that id; the id is still handled afterwards. *)
Theorem search_skips_handled (w : World) (query : string) (max_results : Z)
    (publish : bool) (s s' : Session) (id : string) (found : list pydict) :
  id ∈ _handled_email_ids s -> id <> "" ->
  (gmail_search_emails w query max_results publish s = (Ok (json_list found), s')
   \/ outlook_search_emails w query max_results publish s = (Ok (json_list found), s')) ->
  (forall item, item ∈ found -> dget item "id" <> Some id)
  /\ id ∈ _handled_email_ids s'.
Proof.
  intros Hin Hne Hrun.
  pose proof (handled_is_handled s id Hin Hne) as Hh.
  destruct Hrun as [Hrun | Hrun]; revert Hrun.
  - unfold gmail_search_emails, bind at 1, call.
    destruct (gmail_service w); [| done]. unfold bind at 1.
    pose proof (preserves_when _handled_email_ids publish _
                  (_ensure_account_identity_handled w) s) as H1.
    destruct (when publish (_ensure_account_identity w) s) as [[[]|e] s1]; [| done].
    simpl in H1. unfold bind at 1, call.
    destruct (gmail_messages_list w _ max_results) as [messages|e]; [| done].
    unfold bind at 1.
    destruct (gmail_search_loop w max_results publish messages [] s1)
      as [[l|e] s2] eqn:E; [| done].
    apply gmail_search_loop_unhandled in E as [H2 Hitems].
    destruct l as [|item0 l]; [done |].
    unfold bind.
    assert (H3 : preserves _handled_email_ids (when publish _publish_people_list))
      by (unfold_methods; frame).
    specialize (H3 s2).
    destruct (when publish _publish_people_list s2) as [[[]|e] s3]; [| done].
    simpl in H3. intros [= <- <-]. split; [| by rewrite H3, H2, H1].
    intros item Hi Hid. destruct (Hitems item Hi) as [Ha | (id' & Hid' & Hu)].
    + by apply elem_of_nil in Ha.
    + rewrite Hid in Hid'. injection Hid' as <-.
      rewrite (_is_handled_email_ext s1 s) in Hu by done. congruence.
  - unfold outlook_search_emails, bind at 1.
    pose proof (preserves_when _handled_email_ids publish _
                  (_ensure_account_identity_handled w) s) as H1.
    destruct (when publish (_ensure_account_identity w) s) as [[[]|e] s1]; [| done].
    simpl in H1. unfold bind at 1, call.
    destruct (graph_inbox_messages w _) as [messages|e]; [| done].
    unfold bind at 1.
    destruct (outlook_search_loop max_results publish messages [] s1)
      as [[l|e] s2] eqn:E; [| done].
    apply outlook_search_loop_unhandled in E as [H2 Hitems].
    destruct l as [|item0 l]; [done |].
    unfold bind.
    assert (H3 : preserves _handled_email_ids (when publish _publish_people_list))
      by (unfold_methods; frame).
    specialize (H3 s2).
    destruct (when publish _publish_people_list s2) as [[[]|e] s3]; [| done].
    simpl in H3. intros [= <- <-]. split; [| by rewrite H3, H2, H1].
    intros item Hi Hid. destruct (Hitems item Hi) as [Ha | Hu].
    + by apply elem_of_nil in Ha.
    + rewrite Hid in Hu.
      rewrite (_is_handled_email_ext s1 s) in Hu by done. congruence.
Qed.

(** ** The contact aggregator *)

Lemma merge_contact_list_eq (service : string) (account : AccountIdentity)
    (contacts : list Contact) (contact : pydict) :
  merge_contact_list service account contacts contact
  = if bool_decide (contact = ∅) then contacts
    else
      let normalized := normalize_contact service contact in
      if skipped_as_owner account normalized then contacts
      else
        firstn 15
          match merge_existing (key_of (c_email normalized)) (key_of (c_name normalized))
                  normalized contacts with
          | Some merged => merged
          | None => normalized :: contacts
          end.
Proof.
  unfold merge_contact_list, skipped_as_owner. cbv zeta.
  destruct (bool_decide (contact = ∅)); [done |].
  destruct (_ && _ && bool_decide (_ = Some (Py.lower (acct_email account)))); [done |].
  simpl. by destruct (_ && _ && _ && _).
Qed.

(** [merge_existing] by position: it rewrites the first entry that matches
    and nothing else; without a match it gives [None]. *)
Lemma merge_existing_Some (key_email key_name : option string) (normalized : Contact)
    (contacts merged : list Contact) :
  merge_existing key_email key_name normalized contacts = Some merged ->
  exists i existing,
    contacts !! i = Some existing
    /\ contact_matches key_email key_name existing = true
    /\ (forall j e, j < i -> contacts !! j = Some e ->
                    contact_matches key_email key_name e = false)
    /\ merged = <[i := overwrite_fields existing normalized]> contacts.
Proof.
  revert merged. induction contacts as [|c rest IH]; intros merged; simpl; [done |].
  destruct (contact_matches key_email key_name c) eqn:Hc.
  - intros [= <-]. exists 0, c. repeat split; try done. intros j e Hj. lia.
  - destruct (merge_existing key_email key_name normalized rest) as [rest'|]; [| done].
    intros [= <-]. destruct (IH _ eq_refl) as (i & existing & Hi & Hm & Hbefore & ->).
    exists (S i), existing. repeat split; try done.
    intros [|j] e Hj; simpl; [by intros [= <-] |].
    apply Hbefore. lia.
Qed.

Lemma merge_existing_None (key_email key_name : option string) (normalized : Contact)
    (contacts : list Contact) :
  merge_existing key_email key_name normalized contacts = None <->
  Forall (fun e => contact_matches key_email key_name e = false) contacts.
Proof.
  induction contacts as [|c rest IH]; simpl; [by split |].
  destruct (contact_matches key_email key_name c) eqn:Hc.
  - split; [done |]. intros H. apply Forall_cons in H as [H _]. congruence.
  - destruct (merge_existing key_email key_name normalized rest).
    + split; [done |]. intros H. apply Forall_cons in H as [_ H]. by apply IH in H.
    + split; [| done]. intros _. constructor; [done | by apply IH].
Qed.

Lemma key_of_truthy (x : string) : Py.otruthy (key_of x) = Py.truthy x.
Proof. unfold key_of. destruct (Py.truthy x) eqn:E; simpl; [| done]. by rewrite PyFacts.truthy_lower. Qed.

Lemma sor_truthy (a b : string) : Py.truthy a = true -> sor a b = a.
Proof. unfold sor. by intros ->. Qed.

Lemma sor_falsy (a b : string) : Py.truthy a = false -> sor a b = b.
Proof. unfold sor. by intros ->. Qed.

(** An observation that is not skipped is not the owner ... *)
Lemma not_skipped_not_owner (account : AccountIdentity) (normalized : Contact) :
  skipped_as_owner account normalized = false -> is_owner account normalized = false.
Proof.
  unfold skipped_as_owner, is_owner. cbv zeta. rewrite !key_of_truthy, !PyFacts.truthy_lower.
  unfold key_of.
  destruct (Py.truthy (c_email normalized)) eqn:He; simpl.
  - destruct (Py.truthy (acct_email account)); simpl; [| done].
    rewrite orb_false_r. intros H%bool_decide_eq_false.
    apply bool_decide_eq_false. congruence.
  - destruct (Py.truthy (c_name normalized)) eqn:Hn; simpl.
    + destruct (Py.truthy (acct_display_name account)); simpl; [| done].
      intros H%bool_decide_eq_false. apply bool_decide_eq_false. congruence.
    + intros _. destruct (Py.truthy (acct_display_name account)) eqn:Ha; simpl; [| done].
      apply bool_decide_eq_false. apply PyFacts.truthy_false in Hn. rewrite Hn. simpl.
      intros H. rewrite <- PyFacts.truthy_lower, <- H in Ha. done.
Qed.

(** ... and the entry it is merged into does not become the owner. *)
Lemma overwrite_not_owner (account : AccountIdentity) (normalized existing : Contact) :
  skipped_as_owner account normalized = false ->
  merges_into normalized existing = true ->
  is_owner account existing = false ->
  is_owner account (overwrite_fields existing normalized) = false.
Proof.
  intros Hs Hm Ho. pose proof (not_skipped_not_owner _ _ Hs) as Hn.
  unfold merges_into, contact_matches in Hm. rewrite !key_of_truthy in Hm.
  unfold is_owner in *. simpl.
  destruct (Py.truthy (c_email normalized)) eqn:He; simpl in *.
  - rewrite (sor_truthy _ _ He), He. exact Hn.
  - rewrite (sor_falsy _ _ He).
    destruct (Py.truthy (c_email existing)) eqn:Hee; [exact Ho |].
    destruct (Py.truthy (c_name normalized)) eqn:Hnn; simpl in *; [| done].
    by rewrite (sor_truthy _ _ Hnn).
Qed.

Lemma merge_contact_list_ok (service : string) (account : AccountIdentity)
    (contacts : list Contact) (contact : pydict) :
  Forall (fun c => is_owner account c = false) contacts -> length contacts <= 15 ->
  Forall (fun c => is_owner account c = false)
         (merge_contact_list service account contacts contact)
  /\ length (merge_contact_list service account contacts contact) <= 15.
Proof.
  intros Hall Hlen. rewrite merge_contact_list_eq.
  destruct (bool_decide (contact = ∅)); [done |]. cbv zeta.
  set (n := normalize_contact service contact).
  destruct (skipped_as_owner account n) eqn:Hs; [done |].
  split; [| rewrite length_take; lia].
  apply Forall_take.
  destruct (merge_existing _ _ n contacts) as [merged|] eqn:Hm.
  - apply merge_existing_Some in Hm as (i & existing & Hi & Hmatch & _ & ->).
    apply Forall_insert; [done |].
    apply overwrite_not_owner; [done | done |].
    by eapply (Forall_lookup_1 _ _ _ _ Hall).
  - constructor; [by apply not_skipped_not_owner | done].
Qed.

Lemma _merge_contact_ok (contact : pydict) (s : Session) :
  contacts_ok s -> contacts_ok (_merge_contact contact s).2.
Proof. intros [Hall Hlen]. by apply merge_contact_list_ok. Qed.



Lemma init_session_contacts_ok (service : string) : contacts_ok (init_session service).
Proof. split; [constructor | simpl; lia]. Qed.

(** Bob is seen again while he is second in the list: his entry takes the
    new subject and the new spelling of his address, and stays second. *)
Lemma bob_again_run :
  let after := merge_contact_list "google" owner [alice; bob] bob_again in
  contact_key bob = contact_key (normalize_contact "google" bob_again)
  /\ after !! 0 = Some alice
  /\ c_email <$> after !! 1 = Some "BOB@example.com"
  /\ c_subject <$> after !! 1 = Some "report v2"
  /\ c_preview <$> after !! 1 = Some "draft attached"
  /\ length after = 2.
Proof. vm_compute. repeat split. Qed.

(** C7, as stated, fails: an observation whose key matches an existing entry
    does not move that entry to the front. *)
Lemma merged_contact_is_not_moved_to_front :
  ~ (forall (service : string) (account : AccountIdentity) (contacts : list Contact)
            (contact : pydict) (existing : Contact),
       existing ∈ contacts ->
       contact_key existing = contact_key (normalize_contact service contact) ->
       contact_key <$> head (merge_contact_list service account contacts contact)
       = Some (contact_key existing)).
Proof.
  intros H.
  specialize (H "google" owner [alice; bob] bob_again bob).
  destruct bob_again_run as (Hkey & _).
  specialize (H ltac:(set_solver) Hkey).
  vm_compute in H. discriminate.
Qed.

Lemma first_match_unique (n : Contact) (contacts : list Contact) (i i' : nat)
    (e e' : Contact) :
  contacts !! i = Some e -> merges_into n e = true ->
  (forall j x, j < i -> contacts !! j = Some x -> merges_into n x = false) ->
  contacts !! i' = Some e' -> merges_into n e' = true ->
  (forall j x, j < i' -> contacts !! j = Some x -> merges_into n x = false) ->
  i = i' /\ e = e'.
Proof.
  intros Hi Hm Hb Hi' Hm' Hb'.
  assert (i = i') as <-.
  { destruct (Nat.lt_trichotomy i i') as [Hlt | [-> | Hlt]]; [| done |].
    - specialize (Hb' _ _ Hlt Hi). congruence.
    - specialize (Hb _ _ Hlt Hi'). congruence. }
  split; [done | congruence].
Qed.

(** C7, amended. For an observation that is not empty and not the owner's,
    with [n] its normalized record: when an entry of [recent_contacts]
    matches it (same lower-cased email; or, the observation having no email,
    same lower-cased name), the first such entry takes every non-empty field
    of [n] and keeps the others, stays at its position, and no other entry
    changes; when no entry matches, [n] is inserted at the front.  Either way
    the list is then cut to its first 15 entries. *)
Theorem merge_contact_upsert (contact : pydict) (s : Session) :
  contact <> ∅ ->
  skipped_as_owner (account_identity s) (normalize_contact (service_type s) contact) = false ->
  let n := normalize_contact (service_type s) contact in
  let after := recent_contacts (_merge_contact contact s).2 in
  (forall i existing,
      recent_contacts s !! i = Some existing -> merges_into n existing = true ->
      (forall j e, j < i -> recent_contacts s !! j = Some e -> merges_into n e = false) ->
      after = firstn 15 (<[i := overwrite_fields existing n]> (recent_contacts s)))
  /\ (Forall (fun e => merges_into n e = false) (recent_contacts s) ->
      after = firstn 15 (n :: recent_contacts s)).
Proof.
  intros Hne Hs n after. subst after. unfold _merge_contact, modify. simpl.
  rewrite merge_contact_list_eq. rewrite bool_decide_eq_false_2 by done.
  cbv zeta. rewrite Hs. fold n. split.
  - intros i existing Hi Hm Hb.
    destruct (merge_existing _ _ n (recent_contacts s)) as [merged|] eqn:E.
    + apply merge_existing_Some in E as (i' & e' & Hi' & Hm' & Hb' & ->).
      by destruct (first_match_unique n _ _ _ _ _ Hi Hm Hb Hi' Hm' Hb') as [<- <-].
    + apply merge_existing_None in E.
      pose proof (Forall_lookup_1 _ _ _ _ E Hi) as Hno. cbv beta in Hno.
      unfold merges_into in Hm. rewrite Hm in Hno. discriminate Hno.
  - intros Hall. unfold merges_into in Hall.
    apply (merge_existing_None _ _ n) in Hall. by rewrite Hall.
Qed.

Lemma merge_contact_upsert_witness :
  let s := set_recent_contacts [alice; bob] (set_account_identity owner (init_session "google")) in
  recent_contacts (_merge_contact bob_again s).2
  = firstn 15 (<[1 := overwrite_fields bob (normalize_contact "google" bob_again)]> [alice; bob]).
Proof.
  cbv zeta.
  refine (proj1 (merge_contact_upsert bob_again
                   (set_recent_contacts [alice; bob]
                      (set_account_identity owner (init_session "google"))) _ _)
                1 bob _ _ _).
  - vm_compute. discriminate.
  - vm_compute. reflexivity.
  - reflexivity.
  - vm_compute. reflexivity.
  - intros [|j] e Hj; [| lia]. intros [= <-]. vm_compute. reflexivity.
Defined.

(** ** The suggestion block *)

Module SuggestFacts.
Import Suggest.





Section Collect.
Variable loads : string -> option json.



End Collect.



End SuggestFacts.



(** ** Invariants of the mail tools *)

Section Stable.
Variable P : Session -> Prop.

Lemma stable_ret {A} (a : A) : stable P (ret a).
Proof. by intros s. Qed.

Lemma stable_call {A} (r : result A) : stable P (call r).
Proof. by intros s. Qed.

Lemma stable_raise {A} (e : string) : stable P (@raise A e).
Proof. by intros s. Qed.

Lemma stable_get : stable P get.
Proof. by intros s. Qed.

Lemma stable_modify (f : Session -> Session) :
  (forall s, P s -> P (f s)) -> stable P (modify f).
Proof. intros H s. apply H. Qed.

Lemma stable_bind {A C} (m : M A) (k : A -> M C) :
  stable P m -> (forall a, stable P (k a)) -> stable P (bind m k).
Proof.
  intros Hm Hk s Hs. unfold bind. specialize (Hm s Hs).
  destruct (m s) as [[a|e] s1]; simpl in *; [| done]. by apply Hk.
Qed.

Lemma stable_try_except {A} (m : M A) (h : string -> M A) :
  stable P m -> (forall e, stable P (h e)) -> stable P (try_except m h).
Proof.
  intros Hm Hh s Hs. unfold try_except. specialize (Hm s Hs).
  destruct (m s) as [[a|e] s1]; simpl in *; [done |]. by apply Hh.
Qed.

Lemma stable_when (b : bool) (m : M unit) : stable P m -> stable P (when b m).
Proof. intros Hm. destruct b; [done | apply stable_ret]. Qed.

End Stable.

Ltac stable_step :=
  first
    [ apply stable_ret | apply stable_call | apply stable_raise | apply stable_get
    | apply stable_bind | apply stable_try_except | apply stable_when
    | apply stable_modify; intros ? ?; solve [assumption | reflexivity]
    | match goal with
      | |- stable _ (let _ := _ in _) => cbv zeta
      | |- stable _ (match ?x with _ => _ end) => destruct x
      | |- stable _ (if ?b then _ else _) => destruct b
      | |- forall _, _ => intros
      end ].

Ltac stable_methods :=
  unfold_methods;
  unfold clear_draft, _forget_handled_email;
  repeat stable_step.

Lemma gmail_search_loop_no_event (w : World) (n : Z) (publish : bool)
    (messages : list string) (email_list : list pydict) :
  stable no_event (gmail_search_loop w n publish messages email_list).
Proof.
  revert email_list. induction messages as [|msg rest IH]; intros email_list;
    cbn [gmail_search_loop]; stable_methods; apply IH.
Qed.

Lemma outlook_search_loop_no_event (n : Z) (publish : bool)
    (messages : list GraphMessage) (email_list : list pydict) :
  stable no_event (outlook_search_loop n publish messages email_list).
Proof.
  revert email_list. induction messages as [|m rest IH]; intros email_list;
    cbn [outlook_search_loop]; stable_methods; apply IH.
Qed.

(** X8. No mail tool puts a calendar event in focus: from a session without one
    (a fresh session is one) every run of mail tools ends without one, so
    the email context and the event context are never set together.
    ([cancel_draft] writes the draft slots only.) *)
Lemma mail_tools_never_focus_an_event (p : provider) (w : World) (t : mail_tool) :
  stable no_event (run_tool p w t).
Proof.
  destruct p, t as [query n|i|[to subject body|body]| |i|i|i|i]; simpl;
    unfold gmail_search_emails, outlook_search_emails, gmail_read_email,
      outlook_read_email, gmail_draft_new_email, gmail_draft_reply,
      outlook_draft_new_email, outlook_draft_reply, gmail_send_draft, outlook_send_draft,
      gmail_delete_email, gmail_archive_email, gmail_mark_as_unread,
      outlook_mark_as_unread, outlook_delete_email, outlook_archive_email;
    stable_methods;
    first [apply gmail_search_loop_no_event | apply outlook_search_loop_no_event].
Qed.

(** ** The statements on a small mailbox *)



Lemma search_skips_handled_witness :
  gmail_search_emails (gmail_world [dana_gmail; erin_gmail]) "" 5 false dana_handled
  = (Ok (json_list [gmail_hit (gmail_world [dana_gmail; erin_gmail]) "google" "m2"
                      erin_gmail]), dana_handled)
  /\ Forall (fun item => bool_decide (dget item "id" = Some "m1") = false)
            [gmail_hit (gmail_world [dana_gmail; erin_gmail]) "google" "m2" erin_gmail]
  /\ "m1" ∈ _handled_email_ids dana_handled.
Proof.
  assert (Hrun : gmail_search_emails (gmail_world [dana_gmail; erin_gmail]) "" 5 false
                   dana_handled
                 = (Ok (json_list [gmail_hit (gmail_world [dana_gmail; erin_gmail])
                                     "google" "m2" erin_gmail]), dana_handled)).
  { vm_compute. reflexivity. }
  assert (Hin : "m1" ∈ _handled_email_ids dana_handled).
  { vm_compute. reflexivity. }
  destruct (search_skips_handled (gmail_world [dana_gmail; erin_gmail]) "" 5 false
              dana_handled dana_handled "m1" _ Hin ltac:(discriminate) (or_introl Hrun))
    as [Hitems Hstill].
  split; [exact Hrun |]. split; [| exact Hstill].
  apply Forall_forall. intros item Hitem. apply bool_decide_eq_false. by apply Hitems.
Defined.

(** The handled set only ever receives non-empty ids. *)
Lemma _remember_handled_email_nonempty (i : option string) (s : Session) :
  "" ∉ _handled_email_ids s -> "" ∉ _handled_email_ids (_remember_handled_email i s).2.
Proof.
  intros H. destruct i as [[|c i]|]; simpl; [done | | done].
  intros [Hin | Hin]%elem_of_union; [| done].
  by apply elem_of_singleton in Hin.
Qed.

(** A block whose payload is not JSON is cut out of the text like any
    other, and the turn goes on without suggestions. *)
Example unparseable_block_is_stripped :
  Suggest._extract_suggestions example_json_loads
    "Sent.  <suggestions>{oops</suggestions> Anything else? "
  = Ok ("Sent.   Anything else?", []).
Proof. vm_compute. reflexivity. Qed.

(** The client shows the first three of the four pairs. *)
Example four_pairs_three_chips :
  (fun r => match r with
            | Ok (visible, items) =>
                Some (visible, length items, length (Suggest.renderSuggestions items))
            | Raise _ => None
            end)
    (Suggest._extract_suggestions example_json_loads
       ("Done. <suggestions>" +:+ four_items_text +:+ "</suggestions>"))
  = Some ("Done.", 4, 3).
Proof. vm_compute. reflexivity. Qed.

(** What the client receives for such a message: the text without the
    block, the pairs, and the audio of the text. *)
Example send_audio_response_packets :
  ws_sent (send_audio_response (gmail_world [])
             (Some ("Done. <suggestions>" +:+ four_items_text +:+ "</suggestions>"))
             "Ready" (init_session "google")).2
  = [chat_append "assistant" "Done.";
     suggestions [ {| Suggest.label := "a"; Suggest.prompt := "a" |};
                   {| Suggest.label := "b"; Suggest.prompt := "b" |};
                   {| Suggest.label := "c"; Suggest.prompt := "c" |};
                   {| Suggest.label := "d"; Suggest.prompt := "d" |} ];
     play_audio "/audio/1" "Ready"].
Proof. vm_compute. reflexivity. Qed.

(** A payload that parses to something other than an object is not caught:
    the call raises. *)
Example list_payload_raises :
  Suggest._extract_suggestions (fun _ => Some (Suggest.JArr []))
    "Hi <suggestions>[]</suggestions>"
  = Raise "AttributeError".
Proof. vm_compute. reflexivity. Qed.

(** Replying right after a search: the first listed message is opened,
    marked read, and the reply is drafted to its sender. *)
Example draft_reply_after_search :
  let run := gmail_draft_reply (gmail_world [dana_gmail]) "I'll be there at 3" after_search in
  run.1 = Ok (text "Reply draft created.")
  /\ last_draft_google run.2
     = Some {| gd_to := "dana@example.com"; gd_subject := "Re: hello";
               gd_body := "I'll be there at 3" |}
  /\ ctx_id <$> current_email_context run.2 = Some "m1"
  /\ "m1" ∈ _handled_email_ids run.2.
Proof.
  vm_compute. split; [reflexivity |]. split; [reflexivity |]. split; reflexivity.
Qed.

(** Deleting the message in focus clears the focus, marking it read does
    not. *)
Example delete_clears_focus_mark_read_keeps_it :
  let opened :=
    (gmail_read_email (gmail_world [dana_gmail]) (Some "m1") (init_session "google")).2 in
  current_email_context (gmail_delete_email (gmail_world [dana_gmail]) None opened).2 = None
  /\ ctx_id <$> current_email_context
                  (gmail_mark_as_read (gmail_world [dana_gmail]) None opened).2
     = Some "m1".
Proof. vm_compute. split; reflexivity. Qed.

(** The same on an Outlook mailbox. *)
Example outlook_read_sets_focus :
  let run := outlook_read_email (outlook_world [dana_graph]) (Some "m1")
               (init_session "microsoft") in
  focus_is "m1" run.2
  /\ c_email <$> head (recent_contacts run.2) = Some "dana@example.com"
  /\ bool_decide ("m1" ∈ _handled_email_ids run.2) = true.
Proof.
  vm_compute. split; [| split; reflexivity].
  split; [| reflexivity]. eexists. split; reflexivity.
Qed.

Example split_recipients_dedup :
  _split_recipients " a@example.com, ,B@example.com,b@example.com " 
  = ["a@example.com"; "B@example.com"].
Proof. vm_compute. reflexivity. Qed.

(** * Further properties of the mail tools *)

(** ** Marking as unread *)

Lemma gmail_mark_as_unread_eq (w : World) (message_id : option string) (s : Session) :
  gmail_mark_as_unread w message_id s
  = match target_of s message_id with
    | Some t =>
        if Py.truthy t then
          match gmail_action w (fun i => gmail_messages_modify w i add_UNREAD) t with
          | Ok _ => (Ok (text "Email marked as unread."), marked_unread t s)
          | Raise e => (Raise e, s)
          end
        else (Ok err_no_message_id, s)
    | None => (Ok err_no_message_id, s)
    end.
Proof.
  unfold gmail_mark_as_unread, bind at 1, get.
  destruct (target_of s message_id) as [t|]; [| done].
  destruct (Py.truthy t) eqn:Tt; [| done].
  unfold bind. rewrite _gmail_context_action_keep by done.
  destruct (gmail_action w _ t); [| done].
  unfold _forget_handled_email, when, announced_discard, modify, bind. rewrite Tt.
  unfold marked_unread, set_announced_unread_ids, set_handled_email_ids. simpl.
  by rewrite gset_discard_twice.
Qed.

Lemma outlook_mark_as_unread_eq (w : World) (message_id : option string) (s : Session) :
  outlook_mark_as_unread w message_id s
  = match target_of s message_id with
    | Some t =>
        if Py.truthy t then
          match graph_patch_isRead w t false with
          | Ok _ => (Ok (text "Email marked as unread."), marked_unread t s)
          | Raise e => (Raise e, s)
          end
        else (Ok err_no_message_id, s)
    | None => (Ok err_no_message_id, s)
    end.
Proof.
  unfold outlook_mark_as_unread, bind at 1, get.
  destruct (target_of s message_id) as [t|]; [| done].
  destruct (Py.truthy t) eqn:Tt; [| done].
  unfold bind, call. destruct (graph_patch_isRead w t false); [| done].
  unfold _forget_handled_email, when, announced_discard, modify, bind. rewrite Tt.
  unfold marked_unread, set_announced_unread_ids, set_handled_email_ids. simpl.
  by rewrite gset_discard_twice.
Qed.

(** X1. A message marked unread is forgotten: when [gmail_mark_as_unread] or
    [outlook_mark_as_unread] reports success, the id it worked on is in
    neither the handled nor the announced set any more, every other id is
    where it was, and nothing else in the session has changed. *)
Theorem mark_as_unread_forgets (p : provider) (w : World) (message_id : option string)
    (s : Session) :
  (run_tool p w (mark_as_unread message_id) s).1 = Ok (text "Email marked as unread.") ->
  exists t, target_of s message_id = Some t
    /\ (run_tool p w (mark_as_unread message_id) s).2
       = set_announced_unread_ids (_announced_unread_ids s ∖ {[t]})
           (set_handled_email_ids (_handled_email_ids s ∖ {[t]}) s)
    /\ _is_handled_email (run_tool p w (mark_as_unread message_id) s).2 (Some t) = false.
Proof.
  assert (Hnot : forall t, _is_handled_email (marked_unread t s) (Some t) = false).
  { intros t. unfold _is_handled_email. destruct (Py.truthy t); [| done]. simpl.
    apply bool_decide_eq_false. rewrite elem_of_difference, elem_of_singleton. tauto. }
  destruct p; simpl.
  - rewrite gmail_mark_as_unread_eq.
    destruct (target_of s message_id) as [t|]; [| done].
    destruct (Py.truthy t); [| done].
    destruct (gmail_action w _ t); [| done]. intros _. exists t. simpl.
    split; [done |]. split; [done | apply Hnot].
  - rewrite outlook_mark_as_unread_eq.
    destruct (target_of s message_id) as [t|]; [| done].
    destruct (Py.truthy t); [| done].
    destruct (graph_patch_isRead w t false); [| done]. intros _. exists t. simpl.
    split; [done |]. split; [done | apply Hnot].
Qed.

Lemma mark_as_unread_forgets_witness :
  _is_handled_email
    (run_tool google (gmail_world [dana_gmail]) (mark_as_unread (Some "m1")) dana_handled).2
    (Some "m1") = false.
Proof.
  destruct (mark_as_unread_forgets google (gmail_world [dana_gmail]) (Some "m1")
              dana_handled eq_refl) as (t & Ht & _ & Hn).
  injection Ht as <-. exact Hn.
Defined.

(** ** Deleting and archiving *)

Lemma _gmail_context_action_clear (message_id : option string)
    (action_func : string -> result unit) (success_msg : string) (s : Session) :
  _gmail_context_action message_id action_func success_msg true s
  = match target_of s message_id with
    | Some t =>
        if Py.truthy t then
          match action_func t with
          | Ok _ => (Ok (text success_msg), unfocused t s)
          | Raise e => (Raise e, s)
          end
        else (Ok err_no_message_id, s)
    | None => (Ok err_no_message_id, s)
    end.
Proof.
  unfold _gmail_context_action, bind at 1, get.
  destruct (target_of s message_id) as [t|]; [| done].
  destruct (Py.truthy t); [| done].
  unfold bind at 1, call. destruct (action_func t); [| done].
  unfold bind at 1, get, unfocused. simpl.
  destruct (current_email_context s) as [c|]; [| done].
  by destruct (bool_decide (ctx_id c = t)).
Qed.

Lemma outlook_delete_email_eq (w : World) (message_id : option string) (s : Session) :
  outlook_delete_email w message_id s
  = match target_of s message_id with
    | Some t =>
        if Py.truthy t then
          match graph_delete_message w t with
          | Ok _ => (Ok (text "Email deleted."), unfocused t s)
          | Raise e => (Raise e, s)
          end
        else (Ok err_no_message_id, s)
    | None => (Ok err_no_message_id, s)
    end.
Proof.
  unfold outlook_delete_email, bind at 1, get.
  destruct (target_of s message_id) as [t|]; [| done].
  destruct (Py.truthy t); [| done].
  unfold bind at 1, call. destruct (graph_delete_message w t); [| done].
  unfold bind at 1, get, unfocused. simpl.
  destruct (current_email_context s) as [c|]; [| done].
  by destruct (bool_decide (ctx_id c = t)).
Qed.

Lemma outlook_archive_email_eq (w : World) (message_id : option string) (s : Session) :
  outlook_archive_email w message_id s
  = match target_of s message_id with
    | Some t =>
        if Py.truthy t then
          match graph_archive_folders w with
          | Ok [] => (Ok (text "Error: Could not find Archive folder."), s)
          | Ok (folder :: _) =>
              match graph_move_message w t folder with
              | Ok _ => (Ok (text "Email archived."), unfocused t s)
              | Raise e => (Raise e, s)
              end
          | Raise e => (Raise e, s)
          end
        else (Ok err_no_message_id, s)
    | None => (Ok err_no_message_id, s)
    end.
Proof.
  unfold outlook_archive_email, bind at 1, get.
  destruct (target_of s message_id) as [t|]; [| done].
  destruct (Py.truthy t); [| done].
  unfold bind at 1, call. destruct (graph_archive_folders w) as [[|folder rest]|e]; try done.
  unfold bind at 1, call. destruct (graph_move_message w t folder); [| done].
  unfold bind at 1, get, unfocused. simpl.
  destruct (current_email_context s) as [c|]; [| done].
  by destruct (bool_decide (ctx_id c = t)).
Qed.

Lemma unfocused_spec (t : string) (s : Session) :
  current_email_context (unfocused t s)
  = match current_email_context s with
    | Some c => if bool_decide (ctx_id c = t) then None else Some c
    | None => None
    end
  /\ pending_drafts (unfocused t s) = pending_drafts s
  /\ _handled_email_ids (unfocused t s) = _handled_email_ids s
  /\ _announced_unread_ids (unfocused t s) = _announced_unread_ids s
  /\ recent_contacts (unfocused t s) = recent_contacts s.
Proof.
  unfold unfocused. destruct (current_email_context s) as [c|] eqn:Hc.
  - destruct (bool_decide (ctx_id c = t)); [| by rewrite Hc].
    unfold update_context_display, bind, get, ws_send_json, modify. simpl.
    by destruct (current_event_context s).
  - by rewrite Hc.
Qed.

Lemma removal_outcome (p : provider) (w : World) (t : mail_tool)
    (message_id : option string) (done_msg : string) (s : Session) :
  removal t = Some (message_id, done_msg) ->
  (exists i, target_of s message_id = Some i /\ Py.truthy i = true
             /\ run_tool p w t s = (Ok (text done_msg), unfocused i s))
  \/ ((run_tool p w t s).1 <> Ok (text done_msg) /\ (run_tool p w t s).2 = s).
Proof.
  destruct t; try done; intros [= -> <-]; destruct p; simpl.
  - unfold gmail_delete_email, bind, call.
    destruct (gmail_service w); [| by right].
    rewrite _gmail_context_action_clear.
    destruct (target_of s message_id) as [i|]; [| by right].
    destruct (Py.truthy i) eqn:Ti; [| by right].
    destruct (gmail_messages_trash w i); [left; by exists i | by right].
  - rewrite outlook_delete_email_eq.
    destruct (target_of s message_id) as [i|]; [| by right].
    destruct (Py.truthy i) eqn:Ti; [| by right].
    destruct (graph_delete_message w i); [left; by exists i | by right].
  - unfold gmail_archive_email. rewrite _gmail_context_action_clear.
    destruct (target_of s message_id) as [i|]; [| by right].
    destruct (Py.truthy i) eqn:Ti; [| by right].
    destruct (gmail_action w _ i); [left; by exists i | by right].
  - rewrite outlook_archive_email_eq.
    destruct (target_of s message_id) as [i|]; [| by right].
    destruct (Py.truthy i) eqn:Ti; [| by right].
    destruct (graph_archive_folders w) as [[|folder rest]|e]; [by right | | by right].
    destruct (graph_move_message w i folder); [left; by exists i | by right].
Qed.

(** X2. Delete and archive drop the focus exactly when it is on the message
    they worked on.  When [gmail_delete_email], [gmail_archive_email],
    [outlook_delete_email] or [outlook_archive_email] reports success for the
    id [i] (the argument, or the id in focus), the email context is cleared if
    its id is [i] and kept otherwise; pending drafts, handled and announced
    ids and contacts are as before.  In every other case (no id, the
    provider refusing, no archive folder) the session is unchanged. *)
Theorem delete_archive_drop_focus_of_target (p : provider) (w : World) (t : mail_tool)
    (message_id : option string) (done_msg : string) (s : Session) :
  removal t = Some (message_id, done_msg) ->
  let run := run_tool p w t s in
  (run.1 = Ok (text done_msg) ->
   exists i, target_of s message_id = Some i /\ Py.truthy i = true
     /\ current_email_context run.2
        = match current_email_context s with
          | Some c => if bool_decide (ctx_id c = i) then None else Some c
          | None => None
          end
     /\ pending_drafts run.2 = pending_drafts s
     /\ _handled_email_ids run.2 = _handled_email_ids s
     /\ _announced_unread_ids run.2 = _announced_unread_ids s
     /\ recent_contacts run.2 = recent_contacts s)
  /\ (run.1 <> Ok (text done_msg) -> run.2 = s).
Proof.
  intros Ht. cbv zeta.
  destruct (removal_outcome p w t message_id done_msg s Ht) as [(i & Hi & Ti & ->) | [Hn ->]].
  - simpl. split; [| done]. intros _. exists i. split; [done |]. split; [done |].
    apply unfocused_spec.
  - by split.
Qed.

Lemma delete_archive_drop_focus_of_target_witness :
  let opened :=
    (gmail_read_email (gmail_world [dana_gmail]) (Some "m1") (init_session "google")).2 in
  current_email_context
    (run_tool google (gmail_world [dana_gmail]) (archive_email None) opened).2 = None.
Proof.
  cbv zeta.
  destruct (proj1 (delete_archive_drop_focus_of_target google (gmail_world [dana_gmail])
                     (archive_email None) None "Email archived."
                     (gmail_read_email (gmail_world [dana_gmail]) (Some "m1")
                        (init_session "google")).2 eq_refl))
    as (i & Hi & _ & Hc & _).
  - vm_compute. reflexivity.
  - rewrite Hc. vm_compute in Hi. injection Hi as <-. vm_compute. reflexivity.
Defined.

(** ** Tools called without a message *)

(** X3. With no message id in the call and no email in focus (or an empty id),
    read, delete, archive, mark-as-read and mark-as-unread answer
    ["Error: No message ID."] and leave the session as it is, whatever the
    provider would have said.  The one exception is [gmail_delete_email],
    which builds the Gmail service before it looks at the id: without valid
    credentials it raises instead; the session is unchanged then too. *)
Theorem no_message_id_is_an_error (p : provider) (w : World) (t : mail_tool)
    (message_id : option string) (s : Session) :
  message_target t = Some message_id ->
  Py.otruthy (target_of s message_id) = false ->
  (run_tool p w t s).2 = s
  /\ ((run_tool p w t s).1 = Ok err_no_message_id
      \/ exists e, p = google /\ t = delete_email message_id
                   /\ gmail_service w = Raise e /\ (run_tool p w t s).1 = Raise e).
Proof.
  intros Ht Hno.
  assert (Hcase : match target_of s message_id with
                  | Some i => Py.truthy i = false
                  | None => True
                  end).
  { by destruct (target_of s message_id). }
  destruct t; try done; injection Ht as ->; destruct p; simpl.
  - unfold gmail_read_email, bind, get.
    destruct (target_of s message_id) as [i|]; [rewrite Hcase |]; by split; [| left].
  - unfold outlook_read_email, bind, get.
    destruct (target_of s message_id) as [i|]; [rewrite Hcase |]; by split; [| left].
  - unfold gmail_delete_email, bind, call.
    destruct (gmail_service w) as [[]|e] eqn:Hs.
    + rewrite _gmail_context_action_clear.
      destruct (target_of s message_id) as [i|]; [rewrite Hcase |]; by split; [| left].
    + split; [done |]. right. by exists e.
  - rewrite outlook_delete_email_eq.
    destruct (target_of s message_id) as [i|]; [rewrite Hcase |]; by split; [| left].
  - unfold gmail_archive_email. rewrite _gmail_context_action_clear.
    destruct (target_of s message_id) as [i|]; [rewrite Hcase |]; by split; [| left].
  - rewrite outlook_archive_email_eq.
    destruct (target_of s message_id) as [i|]; [rewrite Hcase |]; by split; [| left].
  - rewrite gmail_mark_as_read_eq.
    destruct (target_of s message_id) as [i|]; [rewrite Hcase |]; by split; [| left].
  - rewrite outlook_mark_as_read_eq.
    destruct (target_of s message_id) as [i|]; [rewrite Hcase |]; by split; [| left].
  - rewrite gmail_mark_as_unread_eq.
    destruct (target_of s message_id) as [i|]; [rewrite Hcase |]; by split; [| left].
  - rewrite outlook_mark_as_unread_eq.
    destruct (target_of s message_id) as [i|]; [rewrite Hcase |]; by split; [| left].
Qed.

Lemma no_message_id_is_an_error_witness :
  run_tool microsoft (outlook_world [dana_graph]) (archive_email None)
    (init_session "microsoft")
  = (Ok err_no_message_id, init_session "microsoft").
Proof.
  destruct (no_message_id_is_an_error microsoft (outlook_world [dana_graph])
              (archive_email None) None (init_session "microsoft") eq_refl eq_refl)
    as [Hs [Hr | (e & Hp & _)]]; [| discriminate Hp].
  destruct (run_tool microsoft (outlook_world [dana_graph]) (archive_email None)
              (init_session "microsoft")) as [r s']. simpl in *. by subst.
Defined.

(** ** Sending the draft *)

Lemma draft_cleared_spec (s : Session) :
  pending_drafts (draft_cleared s) = []
  /\ current_email_context (draft_cleared s) = current_email_context s
  /\ _handled_email_ids (draft_cleared s) = _handled_email_ids s
  /\ recent_contacts (draft_cleared s) = recent_contacts s.
Proof. done. Qed.







(** Sending the same reply on a provider that does everything: the draft
    and the focus are gone and Dana's message is handled. *)
Example send_reply_run :
  let run := run_tool google (gmail_world [dana_gmail]) send_draft reply_pending in
  run.1 = Ok (text "Email sent.")
  /\ pending_drafts reply_pending <> [] /\ pending_drafts run.2 = []
  /\ current_email_context run.2 = None.
Proof. vm_compute. repeat split; discriminate. Qed.

(** ** What a search touches *)

Section Footprint.
Context {B : Type} (attr : Session -> B).
Hypothesis Hws : forall v s, attr (set_ws_sent v s) = attr s.
Hypothesis Hrc : forall v s, attr (set_recent_contacts v s) = attr s.
Hypothesis Hai : forall v s, attr (set_account_identity v s) = attr s.

Lemma ws_send_json_keeps (msg : WsMessage) : preserves attr (ws_send_json msg).
Proof. intros s. apply Hws. Qed.

Lemma _publish_people_list_keeps : preserves attr _publish_people_list.
Proof. unfold _publish_people_list. frame. apply ws_send_json_keeps. Qed.

Lemma _merge_contact_keeps (contact : pydict) : preserves attr (_merge_contact contact).
Proof. intros s. apply Hrc. Qed.

Lemma _ensure_account_identity_keeps (w : World) :
  preserves attr (_ensure_account_identity w).
Proof.
  unfold _ensure_account_identity. frame; apply preserves_modify; intros; apply Hai.
Qed.

Lemma gmail_search_loop_keeps (w : World) (n : Z) (publish : bool)
    (messages : list string) (email_list : list pydict) :
  preserves attr (gmail_search_loop w n publish messages email_list).
Proof.
  revert email_list. induction messages as [|msg rest IH]; intros email_list;
    cbn [gmail_search_loop]; frame;
    first [apply IH | apply _merge_contact_keeps].
Qed.

Lemma outlook_search_loop_keeps (n : Z) (publish : bool)
    (messages : list GraphMessage) (email_list : list pydict) :
  preserves attr (outlook_search_loop n publish messages email_list).
Proof.
  revert email_list. induction messages as [|m rest IH]; intros email_list;
    cbn [outlook_search_loop]; frame;
    first [apply IH | apply _merge_contact_keeps].
Qed.

Lemma search_emails_keeps (p : provider) (w : World) (query : string) (n : Z)
    (publish : bool) :
  preserves attr
    (match p with
     | google => gmail_search_emails w query n publish
     | microsoft => outlook_search_emails w query n publish
     end).
Proof.
  destruct p; unfold gmail_search_emails, outlook_search_emails; frame;
    first [ apply _ensure_account_identity_keeps | apply gmail_search_loop_keeps
          | apply outlook_search_loop_keeps | apply _publish_people_list_keeps
          | apply ws_send_json_keeps | apply preserves_modify; intros; apply Hai ].
Qed.

End Footprint.

(** Without [publish] the loops write nothing at all. *)
Lemma gmail_search_loop_quiet (w : World) (n : Z) (messages : list string)
    (email_list : list pydict) (s : Session) :
  (gmail_search_loop w n false messages email_list s).2 = s.
Proof.
  revert email_list. induction messages as [|msg rest IH]; intros email_list; [done |].
  cbn [gmail_search_loop]. unfold bind at 1, get.
  destruct (_is_handled_email s (Some msg)); [apply IH |].
  unfold bind at 1, call. destruct (gmail_messages_get w msg); [| done].
  cbv zeta. unfold bind at 1. simpl.
  destruct (_ >=? _)%Z; [done | apply IH].
Qed.

Lemma outlook_search_loop_quiet (n : Z) (messages : list GraphMessage)
    (email_list : list pydict) (s : Session) :
  (outlook_search_loop n false messages email_list s).2 = s.
Proof.
  revert email_list. induction messages as [|m rest IH]; intros email_list; [done |].
  cbn [outlook_search_loop]. unfold bind at 1, get.
  destruct (g_isRead m); [apply IH |].
  destruct (_is_handled_email s (g_id m)); [apply IH |].
  cbv zeta. unfold bind at 1. simpl.
  destruct (_ >=? _)%Z; [done | apply IH].
Qed.

Lemma search_emails_quiet (p : provider) (w : World) (query : string) (n : Z) (s : Session) :
  (match p with
   | google => gmail_search_emails w query n false
   | microsoft => outlook_search_emails w query n false
   end s).2 = s.
Proof.
  destruct p.
  - unfold gmail_search_emails, bind at 1, call. destruct (gmail_service w); [| done].
    unfold bind at 1. simpl. unfold bind at 1, call.
    destruct (gmail_messages_list w _ n) as [messages|]; [| done].
    unfold bind at 1. pose proof (gmail_search_loop_quiet w n messages [] s) as H.
    destruct (gmail_search_loop w n false messages [] s) as [[[|item l]|e] s1];
      simpl in *; by subst.
  - unfold outlook_search_emails, bind at 1. simpl. unfold bind at 1, call.
    destruct (graph_inbox_messages w _) as [messages|]; [| done].
    unfold bind at 1. pose proof (outlook_search_loop_quiet n messages [] s) as H.
    destruct (outlook_search_loop n false messages [] s) as [[[|item l]|e] s1];
      simpl in *; by subst.
Qed.

Lemma session_footprint (s s' : Session) :
  service_type s' = service_type s ->
  last_draft_google s' = last_draft_google s ->
  last_draft_microsoft_id s' = last_draft_microsoft_id s ->
  current_email_context s' = current_email_context s ->
  current_event_context s' = current_event_context s ->
  _handled_email_ids s' = _handled_email_ids s ->
  _announced_unread_ids s' = _announced_unread_ids s ->
  s' = set_ws_sent (ws_sent s')
         (set_recent_contacts (recent_contacts s')
            (set_account_identity (account_identity s') s)).
Proof. destruct s, s'. simpl. by intros -> -> -> -> -> -> ->. Qed.

(** X6. A search touches the contacts, the cached account identity and the
    packets sent to the client, and nothing else: the focus, the pending
    drafts and the handled and announced sets are as before, for every query,
    limit and provider answer, also when the search raises half-way.  With
    [publish=False], as the notifier and the start-up summary call it, the
    session is not touched at all. *)
Theorem search_footprint (p : provider) (w : World) (query : string) (n : Z)
    (publish : bool) (s : Session) :
  let search := match p with
                | google => gmail_search_emails w query n publish
                | microsoft => outlook_search_emails w query n publish
                end in
  (search s).2
  = set_ws_sent (ws_sent (search s).2)
      (set_recent_contacts (recent_contacts (search s).2)
         (set_account_identity (account_identity (search s).2) s))
  /\ (publish = false -> (search s).2 = s).
Proof.
  cbv zeta. split.
  - pose proof (fun B (attr : Session -> B) Hws Hrc Hai =>
                  search_emails_keeps attr Hws Hrc Hai p w query n publish s) as keep.
    apply session_footprint; by apply keep.
  - intros ->. apply search_emails_quiet.
Qed.

(** ** How many entries a search returns *)

Lemma gmail_search_loop_length (w : World) (n : Z) (publish : bool)
    (messages : list string) (email_list found : list pydict) (s s' : Session) :
  gmail_search_loop w n publish messages email_list s = (Ok found, s') ->
  email_list = [] \/ (Z.of_nat (length email_list) < n)%Z ->
  found = [] \/ (Z.of_nat (length found) <= Z.max 1 n)%Z.
Proof.
  revert email_list s. induction messages as [|msg rest IH]; intros email_list s.
  - intros [= <- <-] [-> | H]; [by left | right; lia].
  - cbn [gmail_search_loop]. unfold bind at 1, get.
    destruct (_is_handled_email s (Some msg)); [apply IH |].
    unfold bind at 1, call. destruct (gmail_messages_get w msg) as [meta|e]; [| done].
    cbv zeta. unfold bind at 1.
    destruct (when publish _ s) as [[[]|e] s1]; [| done].
    destruct (_ >=? _)%Z eqn:Hge.
    + intros [= <- <-] Hinv. right. rewrite length_app. simpl.
      destruct Hinv as [-> | H]; simpl; lia.
    + intros E _. apply IH in E; [done |]. right. lia.
Qed.

Lemma outlook_search_loop_length (n : Z) (publish : bool)
    (messages : list GraphMessage) (email_list found : list pydict) (s s' : Session) :
  outlook_search_loop n publish messages email_list s = (Ok found, s') ->
  email_list = [] \/ (Z.of_nat (length email_list) < n)%Z ->
  found = [] \/ (Z.of_nat (length found) <= Z.max 1 n)%Z.
Proof.
  revert email_list s. induction messages as [|m rest IH]; intros email_list s.
  - intros [= <- <-] [-> | H]; [by left | right; lia].
  - cbn [outlook_search_loop]. unfold bind at 1, get.
    destruct (g_isRead m); [apply IH |].
    destruct (_is_handled_email s (g_id m)); [apply IH |].
    cbv zeta. unfold bind at 1.
    destruct (when publish _ s) as [[[]|e] s1]; [| done].
    destruct (_ >=? _)%Z eqn:Hge.
    + intros [= <- <-] Hinv. right. rewrite length_app. simpl.
      destruct Hinv as [-> | H]; simpl; lia.
    + intros E _. apply IH in E; [done |]. right. lia.
Qed.

(** X7. A search that returns a list returns between 1 and [max_results]
    entries; a limit of zero or less still lets one entry through, because
    the limit is tested after the entry is added. *)
Theorem search_result_length (p : provider) (w : World) (query : string) (n : Z)
    (publish : bool) (s s' : Session) (found : list pydict) :
  match p with
  | google => gmail_search_emails w query n publish
  | microsoft => outlook_search_emails w query n publish
  end s = (Ok (json_list found), s') ->
  1 <= length found /\ (Z.of_nat (length found) <= Z.max 1 n)%Z.
Proof.
  destruct p.
  - unfold gmail_search_emails, bind at 1, call. destruct (gmail_service w); [| done].
    unfold bind at 1. destruct (when publish _ s) as [[[]|e] s1]; [| done].
    unfold bind at 1, call. destruct (gmail_messages_list w _ n) as [messages|]; [| done].
    unfold bind at 1.
    destruct (gmail_search_loop w n publish messages [] s1) as [[l|e] s2] eqn:E; [| done].
    apply gmail_search_loop_length in E; [| by left].
    destruct l as [|item l]; [done |]. unfold bind.
    destruct (when publish _ s2) as [[[]|e] s3]; [| done].
    intros [= <- <-]. destruct E as [E | E]; [done |]. simpl in *. lia.
  - unfold outlook_search_emails, bind at 1.
    destruct (when publish _ s) as [[[]|e] s1]; [| done].
    unfold bind at 1, call. destruct (graph_inbox_messages w _) as [messages|]; [| done].
    unfold bind at 1.
    destruct (outlook_search_loop n publish messages [] s1) as [[l|e] s2] eqn:E; [| done].
    apply outlook_search_loop_length in E; [| by left].
    destruct l as [|item l]; [done |]. unfold bind.
    destruct (when publish _ s2) as [[[]|e] s3]; [| done].
    intros [= <- <-]. destruct E as [E | E]; [done |]. simpl in *. lia.
Qed.

Lemma search_result_length_witness :
  1 <= length [gmail_hit (gmail_world [dana_gmail; erin_gmail]) "google" "m1" dana_gmail]
  /\ (Z.of_nat (length [gmail_hit (gmail_world [dana_gmail; erin_gmail]) "google" "m1"
                          dana_gmail]) <= Z.max 1 0)%Z.
Proof.
  apply (search_result_length google (gmail_world [dana_gmail; erin_gmail]) "" 0 false
           (init_session "google") (init_session "google")).
  vm_compute. reflexivity.
Defined.

(** ** Invariants of every mail tool *)

(** Steps of a proof that a method keeps a property: [tac] is tried first
    on every sub-term, then the rules of the monad. *)
Ltac stable_using tac :=
  repeat first
    [ tac
    | apply stable_ret | apply stable_call | apply stable_raise | apply stable_get
    | apply stable_bind | apply stable_try_except | apply stable_when
    | match goal with
      | |- stable _ (let _ := _ in _) => cbv zeta
      | |- stable _ (match ?x with _ => _ end) => destruct x
      | |- stable _ (if ?b then _ else _) => destruct b
      | |- forall _, _ => intros
      end ].

Ltac unfold_tools :=
  unfold run_tool, gmail_draft_call, outlook_draft_call,
    gmail_search_emails, outlook_search_emails, gmail_read_email,
    outlook_read_email, gmail_draft_new_email, gmail_draft_reply,
    outlook_draft_new_email, outlook_draft_reply, gmail_send_draft, outlook_send_draft,
    gmail_delete_email, gmail_archive_email, gmail_mark_as_unread,
    outlook_mark_as_unread, outlook_delete_email, outlook_archive_email,
    _ensure_email_context, _load_gmail_email_into_context,
    _load_outlook_email_into_context, gmail_mark_as_read, outlook_mark_as_read,
    _gmail_context_action, clear_draft.

Section Loops.
Variable P : Session -> Prop.
Hypothesis merge_stable : forall contact, stable P (_merge_contact contact).

Lemma gmail_search_loop_stable (w : World) (n : Z) (publish : bool)
    (messages : list string) (email_list : list pydict) :
  stable P (gmail_search_loop w n publish messages email_list).
Proof.
  revert email_list. induction messages as [|msg rest IH]; intros email_list;
    cbn [gmail_search_loop];
    stable_using ltac:(first [apply IH | apply merge_stable]).
Qed.

Lemma outlook_search_loop_stable (n : Z) (publish : bool)
    (messages : list GraphMessage) (email_list : list pydict) :
  stable P (outlook_search_loop n publish messages email_list).
Proof.
  revert email_list. induction messages as [|m rest IH]; intros email_list;
    cbn [outlook_search_loop];
    stable_using ltac:(first [apply IH | apply merge_stable]).
Qed.

End Loops.

(** *** The context panel follows the focus *)

Lemma update_context_display_sends (s : Session) :
  update_context_display s
  = (Ok tt, set_ws_sent (ws_sent s ++ [context_update (displayed s)]) s).
Proof.
  unfold displayed, update_context_display, bind, get, ws_send_json, modify. simpl.
  by rewrite last_snoc.
Qed.

Lemma displayed_ext (s s' : Session) :
  current_email_context s' = current_email_context s ->
  current_event_context s' = current_event_context s ->
  displayed s' = displayed s.
Proof.
  unfold displayed, update_context_display, bind, get, ws_send_json, modify. simpl.
  rewrite !last_snoc. by intros -> ->.
Qed.

Lemma shown_snoc (packets : list WsMessage) (msg : WsMessage) :
  shown (packets ++ [msg])
  = match msg with context_update c => c | _ => shown packets end.
Proof. unfold shown. by rewrite foldl_app. Qed.

Lemma update_context_display_in_sync (s : Session) :
  display_in_sync (update_context_display s).2.
Proof.
  rewrite update_context_display_sends. unfold display_in_sync. simpl.
  rewrite shown_snoc. by apply eq_sym, displayed_ext.
Qed.

Lemma in_sync_refocus (f : Session -> Session) :
  stable display_in_sync (modify f >> update_context_display).
Proof. intros s _. apply update_context_display_in_sync. Qed.

Lemma in_sync_refocus_then {A} (f : Session -> Session) (k : M A) :
  stable display_in_sync k ->
  stable display_in_sync (modify f >> update_context_display >> k).
Proof.
  intros Hk s _. unfold bind at 1, modify. unfold bind at 1.
  pose proof (update_context_display_in_sync (f s)) as H.
  rewrite update_context_display_sends in *. by apply Hk.
Qed.

Lemma in_sync_refocus2_then {A} (f g : Session -> Session) (k : M A) :
  stable display_in_sync k ->
  stable display_in_sync (modify f >> modify g >> update_context_display >> k).
Proof.
  intros Hk s _. unfold bind at 1, modify. unfold bind at 1. unfold bind at 1.
  pose proof (update_context_display_in_sync (g (f s))) as H.
  rewrite update_context_display_sends in *. by apply Hk.
Qed.

(** Writes that leave the focus and the packets alone, and packets other
    than [context_update]. *)
Lemma in_sync_modify (f : Session -> Session) :
  (forall s, current_email_context (f s) = current_email_context s) ->
  (forall s, current_event_context (f s) = current_event_context s) ->
  (forall s, ws_sent (f s) = ws_sent s) ->
  stable display_in_sync (modify f).
Proof.
  intros H1 H2 H3 s Hs. unfold display_in_sync, modify. simpl.
  by rewrite H3, (displayed_ext s (f s)).
Qed.

Lemma in_sync_send (msg : WsMessage) :
  match msg with context_update _ => False | _ => True end ->
  stable display_in_sync (ws_send_json msg).
Proof.
  intros Hmsg s Hs. unfold display_in_sync, ws_send_json, modify. simpl.
  rewrite shown_snoc, (displayed_ext s (set_ws_sent _ s)) by done.
  by destruct msg.
Qed.

Ltac in_sync_step :=
  first
    [ apply in_sync_refocus2_then | apply in_sync_refocus_then | apply in_sync_refocus
    | apply in_sync_modify; intros; reflexivity
    | apply in_sync_send; exact I ].

Lemma _merge_contact_in_sync (contact : pydict) :
  stable display_in_sync (_merge_contact contact).
Proof. unfold _merge_contact. stable_using in_sync_step. Qed.

(** X9. After every mail tool, whatever it returns or raises, the context the
    client shows is the focus of the session: the last [context_update]
    packet sent describes the email in [current_email_context] (or says
    there is none).  Every write of the focus is followed by
    [update_context_display] before anything can raise. *)
Theorem context_display_follows_focus (p : provider) (w : World) (t : mail_tool)
    (s : Session) :
  display_in_sync s -> display_in_sync (run_tool p w t s).2.
Proof.
  revert s. change (stable display_in_sync (run_tool p w t)).
  destruct p, t as [query n|i|[to subject body|body]| |i|i|i|i]; unfold_tools;
    unfold _ensure_account_identity, _publish_people_list, show_draft,
      _remember_handled_email, _forget_handled_email, announced_discard;
    stable_using ltac:(first
      [ in_sync_step
      | apply gmail_search_loop_stable; apply _merge_contact_in_sync
      | apply outlook_search_loop_stable; apply _merge_contact_in_sync
      | apply _merge_contact_in_sync ]).
Qed.

Lemma context_display_follows_focus_witness :
  display_in_sync (init_session "google")
  /\ display_in_sync
       (run_tool google (gmail_world [dana_gmail]) (read_email (Some "m1"))
          (init_session "google")).2.
Proof.
  assert (H : display_in_sync (init_session "google")) by reflexivity.
  split; [exact H |].
  exact (context_display_follows_focus google (gmail_world [dana_gmail])
           (read_email (Some "m1")) (init_session "google") H).
Defined.

(** *** The contacts stay free of the owner *)

Section OwnerKnown.
Variable account : AccountIdentity.
Hypothesis account_known : Py.truthy (acct_email account) = true.

Lemma _ensure_account_identity_known (w : World) :
  stable (owner_is_known_and_absent account) (_ensure_account_identity w).
Proof.
  intros s [Ha Hok]. unfold _ensure_account_identity, bind, get.
  by rewrite Ha, account_known.
Qed.

Lemma _merge_contact_known (contact : pydict) :
  stable (owner_is_known_and_absent account) (_merge_contact contact).
Proof. intros s [Ha Hok]. split; [exact Ha | by apply _merge_contact_ok]. Qed.

Lemma run_tool_owner_known (p : provider) (w : World) (t : mail_tool) :
  stable (owner_is_known_and_absent account) (run_tool p w t).
Proof.
  destruct p, t as [query n|i|[to subject body|body]| |i|i|i|i]; unfold_tools;
    unfold _publish_people_list, show_draft, update_context_display, ws_send_json,
      _remember_handled_email, _forget_handled_email, announced_discard;
    stable_using ltac:(first
      [ apply _ensure_account_identity_known
      | apply _merge_contact_known
      | apply gmail_search_loop_stable; apply _merge_contact_known
      | apply outlook_search_loop_stable; apply _merge_contact_known
      | apply stable_modify; intros ? [? ?]; split; assumption ]).
Qed.

End OwnerKnown.

(** X10. Once the account identity is resolved, no mail tool changes it, and
    every mail tool keeps the recent contacts free of the owner and at 15
    entries at most, whatever the provider answers and also when the tool
    raises. *)
Theorem mail_tools_keep_contacts_ok (p : provider) (w : World) (t : mail_tool)
    (s : Session) :
  identity_resolved s -> contacts_ok s ->
  account_identity (run_tool p w t s).2 = account_identity s
  /\ contacts_ok (run_tool p w t s).2.
Proof.
  intros Hres Hok.
  by apply (run_tool_owner_known (account_identity s) Hres p w t s).
Qed.

Lemma mail_tools_keep_contacts_ok_witness :
  account_identity
    (run_tool google (gmail_world [dana_gmail]) (search_emails "" 5)
       (set_account_identity owner (init_session "google"))).2
  = account_identity (set_account_identity owner (init_session "google"))
  /\ contacts_ok
       (run_tool google (gmail_world [dana_gmail]) (search_emails "" 5)
          (set_account_identity owner (init_session "google"))).2.
Proof.
  apply (mail_tools_keep_contacts_ok google (gmail_world [dana_gmail]) (search_emails "" 5)
           (set_account_identity owner (init_session "google"))).
  - reflexivity.
  - split; [constructor | simpl; lia].
Defined.

(** *** The draft slots belong to the draft tools *)

Lemma run_tool_drafts_are (g : option GoogleDraft) (m : option string)
    (p : provider) (w : World) (t : mail_tool) :
  writes_draft t = false -> stable (drafts_are g m) (run_tool p w t).
Proof.
  destruct p, t as [query n|i|c| |i|i|i|i]; try discriminate; intros _; unfold_tools;
    unfold _ensure_account_identity, _publish_people_list, show_draft,
      update_context_display, ws_send_json, _merge_contact,
      _remember_handled_email, _forget_handled_email, announced_discard;
    stable_using ltac:(first
      [ apply gmail_search_loop_stable; intros; apply stable_modify; intros ? ?; assumption
      | apply outlook_search_loop_stable; intros; apply stable_modify; intros ? ?; assumption
      | apply stable_modify; intros ? ?; assumption ]).
Qed.

(** X11. Searching, reading, deleting, archiving and marking never touch a
    pending draft: both draft slots are as before, whatever the provider
    answers.  In particular a reply draft survives the deletion of the email
    it answers. *)
Theorem drafts_outlive_other_tools (p : provider) (w : World) (t : mail_tool)
    (s : Session) :
  writes_draft t = false ->
  last_draft_google (run_tool p w t s).2 = last_draft_google s
  /\ last_draft_microsoft_id (run_tool p w t s).2 = last_draft_microsoft_id s.
Proof.
  intros Ht. by apply (run_tool_drafts_are _ _ p w t Ht s).
Qed.

Lemma drafts_outlive_other_tools_witness :
  last_draft_google
    (run_tool google (gmail_world [dana_gmail]) (delete_email None) reply_pending).2
  = last_draft_google reply_pending
  /\ last_draft_microsoft_id
       (run_tool google (gmail_world [dana_gmail]) (delete_email None) reply_pending).2
     = last_draft_microsoft_id reply_pending.
Proof.
  apply (drafts_outlive_other_tools google (gmail_world [dana_gmail]) (delete_email None)
           reply_pending).
  reflexivity.
Defined.

(** *** The sets behind the de-duplication *)

Ltac dedup_modify :=
  apply stable_modify; unfold dedup_between, announced_within; simpl;
  first [ intros ? [Hkept Hallowed]; split;
          first [ assumption
                | by apply union_subseteq_r' | by etrans; [apply subseteq_difference_l |] ]
        | intros ? Hallowed;
          first [ assumption | by etrans; [apply subseteq_difference_l |] ] ].

Lemma run_tool_dedup_between (kept allowed : gset string)
    (p : provider) (w : World) (t : mail_tool) :
  forgets t = false -> stable (dedup_between kept allowed) (run_tool p w t).
Proof.
  destruct p, t as [query n|i|[to subject body|body]| |i|i|i|i]; try discriminate;
    intros _; unfold_tools;
    unfold _ensure_account_identity, _publish_people_list, show_draft,
      update_context_display, ws_send_json, _merge_contact,
      _remember_handled_email, announced_discard;
    stable_using ltac:(first
      [ apply gmail_search_loop_stable; intros; dedup_modify
      | apply outlook_search_loop_stable; intros; dedup_modify
      | dedup_modify ]).
Qed.

Lemma run_tool_announced_within (allowed : gset string)
    (p : provider) (w : World) (t : mail_tool) :
  stable (announced_within allowed) (run_tool p w t).
Proof.
  destruct p, t as [query n|i|[to subject body|body]| |i|i|i|i]; unfold_tools;
    unfold _ensure_account_identity, _publish_people_list, show_draft,
      update_context_display, ws_send_json, _merge_contact,
      _remember_handled_email, _forget_handled_email, announced_discard;
    stable_using ltac:(first
      [ apply gmail_search_loop_stable; intros; dedup_modify
      | apply outlook_search_loop_stable; intros; dedup_modify
      | dedup_modify ]).
Qed.

(** X12. A handled id stays handled through every mail tool but
    [mark_as_unread]: the other tools only ever add to the handled set. *)
Theorem handled_ids_stay_handled (p : provider) (w : World) (t : mail_tool)
    (s : Session) :
  forgets t = false ->
  _handled_email_ids s ⊆ _handled_email_ids (run_tool p w t s).2.
Proof.
  intros Ht.
  apply (run_tool_dedup_between (_handled_email_ids s) (_announced_unread_ids s)
           p w t Ht s).
  split; reflexivity.
Qed.

Lemma handled_ids_stay_handled_witness :
  _handled_email_ids dana_handled
  ⊆ _handled_email_ids
      (run_tool google (gmail_world [dana_gmail]) (archive_email (Some "m1")) dana_handled).2.
Proof.
  apply (handled_ids_stay_handled google (gmail_world [dana_gmail])
           (archive_email (Some "m1")) dana_handled).
  reflexivity.
Defined.

(** X13. No mail tool announces anything: the announced set, which the notifier
    fills, only ever loses ids to the tools. *)
Theorem mail_tools_announce_nothing (p : provider) (w : World) (t : mail_tool)
    (s : Session) :
  _announced_unread_ids (run_tool p w t s).2 ⊆ _announced_unread_ids s.
Proof.
  apply (run_tool_announced_within (_announced_unread_ids s) p w t s).
  unfold announced_within. reflexivity.
Qed.

(** ** The account identity *)

Lemma lower_char_idem (c : ascii) : Py.lower_char (Py.lower_char c) = Py.lower_char c.
Proof. destruct c as [[] [] [] [] [] [] [] []]; reflexivity. Qed.

Lemma lower_idem (x : string) : Py.lower (Py.lower x) = Py.lower x.
Proof. induction x as [|c x IH]; simpl; [done |]. by rewrite lower_char_idem, IH. Qed.

Lemma set_account_identity_same (s : Session) :
  set_account_identity (account_identity s) s = s.
Proof. by destruct s. Qed.

Lemma _ensure_account_identity_run (w : World) (s : Session) :
  exists a, _ensure_account_identity w s = (Ok tt, set_account_identity a s)
            /\ (identity_resolved s -> a = account_identity s)
            /\ (~ identity_resolved s -> Py.lower (acct_email a) = acct_email a).
Proof.
  unfold identity_resolved, _ensure_account_identity, bind at 1, get.
  destruct (Py.truthy (acct_email (account_identity s))) eqn:Hres.
  { exists (account_identity s). split; [by destruct s |]. split; [done |].
    intros H. by destruct H. }
  unfold try_except, bind, call, modify, ret.
  destruct (bool_decide (service_type s = "google")).
  - destruct (gmail_service w); simpl; [| by eexists].
    destruct (gmail_getProfile w); simpl; [| by eexists].
    eexists. split; [done |]. split; [done |]. intros _. apply lower_idem.
  - destruct (graph_me w); simpl; [| by eexists].
    eexists. split; [done |]. split; [done |]. intros _. apply lower_idem.
Qed.

(** X14. [_ensure_account_identity] never raises and writes nothing but
    [account_identity].  Once the owner's address is known it does nothing:
    the provider is not asked again.  An address it stores is in lower
    case. *)
Theorem _ensure_account_identity_outcome (w : World) (s : Session) :
  let run := _ensure_account_identity w s in
  run.1 = Ok tt
  /\ run.2 = set_account_identity (account_identity run.2) s
  /\ (identity_resolved s -> run.2 = s)
  /\ (~ identity_resolved s ->
      Py.lower (acct_email (account_identity run.2)) = acct_email (account_identity run.2)).
Proof.
  cbv zeta. destruct (_ensure_account_identity_run w s) as (a & -> & Hres & Hnew).
  simpl. split; [done |]. split; [done |]. split; [| done].
  intros H. rewrite (Hres H). by destruct s.
Qed.

(** ** Suggestions as the client shows them *)

Lemma item_suggestion_well_formed (item : Suggest.json) (i : Suggest.suggestion) :
  Suggest.item_suggestion item = Ok (Some i) ->
  Py.truthy (Suggest.label i) = true /\ Py.truthy (Suggest.prompt i) = true.
Proof.
  unfold Suggest.item_suggestion. destruct item as [| | | | |m]; try done.
  destruct (Suggest.jstrip _) as [lbl|]; [| done].
  destruct (Suggest.jstrip _) as [pr|]; [| done].
  destruct (Py.truthy lbl) eqn:Hl, (Py.truthy pr) eqn:Hp; simpl; try done.
  by intros [= <-].
Qed.

Lemma items_suggestions_well_formed (items : list Suggest.json)
    (l : list Suggest.suggestion) :
  Suggest.items_suggestions items = Ok l ->
  Forall (fun i => Py.truthy (Suggest.label i) = true
                   /\ Py.truthy (Suggest.prompt i) = true) l.
Proof.
  revert l. induction items as [|item rest IH]; intros l; simpl.
  - by intros [= <-].
  - destruct (Suggest.item_suggestion item) as [o|] eqn:Hi; [| done].
    destruct (Suggest.items_suggestions rest) as [l'|]; [| done].
    intros [= <-]. specialize (IH l' eq_refl).
    destruct o as [i|]; [| done]. constructor; [| done].
    by eapply item_suggestion_well_formed.
Qed.

Lemma payload_suggestions_well_formed (payload : Suggest.json)
    (l : list Suggest.suggestion) :
  Suggest.payload_suggestions payload = Ok l ->
  Forall (fun i => Py.truthy (Suggest.label i) = true
                   /\ Py.truthy (Suggest.prompt i) = true) l.
Proof.
  unfold Suggest.payload_suggestions. destruct payload as [| | | | |m]; try done.
  destruct (Suggest.jget "items" m) as [[| | |[|]|items|[|]]|]; try done;
    try (by intros [= <-]).
  apply items_suggestions_well_formed.
Qed.

Lemma collect_well_formed (loads : string -> option Suggest.json) (raws : list string)
    (l : list Suggest.suggestion) :
  Suggest.collect loads raws = Ok l ->
  Forall (fun i => Py.truthy (Suggest.label i) = true
                   /\ Py.truthy (Suggest.prompt i) = true) l.
Proof.
  revert l. induction raws as [|raw rest IH]; intros l; simpl.
  - by intros [= <-].
  - destruct (loads raw) as [payload|]; [| by apply IH].
    destruct (Suggest.payload_suggestions payload) as [here|] eqn:Hp; [| done].
    destruct (Suggest.collect loads rest) as [more|]; [| done].
    intros [= <-]. apply Forall_app. split; [| by apply IH].
    by eapply payload_suggestions_well_formed.
Qed.

Lemma chips_of_well_formed (items : list Suggest.suggestion) :
  Forall (fun i => Py.truthy (Suggest.label i) = true
                   /\ Py.truthy (Suggest.prompt i) = true) items ->
  omap Suggest.chip_of items = items.
Proof.
  induction 1 as [|[lbl pr] rest [Hl Hp] _ IH]; [done |].
  cbn [omap list_omap]. unfold Suggest.chip_of at 1. simpl in *.
  rewrite Hl, Hp. simpl. rewrite Hl, Hp. simpl. f_equal. exact IH.
Qed.

(** X15. Every pair [_extract_suggestions] returns has a non-empty label and a
    non-empty prompt, so the client drops none of them and rewrites none:
    the chips it shows are exactly the first three pairs. *)
Theorem extracted_suggestions_are_the_chips (loads : string -> option Suggest.json)
    (message cleaned : string) (items : list Suggest.suggestion) :
  Suggest._extract_suggestions loads message = Ok (cleaned, items) ->
  Forall (fun i => Suggest.label i <> "" /\ Suggest.prompt i <> "") items
  /\ Suggest.renderSuggestions items = take 3 items.
Proof.
  unfold Suggest._extract_suggestions. destruct (Py.truthy message); simpl.
  2: { intros [= <- <-]. by split. }
  destruct (Suggest.collect loads _) as [l|] eqn:Hc; [| done].
  intros [= <- <-]. apply collect_well_formed in Hc. split.
  - eapply Forall_impl; [exact Hc |]. intros i [Hl Hp].
    split; by apply PyFacts.truthy_true.
  - unfold Suggest.renderSuggestions. apply chips_of_well_formed. by apply Forall_take.
Qed.

Lemma extracted_suggestions_are_the_chips_witness :
  Forall (fun i => Suggest.label i <> "" /\ Suggest.prompt i <> "")
    [ {| Suggest.label := "a"; Suggest.prompt := "a" |};
      {| Suggest.label := "b"; Suggest.prompt := "b" |};
      {| Suggest.label := "c"; Suggest.prompt := "c" |};
      {| Suggest.label := "d"; Suggest.prompt := "d" |} ]
  /\ Suggest.renderSuggestions
       [ {| Suggest.label := "a"; Suggest.prompt := "a" |};
         {| Suggest.label := "b"; Suggest.prompt := "b" |};
         {| Suggest.label := "c"; Suggest.prompt := "c" |};
         {| Suggest.label := "d"; Suggest.prompt := "d" |} ]
     = take 3 [ {| Suggest.label := "a"; Suggest.prompt := "a" |};
                {| Suggest.label := "b"; Suggest.prompt := "b" |};
                {| Suggest.label := "c"; Suggest.prompt := "c" |};
                {| Suggest.label := "d"; Suggest.prompt := "d" |} ].
Proof.
  apply (extracted_suggestions_are_the_chips example_json_loads
           ("Done. <suggestions>" +:+ four_items_text +:+ "</suggestions>") "Done.").
  vm_compute. reflexivity.
Defined.

(** ** The recipient sanitizer *)



(** ** Replies *)

(** X17. The subject of a reply draft starts with [re:] in some case, and a
    subject that already does is kept as it is: replying to a reply does not
    stack prefixes. *)
Theorem reply_subject_has_one_prefix (c : EmailContext) (body : string) :
  Py.startswith "re:" (Py.lower (gd_subject (reply_draft c body))) = true
  /\ (forall (c' : EmailContext) (body' : string),
        ctx_subject c' = gd_subject (reply_draft c body) ->
        gd_subject (reply_draft c' body') = gd_subject (reply_draft c body)).
Proof.
  assert (H : Py.startswith "re:" (Py.lower (gd_subject (reply_draft c body))) = true).
  { unfold reply_draft. cbv zeta. cbn [gd_subject].
    by destruct (Py.startswith "re:" (Py.lower (ctx_subject c))) eqn:Hs. }
  split; [exact H |]. intros c' body' Hsub. rewrite <- Hsub in *.
  unfold reply_draft at 1. cbv zeta. cbn [gd_subject]. by rewrite H.
Qed.

Lemma _ensure_email_context_focus (w : World) (c : EmailContext) (s : Session) :
  current_email_context s = Some c ->
  (_ensure_email_context w None true s).1 = Ok true
  /\ current_email_context (_ensure_email_context w None true s).2 = Some c.
Proof.
  intros Hc. destruct (_ensure_email_context w None true s) as [r s'] eqn:E. simpl.
  revert E. unfold _ensure_email_context, bind at 1, get. rewrite Hc. cbn -[bind].
  unfold bind at 1, when.
  destruct (negb (_ && _)); [| simpl; by intros [= <- <-]].
  unfold try_except, bind at 1.
  destruct (bool_decide (service_type s = "google")).
  - pose proof (proj1 (gmail_mark_as_read_focus w (Some (ctx_id c))) s) as Hf.
    destruct (gmail_mark_as_read w (Some (ctx_id c)) s) as [[r1|e] s1]; simpl in *;
      intros [= <- <-]; by rewrite Hf.
  - pose proof (proj1 (outlook_mark_as_read_focus w (Some (ctx_id c))) s) as Hf.
    destruct (outlook_mark_as_read w (Some (ctx_id c)) s) as [[r1|e] s1]; simpl in *;
      intros [= <- <-]; by rewrite Hf.
Qed.

(** X18. With an email in focus, [gmail_draft_reply] always produces the reply
    to that email: it returns the confirmation, the focus stays on the email,
    the pending draft is the reply built from it, and the draft preview is
    the last packet sent.  Nothing the provider does can prevent it: the
    attempt to mark the email read on the way is allowed to fail. *)
Theorem gmail_reply_to_focus (w : World) (body : string) (c : EmailContext)
    (s : Session) :
  current_email_context s = Some c ->
  let run := gmail_draft_reply w body s in
  run.1 = Ok (text "Reply draft created.")
  /\ current_email_context run.2 = Some c
  /\ last_draft_google run.2 = Some (reply_draft c body)
  /\ last (ws_sent run.2)
     = Some (draft_preview (gd_to (reply_draft c body))
               (gd_subject (reply_draft c body)) body).
Proof.
  intros Hc. cbv zeta.
  destruct (gmail_draft_reply w body s) as [r s'] eqn:E. simpl. revert E.
  unfold gmail_draft_reply, bind at 1.
  destruct (_ensure_email_context_focus w c s Hc) as [Hr Hf].
  destruct (_ensure_email_context w None true s) as [r1 s1]. simpl in *. subst r1.
  simpl. unfold bind at 1, get. rewrite Hf.
  unfold bind, modify, show_draft, ws_send_json, ret. simpl.
  intros [= <- <-]. simpl. by rewrite last_snoc.
Qed.

Lemma gmail_reply_to_focus_witness :
  (gmail_draft_reply (refusing_label_changes (gmail_world [dana_gmail]))
     "I'll be there at 3" dana_unmarked).1
  = Ok (text "Reply draft created.")
  /\ current_email_context
       (gmail_draft_reply (refusing_label_changes (gmail_world [dana_gmail]))
          "I'll be there at 3" dana_unmarked).2
     = Some dana_focus
  /\ last_draft_google
       (gmail_draft_reply (refusing_label_changes (gmail_world [dana_gmail]))
          "I'll be there at 3" dana_unmarked).2
     = Some (reply_draft dana_focus "I'll be there at 3")
  /\ last (ws_sent
             (gmail_draft_reply (refusing_label_changes (gmail_world [dana_gmail]))
                "I'll be there at 3" dana_unmarked).2)
     = Some (draft_preview (gd_to (reply_draft dana_focus "I'll be there at 3"))
               (gd_subject (reply_draft dana_focus "I'll be there at 3"))
               "I'll be there at 3").
Proof.
  apply (gmail_reply_to_focus (refusing_label_changes (gmail_world [dana_gmail]))
           "I'll be there at 3" dana_focus dana_unmarked).
  vm_compute. reflexivity.
Defined.

(** ** What the client is sent with a reply *)

(** X19. [send_audio_response] shows before it speaks.  When the suggestions
    cannot be extracted it raises and nothing is sent.  Otherwise the chat
    line and the suggestions are sent first, and the chat line is never
    empty ("Done." stands in for an empty text); the audio packet follows
    when the speech synthesis answers, and when it fails the call raises with
    the two packets already sent.  Nothing but the packets is written. *)
Theorem send_audio_response_outcome (w : World) (message : option string)
    (status_text : string) (s : Session) :
  match Suggest._extract_suggestions (json_loads w) (Py.or_empty message) with
  | Raise e => send_audio_response w message status_text s = (Raise e, s)
  | Ok (display, items) =>
      exists line,
        line <> "" /\ (display <> "" -> line = display)
        /\ send_audio_response w message status_text s
           = match tts_any w line with
             | Ok url =>
                 (Ok tt,
                  set_ws_sent (ws_sent s ++ [chat_append "assistant" line; suggestions items;
                                             play_audio url status_text]) s)
             | Raise e =>
                 (Raise e,
                  set_ws_sent (ws_sent s ++ [chat_append "assistant" line;
                                             suggestions items]) s)
             end
  end.
Proof.
  unfold send_audio_response, bind at 1, call.
  destruct (Suggest._extract_suggestions _ _) as [[display items]|e]; [| done].
  exists (if negb (Py.truthy display) then "Done." else display).
  split; [| split].
  - destruct display; simpl; done.
  - by destruct display.
  - cbv zeta. unfold bind, ws_send_json, modify, call. simpl.
    destruct (tts_any w _); simpl; by rewrite <- ?app_assoc.
Qed.

(** ** Reading marks the email handled *)

Lemma target_of_focus (s : Session) (c : EmailContext) :
  current_email_context s = Some c ->
  target_of s (Some (ctx_id c)) = Some (ctx_id c).
Proof.
  intros Hc. unfold target_of, Py.or_. rewrite Hc. simpl.
  by destruct (Py.truthy (ctx_id c)).
Qed.

Lemma loaded_handled (mark : option string -> M reply) (c : EmailContext)
    (contact : string -> pydict) (body : string) (w : World) (s2 : Session) (ok : bool) :
  current_email_context s2 = Some c ->
  (forall s, current_email_context s = Some c ->
             _handled_email_ids (mark (Some (ctx_id c)) s).2
             = (if Py.truthy (ctx_id c) && ok
                then {[ctx_id c]} ∪ _handled_email_ids s else _handled_email_ids s)) ->
  _handled_email_ids
    ((update_context_display >>
      _ensure_account_identity w >>
      let* s := get in
      _merge_contact (contact (service_type s)) >>
      _publish_people_list >>
      let* s := get in
      when (true && negb (_is_handled_email s (Some (ctx_id c))))
        (try_except (mark (Some (ctx_id c)) >> ret tt) (fun _ => ret tt)) >>
      ret (c, body)) s2).2
  = (if Py.truthy (ctx_id c) && (ok || bool_decide (ctx_id c ∈ _handled_email_ids s2))
     then {[ctx_id c]} ∪ _handled_email_ids s2 else _handled_email_ids s2).
Proof.
  intros Hc Hmark. unfold bind at 1. rewrite update_context_display_sends.
  unfold bind at 1.
  destruct (_ensure_account_identity_run w
              (set_ws_sent (ws_sent s2 ++ [context_update (displayed s2)]) s2))
    as (a & -> & _).
  unfold bind at 1, get. unfold bind at 1, _merge_contact, modify.
  unfold bind at 1, _publish_people_list, bind at 1, get, ws_send_json, modify.
  unfold bind at 1, get. cbn [fst snd].
  set (s6 := set_ws_sent _ _).
  assert (H6 : current_email_context s6 = Some c) by exact Hc.
  assert (Hh : _handled_email_ids s6 = _handled_email_ids s2) by reflexivity.
  specialize (Hmark s6 H6). rewrite Hh in Hmark.
  unfold _is_handled_email. rewrite Hh. clearbody s6.
  destruct (mark (Some (ctx_id c)) s6) as [r s7] eqn:Em. simpl in Hmark.
  unfold bind, try_except, when, ret.
  destruct (Py.truthy (ctx_id c)) eqn:Ht; cbn [andb negb] in *.
  - destruct (bool_decide (ctx_id c ∈ _handled_email_ids s2)) eqn:Hin; cbn [negb].
    + simpl. rewrite orb_true_r, Hh.
      apply bool_decide_eq_true in Hin. apply set_eq. intros x.
      rewrite elem_of_union, elem_of_singleton.
      split; [by right | by intros [-> | ?]].
    + rewrite orb_false_r, Em. by destruct r.
  - rewrite Em. by destruct r.
Qed.

Lemma gmail_mark_as_read_handled (w : World) (c : EmailContext) (s : Session) :
  gmail_service w = Ok tt ->
  current_email_context s = Some c ->
  _handled_email_ids (gmail_mark_as_read w (Some (ctx_id c)) s).2
  = (if Py.truthy (ctx_id c) && marking_succeeds google w (ctx_id c)
     then {[ctx_id c]} ∪ _handled_email_ids s else _handled_email_ids s).
Proof.
  intros Hsvc Hc. rewrite gmail_mark_as_read_eq, (target_of_focus s c Hc).
  unfold gmail_action, marking_succeeds. rewrite Hsvc.
  destruct (Py.truthy (ctx_id c)); [| done].
  by destruct (gmail_messages_modify w (ctx_id c) remove_UNREAD).
Qed.

Lemma outlook_mark_as_read_handled (w : World) (c : EmailContext) (s : Session) :
  current_email_context s = Some c ->
  _handled_email_ids (outlook_mark_as_read w (Some (ctx_id c)) s).2
  = (if Py.truthy (ctx_id c) && marking_succeeds microsoft w (ctx_id c)
     then {[ctx_id c]} ∪ _handled_email_ids s else _handled_email_ids s).
Proof.
  intros Hc. rewrite outlook_mark_as_read_eq, (target_of_focus s c Hc).
  unfold marking_succeeds.
  destruct (Py.truthy (ctx_id c)); [| done].
  by destruct (graph_patch_isRead w (ctx_id c) true).
Qed.

(** X20. A read that returns leaves the email it opened in the handled set,
    unless the email has no id or the provider refused to mark it read: the
    refusal is swallowed, the read returns all the same, and the handled set
    is then as before. *)
Theorem read_email_marks_handled (p : provider) (w : World) (message_id : option string)
    (s s' : Session) (view : pydict) :
  run_tool p w (read_email message_id) s = (Ok (json_dict view), s') ->
  exists c,
    current_email_context s' = Some c
    /\ _handled_email_ids s'
       = (if Py.truthy (ctx_id c)
             && (marking_succeeds p w (ctx_id c)
                 || bool_decide (ctx_id c ∈ _handled_email_ids s))
          then {[ctx_id c]} ∪ _handled_email_ids s else _handled_email_ids s).
Proof.
  destruct p; simpl.
  - unfold gmail_read_email, bind at 1, get.
    destruct (target_of s message_id) as [X|]; [| done].
    destruct (Py.truthy X); [| done]. unfold bind at 1.
    destruct (_load_gmail_email_into_context w X true s) as [[[c body]|e] s1] eqn:E;
      [| done].
    intros [= _ <-].
    destruct (_load_gmail_email_into_context_focus _ _ _ _ _ _ _ E)
      as (msg & Hget & -> & Hc & _).
    eexists. split; [exact Hc |].
    revert E. unfold _load_gmail_email_into_context, bind at 1, call.
    destruct (gmail_service w) as [[]|] eqn:Hsvc; [| done].
    unfold bind at 1, call. rewrite Hget, !bind_modify. intros E.
    apply (f_equal snd) in E. cbn [snd] in E. rewrite <- E.
    exact (loaded_handled (gmail_mark_as_read w) (gmail_context w msg)
             (fun service => context_contact service (gmail_context w msg) (gm_body msg))
             (gm_body msg) w
             (set_current_event_context None
                (set_current_email_context (Some (gmail_context w msg)) s))
             (marking_succeeds google w (ctx_id (gmail_context w msg)))
             eq_refl
             (fun s0 => gmail_mark_as_read_handled w _ s0 Hsvc)).
  - unfold outlook_read_email, bind at 1, get.
    destruct (target_of s message_id) as [X|]; [| done].
    destruct (Py.truthy X); [| done]. unfold bind at 1.
    destruct (_load_outlook_email_into_context w X true s) as [[[c body]|e] s1] eqn:E;
      [| done].
    intros [= _ <-].
    destruct (_load_outlook_email_into_context_focus _ _ _ _ _ _ _ E)
      as (msg & Hget & -> & Hc & _).
    eexists. split; [exact Hc |].
    revert E. unfold _load_outlook_email_into_context, bind at 1, call.
    rewrite Hget, !bind_modify. intros E.
    apply (f_equal snd) in E. cbn [snd] in E. rewrite <- E.
    exact (loaded_handled (outlook_mark_as_read w) (outlook_context X msg)
             (fun service => context_contact service (outlook_context X msg)
                               (graph_body_text msg))
             (graph_body_text msg) w
             (set_current_event_context None
                (set_current_email_context (Some (outlook_context X msg)) s))
             (marking_succeeds microsoft w (ctx_id (outlook_context X msg)))
             eq_refl
             (fun s0 => outlook_mark_as_read_handled w _ s0)).
Qed.

Lemma read_email_marks_handled_witness :
  exists c,
    current_email_context dana_open = Some c
    /\ _handled_email_ids dana_open
       = (if Py.truthy (ctx_id c)
             && (marking_succeeds google (gmail_world [dana_gmail]) (ctx_id c)
                 || bool_decide (ctx_id c ∈ _handled_email_ids (init_session "google")))
          then {[ctx_id c]} ∪ _handled_email_ids (init_session "google")
          else _handled_email_ids (init_session "google")).
Proof.
  apply (read_email_marks_handled google (gmail_world [dana_gmail]) (Some "m1")
           (init_session "google") dana_open
           (read_view dana_focus (gm_body dana_gmail))).
  vm_compute. reflexivity.
Defined.

(** ** The audio endpoint *)

(** X21. An audio response of [get_audio] never has an empty body, and its
    [Content-Length] is the length of the body.  Without a [Range] header the
    body is the whole clip (200).  With one (206) the body is the clip from
    [start] to the requested end or the last byte, whichever comes first,
    with [start] inside the clip; the [Content-Range] header repeats the
    requested end even when the clip is shorter. *)
Theorem get_audio_bodies (store : gmap string (list Byte.byte)) (audio_id : string)
    (range : option string) (content : list Byte.byte) (n : nat)
    (content_range : option (nat * nat * nat)) (code : nat) :
  get_audio store audio_id range = Response content n content_range code ->
  exists audio_data,
    store !! audio_id = Some audio_data
    /\ content <> [] /\ n = length content
    /\ match content_range with
       | None => code = 200 /\ range = None /\ content = audio_data
       | Some (start, end_, file_size) =>
           code = 206 /\ (exists header, range = Some header)
           /\ file_size = length audio_data /\ start < file_size /\ start <= end_
           /\ content = take (end_ `min` (file_size - 1) + 1 - start) (drop start audio_data)
           /\ n = end_ `min` (file_size - 1) + 1 - start
       end.
Proof.
  unfold get_audio. destruct (store !! audio_id) as [[|b data]|]; [done | | done].
  assert (Hsize : 1 <= length (b :: data)) by (simpl; lia).
  remember (b :: data) as audio_data eqn:Hdata. clear Hdata.
  intros H. exists audio_data. split; [done |].
  revert H. cbv zeta. destruct range as [header|].
  2: { intros [= <- <- <- <-]. split; [| done]. intros ->. simpl in Hsize. lia. }
  destruct (range_search header) as [[first last]|]; [| done].
  set (start := int first).
  set (end_ := if Py.truthy last then int last else length audio_data - 1).
  destruct (_ || _) eqn:Hout; [done |].
  apply orb_false_iff in Hout as [H1%Nat.leb_gt H2%Nat.ltb_ge].
  intros [= <- <- <- <-].
  assert (Hlen : length (take (end_ + 1 - start) (drop start audio_data))
                 = end_ `min` (length audio_data - 1) + 1 - start).
  { rewrite length_take, length_drop. lia. }
  split; [| split; [done |]].
  - intros Hnil. rewrite Hnil in Hlen. simpl in Hlen. lia.
  - split; [done |]. split; [by eexists |]. split; [done |]. split; [done |].
    split; [done |]. split; [| done].
    destruct (decide (end_ <= length audio_data - 1)) as [Hle | Hgt].
    + by rewrite Nat.min_l.
    + rewrite Nat.min_r by lia.
      rewrite (take_ge _ (end_ + 1 - start)) by (rewrite length_drop; lia).
      rewrite take_ge; [done |]. rewrite length_drop. lia.
Qed.

Lemma get_audio_bodies_witness :
  exists audio_data,
    ({["a1" := ten_bytes]} : gmap string (list Byte.byte)) !! "a1" = Some audio_data
    /\ [Byte.x07; Byte.x08; Byte.x09] <> [] /\ 3 = length [Byte.x07; Byte.x08; Byte.x09]
    /\ (206 = 206 /\ (exists header, Some "bytes=7-20" = Some header)
        /\ 10 = length audio_data /\ 7 < 10 /\ 7 <= 20
        /\ [Byte.x07; Byte.x08; Byte.x09]
           = take (20 `min` (10 - 1) + 1 - 7) (drop 7 audio_data)
        /\ 3 = 20 `min` (10 - 1) + 1 - 7).
Proof.
  apply (get_audio_bodies {["a1" := ten_bytes]} "a1" (Some "bytes=7-20")
           [Byte.x07; Byte.x08; Byte.x09] 3 (Some (7, 20, 10)) 206).
  vm_compute. reflexivity.
Defined.

(** ** The query sent to Gmail *)

Module QueryFacts.
Import Py PyFacts.

Lemma contains_intro (p x y : string) : contains p (x +:+ p +:+ y) = true.
Proof.
  unfold contains. destruct (find_sub p (x +:+ p +:+ y)) eqn:F; [done |].
  exfalso. by apply (proj1 (find_sub_None _ _) F x y).
Qed.

Lemma contains_elim (p s : string) :
  contains p s = true -> exists x y, s = x +:+ p +:+ y.
Proof.
  unfold contains. destruct (find_sub p s) as [[x y]|] eqn:F; [| done].
  intros _. exists x, y. by apply find_sub_Some.
Qed.

Lemma contains_append_l (p a b : string) :
  contains p a = true -> contains p (a +:+ b) = true.
Proof.
  intros (x & y & ->)%contains_elim.
  rewrite !append_assoc. apply contains_intro.
Qed.

Lemma lower_append (a b : string) : lower (a +:+ b) = lower a +:+ lower b.
Proof. induction a as [|c a IH]; [done |]. rewrite !append_cons. simpl. by rewrite IH. Qed.

Lemma rstrip_nonspace (c : ascii) (s : string) :
  is_space c = false -> rstrip (String c s) = String c (rstrip s).
Proof. intros Hc. cbn [rstrip]. rewrite Hc. by destruct (rstrip s). Qed.

Lemma rstrip_append (a b : string) :
  rstrip b <> "" -> rstrip (a +:+ b) = a +:+ rstrip b.
Proof.
  intros Hb. induction a as [|c a IH]; [done |].
  rewrite !append_cons. cbn [rstrip]. rewrite IH.
  destruct (a +:+ rstrip b) eqn:E; [| done].
  destruct a; [| done]. by rewrite append_nil_l in E.
Qed.

Lemma rstrip_idem (s : string) : rstrip (rstrip s) = rstrip s.
Proof.
  induction s as [|c s IH]; [done |]. cbn [rstrip].
  destruct (rstrip s) as [|d r] eqn:E.
  - destruct (is_space c) eqn:Hc; [done |]. cbn [rstrip]. by rewrite Hc.
  - cbn [rstrip] in *. by rewrite IH.
Qed.

(** A stripped string is empty or starts with a character that is no white
    space. *)
Lemma strip_head (z : string) :
  strip z = "" \/ exists c r, strip z = String c r /\ is_space c = false.
Proof.
  unfold strip. induction z as [|c z IH]; [by left |]. cbn [lstrip].
  destruct (is_space c) eqn:Hc; [exact IH |].
  right. rewrite rstrip_nonspace by done. by eexists _, _.
Qed.

Lemma lstrip_nonspace (c : ascii) (s : string) :
  is_space c = false -> lstrip (String c s) = String c s.
Proof. intros Hc. cbn [lstrip]. by rewrite Hc. Qed.

Lemma strip_idem (z : string) : strip (strip z) = strip z.
Proof.
  destruct (strip_head z) as [-> | (c & r & E & Hc)]; [done |].
  unfold strip at 1. rewrite E, lstrip_nonspace by done.
  rewrite <- E. unfold strip. apply rstrip_idem.
Qed.

(** Appending a text that ends in a visible character to a stripped,
    non-empty text gives a stripped text. *)
Lemma strip_append (z b : string) :
  strip z <> "" -> rstrip b = b -> b <> "" -> strip (strip z +:+ b) = strip z +:+ b.
Proof.
  intros Hz Hb Hne. destruct (strip_head z) as [E | (c & r & E & Hc)]; [done |].
  unfold strip at 1. rewrite E, append_cons, lstrip_nonspace by done.
  rewrite <- append_cons, rstrip_append; rewrite Hb; done.
Qed.

End QueryFacts.

Lemma gmail_normalized_query_spec (query : string) :
  Py.contains "in:" (Py.lower (gmail_normalized_query query)) = true
  /\ (Py.contains "is:" (Py.lower (gmail_normalized_query query)) = true
      \/ Py.contains "label:" (Py.lower (gmail_normalized_query query)) = true)
  /\ Py.strip (gmail_normalized_query query) = gmail_normalized_query query.
Proof.
  unfold gmail_normalized_query. cbv zeta.
  set (q0 := Py.strip query).
  set (q1 := if negb (Py.contains "in:" (Py.lower q0))
             then Py.strip ("in:inbox " +:+ q0) else q0).
  assert (H1 : Py.contains "in:" (Py.lower q1) = true /\ exists z, q1 = Py.strip z).
  { unfold q1. destruct (Py.contains "in:" (Py.lower q0)) eqn:E; simpl.
    - split; [done |]. by exists query.
    - split; [| by eexists]. unfold Py.strip.
      rewrite !PyFacts.append_cons, PyFacts.append_nil_l.
      rewrite QueryFacts.lstrip_nonspace by done.
      by rewrite !QueryFacts.rstrip_nonspace by done. }
  destruct H1 as [Hin (z & Hz)]. clearbody q1. subst q1.
  assert (Hne : Py.strip z <> "").
  { intros E. by rewrite E in Hin. }
  destruct (Py.contains "is:" (Py.lower (Py.strip z))) eqn:His; simpl.
  { split; [done |]. split; [by left |]. apply QueryFacts.strip_idem. }
  destruct (Py.contains "label:" (Py.lower (Py.strip z))) eqn:Hlabel; simpl.
  { split; [done |]. split; [by right |]. apply QueryFacts.strip_idem. }
  rewrite QueryFacts.strip_append by done.
  rewrite QueryFacts.lower_append. split; [| split].
  - by apply QueryFacts.contains_append_l.
  - left. change (Py.lower " is:unread") with (" " +:+ "is:" +:+ "unread").
    rewrite <- PyFacts.append_assoc. apply QueryFacts.contains_intro.
  - apply QueryFacts.strip_append; done.
Qed.

(** X22. Whatever the model asks for, the query sent to Gmail names a mailbox
    ([in:]) and a read state or a label ([is:] or [label:]), in some case;
    [in:inbox] and [is:unread] are added when they are missing.  A query that
    went through the normalisation is left as it is by a second pass. *)
Theorem gmail_query_is_scoped (query : string) :
  Py.contains "in:" (Py.lower (gmail_normalized_query query)) = true
  /\ (Py.contains "is:" (Py.lower (gmail_normalized_query query)) = true
      \/ Py.contains "label:" (Py.lower (gmail_normalized_query query)) = true)
  /\ gmail_normalized_query (gmail_normalized_query query) = gmail_normalized_query query.
Proof.
  destruct (gmail_normalized_query_spec query) as (Hin & Hread & Hstrip).
  split; [done |]. split; [done |].
  unfold gmail_normalized_query at 1. cbv zeta. rewrite Hstrip, Hin. simpl.
  destruct Hread as [-> | ->]; simpl; [done |].
  by destruct (Py.contains "is:" _).
Qed.

(** ** The new-mail notifier *)

Lemma passed_over_mono (handled announced announced' : gset string) (contact : pydict) :
  announced ⊆ announced' ->
  passed_over handled announced contact = true ->
  passed_over handled announced' contact = true.
Proof.
  unfold passed_over. cbv zeta. intros Hsub.
  destruct (dget contact "id") as [[|c i]|]; simpl; try done.
  destruct (bool_decide (String c i ∈ handled)); [done |]. simpl.
  intros Hin%bool_decide_eq_true. apply bool_decide_eq_true. by apply Hsub.
Qed.

Lemma passed_over_announced (handled announced : gset string) (contact : pydict) :
  Py.or_empty (dget contact "id") ∈ announced ->
  passed_over handled announced contact = true.
Proof.
  intros Hin. unfold passed_over. cbv zeta. rewrite (bool_decide_eq_true_2 _ Hin).
  by rewrite orb_true_r.
Qed.

Lemma passed_over_false (handled announced : gset string) (contact : pydict) :
  passed_over handled announced contact = false ->
  (Py.or_empty (dget contact "id") <> "")
  /\ (Py.or_empty (dget contact "id") ∉ handled)
  /\ (Py.or_empty (dget contact "id") ∉ announced).
Proof.
  unfold passed_over. cbv zeta.
  destruct (dget contact "id") as [[|c i]|]; simpl; try done.
  intros [Hh%bool_decide_eq_false Ha%bool_decide_eq_false]%orb_false_iff. done.
Qed.

Lemma _is_handled_email_same (s1 s2 : Session) (i : option string) :
  _handled_email_ids s1 = _handled_email_ids s2 ->
  _is_handled_email s1 i = _is_handled_email s2 i.
Proof. intros H. unfold _is_handled_email. by rewrite H. Qed.

Lemma gmail_search_loop_same (w : World) (n : Z) (messages : list string)
    (email_list : list pydict) (s1 s2 : Session) :
  service_type s1 = service_type s2 -> _handled_email_ids s1 = _handled_email_ids s2 ->
  exists r, gmail_search_loop w n false messages email_list s1 = (r, s1)
            /\ gmail_search_loop w n false messages email_list s2 = (r, s2).
Proof.
  intros Hs Hh. revert email_list.
  induction messages as [|msg rest IH]; intros email_list; [by eexists |].
  cbn [gmail_search_loop]. unfold bind, get, call, when, ret.
  rewrite (_is_handled_email_same s1 s2) by done.
  destruct (_is_handled_email s2 (Some msg)); [apply IH |].
  destruct (gmail_messages_get w msg); [| by eexists].
  rewrite Hs. destruct (_ >=? _)%Z; [by eexists | apply IH].
Qed.

Lemma outlook_search_loop_same (n : Z) (messages : list GraphMessage)
    (email_list : list pydict) (s1 s2 : Session) :
  service_type s1 = service_type s2 -> _handled_email_ids s1 = _handled_email_ids s2 ->
  exists r, outlook_search_loop n false messages email_list s1 = (r, s1)
            /\ outlook_search_loop n false messages email_list s2 = (r, s2).
Proof.
  intros Hs Hh. revert email_list.
  induction messages as [|m rest IH]; intros email_list; [by eexists |].
  cbn [outlook_search_loop]. unfold bind, get, call, when, ret.
  destruct (g_isRead m); [apply IH |].
  rewrite (_is_handled_email_same s1 s2) by done.
  destruct (_is_handled_email s2 (g_id m)); [apply IH |].
  rewrite Hs. destruct (_ >=? _)%Z; [by eexists | apply IH].
Qed.

(** A search that publishes nothing reads the handled set and the service
    of the session, and nothing else of it, and writes nothing. *)
Lemma search_emails_same (p : provider) (w : World) (query : string) (n : Z)
    (s1 s2 : Session) :
  service_type s1 = service_type s2 -> _handled_email_ids s1 = _handled_email_ids s2 ->
  exists r,
    match p with
    | google => gmail_search_emails w query n false
    | microsoft => outlook_search_emails w query n false
    end s1 = (r, s1)
    /\ match p with
       | google => gmail_search_emails w query n false
       | microsoft => outlook_search_emails w query n false
       end s2 = (r, s2).
Proof.
  intros Hs Hh. destruct p.
  - unfold gmail_search_emails, bind, call, when, ret.
    destruct (gmail_service w); [| by eexists].
    destruct (gmail_messages_list w _ n) as [messages|]; [| by eexists].
    destruct (gmail_search_loop_same w n messages [] s1 s2 Hs Hh) as (r & -> & ->).
    destruct r as [[|i l]|e]; by eexists.
  - unfold outlook_search_emails, bind, call, when, ret.
    destruct (graph_inbox_messages w _) as [messages|]; [| by eexists].
    destruct (outlook_search_loop_same n messages [] s1 s2 Hs Hh) as (r & -> & ->).
    destruct r as [[|i l]|e]; by eexists.
Qed.

(** Fetching the unread contacts never raises, leaves the session as it
    is, and depends on its handled set and service only. *)
Lemma _fetch_unread_email_contacts_same (w : World) (n : Z) (s1 s2 : Session) :
  service_type s1 = service_type s2 -> _handled_email_ids s1 = _handled_email_ids s2 ->
  exists contacts,
    _fetch_unread_email_contacts w n s1 = (Ok contacts, s1)
    /\ _fetch_unread_email_contacts w n s2 = (Ok contacts, s2).
Proof.
  intros Hs Hh. unfold _fetch_unread_email_contacts, try_except, bind at 1 3, get.
  rewrite Hs. destruct (bool_decide (service_type s2 = "google")).
  - destruct (search_emails_same google w "in:inbox is:unread" n s1 s2 Hs Hh)
      as (r & H1 & H2). unfold bind. rewrite H1, H2.
    destruct r as [[t|items|d]|e]; try by eexists.
    destruct (dumps_contains _ items); by eexists.
  - destruct (search_emails_same microsoft w "" n s1 s2 Hs Hh) as (r & H1 & H2).
    unfold bind. rewrite H1, H2.
    destruct r as [[t|items|d]|e]; try by eexists.
    destruct (dumps_contains _ items); by eexists.
Qed.

Lemma _fetch_unread_email_contacts_run (w : World) (n : Z) (s : Session) :
  exists contacts, _fetch_unread_email_contacts w n s = (Ok contacts, s).
Proof.
  destruct (_fetch_unread_email_contacts_same w n s s eq_refl eq_refl) as (cs & H & _).
  by exists cs.
Qed.

(** What [announce_loop] does: it never raises and writes the announced
    set only, adding to it; every id it adds is non-empty and neither
    handled nor announced before; afterwards every contact it went through
    is one it passes over. *)
Lemma announce_loop_run (contacts new_contacts : list pydict) (s : Session) :
  exists new announced,
    announce_loop contacts new_contacts s
    = (Ok (new_contacts ++ new), set_announced_unread_ids announced s)
    /\ _announced_unread_ids s ⊆ announced
    /\ (forall i, i ∈ announced -> i ∉ _announced_unread_ids s ->
                  i <> "" /\ i ∉ _handled_email_ids s)
    /\ (new = [] -> announced = _announced_unread_ids s)
    /\ Forall (fun contact => passed_over (_handled_email_ids s) announced contact = true)
              contacts.
Proof.
  revert new_contacts s. induction contacts as [|contact rest IH]; intros new_contacts s.
  { exists [], (_announced_unread_ids s). rewrite app_nil_r.
    split; [by destruct s |]. split; [done |]. split; [done |]. by split. }
  cbn [announce_loop]. unfold bind at 1, get.
  change (negb (Py.otruthy (dget contact "id"))
          || _is_handled_email s (dget contact "id")
          || bool_decide (Py.or_empty (dget contact "id") ∈ _announced_unread_ids s))
    with (passed_over (_handled_email_ids s) (_announced_unread_ids s) contact).
  destruct (passed_over (_handled_email_ids s) (_announced_unread_ids s) contact) eqn:Hp.
  - destruct (IH new_contacts s) as (new & A & -> & Hsub & Hnew & Hnil & Hall).
    exists new, A. split; [done |]. split; [done |]. split; [done |]. split; [done |].
    constructor; [| done]. by eapply passed_over_mono.
  - unfold bind at 1, modify.
    set (cid := Py.or_empty (dget contact "id")) in *.
    set (s1 := set_announced_unread_ids _ s).
    destruct (IH (new_contacts ++ [contact]) s1) as (new & A & -> & Hsub & Hnew & Hnil & Hall).
    apply passed_over_false in Hp as (Hid & Hh & Ha). fold cid in Hid, Hh, Ha.
    simpl in Hsub, Hnew.
    exists (contact :: new), A. rewrite <- app_assoc. split; [done |]. split; [| split; [| split]].
    + intros x Hx. apply Hsub. by apply elem_of_union_r.
    + intros i Hi Hni. destruct (decide (i = cid)) as [-> | Hne]; [done |].
      apply Hnew; [done |]. intros [Hx%elem_of_singleton | Hx]%elem_of_union; done.
    + done.
    + constructor; [| exact Hall].
      apply passed_over_announced. apply Hsub. apply elem_of_union_l.
      by apply elem_of_singleton.
Qed.

Lemma announce_loop_nothing_new (contacts new_contacts : list pydict) (s : Session) :
  Forall (fun contact =>
            passed_over (_handled_email_ids s) (_announced_unread_ids s) contact = true)
         contacts ->
  announce_loop contacts new_contacts s = (Ok new_contacts, s).
Proof.
  induction 1 as [|contact rest Hp _ IH]; [done |].
  cbn [announce_loop]. unfold bind at 1, get.
  change (negb (Py.otruthy (dget contact "id"))
          || _is_handled_email s (dget contact "id")
          || bool_decide (Py.or_empty (dget contact "id") ∈ _announced_unread_ids s))
    with (passed_over (_handled_email_ids s) (_announced_unread_ids s) contact).
  by rewrite Hp.
Qed.

Section NotifierFrame.
Context {B : Type} (attr : Session -> B).
Hypothesis Hws : forall v s, attr (set_ws_sent v s) = attr s.
Hypothesis Hrc : forall v s, attr (set_recent_contacts v s) = attr s.

Lemma merge_each_keeps (new_contacts : list pydict) :
  preserves attr (merge_each new_contacts).
Proof.
  induction new_contacts as [|contact rest IH]; cbn [merge_each]; frame;
    first [apply IH | by apply _merge_contact_keeps].
Qed.

Lemma send_audio_response_keeps (w : World) (message : option string)
    (status_text : string) :
  preserves attr (send_audio_response w message status_text).
Proof. unfold send_audio_response. frame; by apply ws_send_json_keeps. Qed.

Lemma announcement_keeps (w : World) (new_contacts : list pydict) (message : string) :
  preserves attr
    (merge_each new_contacts >> _publish_people_list >>
     send_audio_response w (Some message) "New email arrived.").
Proof.
  apply preserves_bind; [apply merge_each_keeps | intros _].
  apply preserves_bind; [by apply _publish_people_list_keeps | intros _].
  apply send_audio_response_keeps.
Qed.

End NotifierFrame.

(** One turn of the notifier, step by step. *)
Lemma poll_once_run (w : World) (s : Session) :
  exists contacts announced,
    _fetch_unread_email_contacts w 5 s = (Ok contacts, s)
    /\ (poll_once w s).1 = Ok tt
    /\ _announced_unread_ids (poll_once w s).2 = announced
    /\ _announced_unread_ids s ⊆ announced
    /\ (forall i, i ∈ announced -> i ∉ _announced_unread_ids s ->
                  i <> "" /\ i ∉ _handled_email_ids s)
    /\ Forall (fun contact => passed_over (_handled_email_ids s) announced contact = true)
              contacts
    /\ (forall (B : Type) (attr : Session -> B),
          (forall v s, attr (set_ws_sent v s) = attr s) ->
          (forall v s, attr (set_recent_contacts v s) = attr s) ->
          (forall v s, attr (set_announced_unread_ids v s) = attr s) ->
          attr (poll_once w s).2 = attr s).
Proof.
  destruct (_fetch_unread_email_contacts_run w 5 s) as (contacts & Hf).
  destruct (announce_loop_run contacts [] s) as (new & A & Ha & Hsub & Hnew & Hnil & Hall).
  exists contacts, A. split; [exact Hf |].
  destruct (poll_once w s) as [r s'] eqn:E. simpl. revert E.
  unfold poll_once, try_except, bind at 1. rewrite Hf.
  unfold bind at 1. rewrite Ha. rewrite app_nil_l.
  destruct new as [|first others].
  - rewrite (Hnil eq_refl) in *. intros [= <- <-].
    split; [done |]. split; [done |]. split; [done |]. split; [done |]. split; [done |].
    intros B attr _ _ Han. apply Han.
  - set (m := bind (merge_each _) _). set (sA := set_announced_unread_ids A s).
    intros E.
    assert (Hs' : s' = (m sA).2 /\ r = Ok tt).
    { destruct (m sA) as [[[]|e] s2]; by injection E as <- <-. }
    destruct Hs' as [-> ->].
    split; [done |]. split; [| split; [done |]; split; [done |]; split; [done |]].
    + exact (announcement_keeps _announced_unread_ids (fun _ _ => eq_refl)
               (fun _ _ => eq_refl) w _ _ sA).
    + intros B attr Hws Hrc Han.
      etrans; [exact (announcement_keeps attr Hws Hrc w _ _ sA) | apply Han].
Qed.

(** X23. A turn of the notifier never raises.  It writes the announced set, the
    contacts and the packets, and nothing else: the focus, the drafts, the
    handled set and the account identity are as before.  The announced set
    only grows, and the ids it gains are non-empty and were not handled. *)
Theorem poll_once_footprint (w : World) (s : Session) :
  (poll_once w s).1 = Ok tt
  /\ (poll_once w s).2
     = set_ws_sent (ws_sent (poll_once w s).2)
         (set_announced_unread_ids (_announced_unread_ids (poll_once w s).2)
            (set_recent_contacts (recent_contacts (poll_once w s).2) s))
  /\ _announced_unread_ids s ⊆ _announced_unread_ids (poll_once w s).2
  /\ (forall i, i ∈ _announced_unread_ids (poll_once w s).2 ->
                i ∉ _announced_unread_ids s ->
                i <> "" /\ i ∉ _handled_email_ids s).
Proof.
  destruct (poll_once_run w s) as (contacts & A & _ & Hr & HA & Hsub & Hnew & _ & Hkeep).
  split; [exact Hr |]. rewrite HA. split; [| by split].
  pose proof (Hkeep _ service_type ltac:(done) ltac:(done) ltac:(done)) as H1.
  pose proof (Hkeep _ last_draft_google ltac:(done) ltac:(done) ltac:(done)) as H2.
  pose proof (Hkeep _ last_draft_microsoft_id ltac:(done) ltac:(done) ltac:(done)) as H3.
  pose proof (Hkeep _ current_email_context ltac:(done) ltac:(done) ltac:(done)) as H4.
  pose proof (Hkeep _ current_event_context ltac:(done) ltac:(done) ltac:(done)) as H5.
  pose proof (Hkeep _ account_identity ltac:(done) ltac:(done) ltac:(done)) as H6.
  pose proof (Hkeep _ _handled_email_ids ltac:(done) ltac:(done) ltac:(done)) as H7.
  clear Hkeep Hr Hsub Hnew. revert HA H1 H2 H3 H4 H5 H6 H7.
  generalize (poll_once w s).2. intros s'. destruct s, s'. simpl.
  by intros <- -> -> -> -> -> -> ->.
Qed.

(** X24. An email is announced once: a second turn of the notifier, run on the
    session the first one left and against the same mailbox, finds nothing
    new, sends nothing and changes nothing. *)
Theorem poll_twice_announces_once (w : World) (s : Session) :
  poll_once w (poll_once w s).2 = (Ok tt, (poll_once w s).2).
Proof.
  destruct (poll_once_run w s) as (contacts & A & Hf & _ & HA & _ & _ & Hall & Hkeep).
  pose proof (Hkeep _ service_type ltac:(done) ltac:(done) ltac:(done)) as Hs.
  pose proof (Hkeep _ _handled_email_ids ltac:(done) ltac:(done) ltac:(done)) as Hh.
  clear Hkeep. revert HA Hs Hh. generalize (poll_once w s).2. intros s1 HA Hs Hh.
  destruct (_fetch_unread_email_contacts_same w 5 s1 s Hs Hh) as (cs & H1 & H2).
  rewrite Hf in H2. injection H2 as <-.
  unfold poll_once, try_except, bind at 1. rewrite H1.
  unfold bind at 1. rewrite announce_loop_nothing_new; [done |].
  by rewrite Hh, HA.
Qed.

(** A text reply of a search is one of the "No emails found" messages:
    the case [_fetch_unread_email_contacts] answers with the empty list. *)
Lemma search_text_reply (p : provider) (w : World) (query : string) (n : Z)
    (publish : bool) (s s' : Session) (t : string) :
  match p with
  | google => gmail_search_emails w query n publish
  | microsoft => outlook_search_emails w query n publish
  end s = (Ok (text t), s') ->
  Py.contains "No emails found" t = true.
Proof.
  destruct p.
  - unfold gmail_search_emails, bind at 1, call. destruct (gmail_service w); [| done].
    unfold bind at 1. destruct (when publish _ s) as [[[]|e] s1]; [| done].
    unfold bind at 1, call. destruct (gmail_messages_list w _ n) as [messages|]; [| done].
    unfold bind at 1.
    destruct (gmail_search_loop w n publish messages [] s1) as [[[|i l]|e] s2]; [| | done].
    + intros [= <- <-].
      exact (QueryFacts.contains_intro "No emails found" "" (" for '" +:+ query +:+ "'")).
    + unfold bind. by destruct (when publish _ s2) as [[[]|e] s3].
  - unfold outlook_search_emails, bind at 1.
    destruct (when publish _ s) as [[[]|e] s1]; [| done].
    unfold bind at 1, call. destruct (graph_inbox_messages w _) as [messages|]; [| done].
    unfold bind at 1.
    destruct (outlook_search_loop n publish messages [] s1) as [[[|i l]|e] s2]; [| | done].
    + intros [= <- <-]. destruct (negb _); [done |].
      exact (QueryFacts.contains_intro "No emails found" "" (" for '" +:+ query +:+ "'")).
    + unfold bind. by destruct (when publish _ s2) as [[[]|e] s3].
Qed.

(** A first turn on a mailbox with one unread message: the message is
    announced, the contact published, and the announcement spoken. *)
Example notifier_announces :
  let run := poll_once (gmail_world [dana_gmail]) (init_session "google") in
  bool_decide ("m1" ∈ _announced_unread_ids run.2) = true
  /\ c_id <$> recent_contacts run.2 = ["m1"]
  /\ ws_sent run.2 !! 1
     = Some (chat_append "assistant"
               ("You just received a new email from dana@example.com about "
                +:+ quoted "hello" +:+ ". Want me to open it?")).
Proof. vm_compute. split; [reflexivity |]. split; reflexivity. Qed.

(** A range that names no end runs to the last byte; the pattern is
    searched for, so text before it is ignored. *)
Example get_audio_open_range :
  get_audio {["a1" := ten_bytes]} "a1" (Some "bytes=7-")
  = Response [Byte.x07; Byte.x08; Byte.x09] 3 (Some (7, 9, 10)) 206
  /\ get_audio {["a1" := ten_bytes]} "a1" (Some "items=1-2, bytes=0-0")
     = Response [Byte.x00] 1 (Some (0, 0, 10)) 206
  /\ get_audio {["a1" := ten_bytes]} "a1" (Some "bytes=10-")
     = PlainTextResponse "Range not satisfiable" 416
  /\ get_audio {["a1" := ten_bytes]} "a2" None = PlainTextResponse "Not Found" 404.
Proof. vm_compute. repeat split; reflexivity. Qed.

Lemma mail_tools_never_focus_an_event_witness :
  no_event (init_session "google")
  /\ no_event (run_tool google (gmail_world [dana_gmail]) (read_email (Some "m1"))
                (init_session "google")).2.
Proof.
  split; [reflexivity |].
  apply (mail_tools_never_focus_an_event google (gmail_world [dana_gmail])
           (read_email (Some "m1")) (init_session "google")).
  reflexivity.
Defined.

(** ** What a search lists *)

Lemma take_limit_last (n : Z) (acc : nat) {A} (x : A) (l : list A) :
  (Z.of_nat (acc + 1) >=? n)%Z = true ->
  take (search_limit (n - Z.of_nat acc)) (x :: l) = [x].
Proof.
  intros H. rewrite Z.geb_leb in H. apply Z.leb_le in H. unfold search_limit.
  replace (Z.to_nat (Z.max 1 (n - Z.of_nat acc))) with 1 by lia. by destruct l.
Qed.

Lemma take_limit_more (n : Z) (acc : nat) {A} (x : A) (l : list A) :
  (Z.of_nat (acc + 1) >=? n)%Z = false ->
  take (search_limit (n - Z.of_nat acc)) (x :: l)
  = x :: take (search_limit (n - Z.of_nat (acc + 1))) l.
Proof.
  intros H. rewrite Z.geb_leb in H. apply Z.leb_gt in H. unfold search_limit.
  replace (Z.to_nat (Z.max 1 (n - Z.of_nat acc)))
    with (S (Z.to_nat (Z.max 1 (n - Z.of_nat (acc + 1))))) by lia.
  done.
Qed.

Lemma listable_same (s1 s2 : Session) (messages : list GraphMessage) :
  _handled_email_ids s1 = _handled_email_ids s2 ->
  filter (fun m => listable s1 m = true) messages
  = filter (fun m => listable s2 m = true) messages.
Proof.
  intros Hh. apply list_filter_iff. intros m. unfold listable.
  by rewrite (_is_handled_email_ext s1 s2).
Qed.

Lemma outlook_search_loop_lists (n : Z) (publish : bool) (messages : list GraphMessage)
    (email_list found : list pydict) (s s' : Session) :
  outlook_search_loop n publish messages email_list s = (Ok found, s') ->
  email_list = [] \/ (Z.of_nat (length email_list) < n)%Z ->
  found = email_list
          ++ take (search_limit (n - Z.of_nat (length email_list)))
               (outlook_hit (service_type s)
                  <$> filter (fun m => listable s m = true) messages).
Proof.
  revert email_list s. induction messages as [|m rest IH]; intros email_list s.
  { intros [= <- <-] _. by rewrite filter_nil, fmap_nil, take_nil, app_nil_r. }
  cbn [outlook_search_loop]. unfold bind at 1, get.
  destruct (g_isRead m) eqn:Hread.
  { rewrite filter_cons_False; [apply IH |]. unfold listable. by rewrite Hread. }
  destruct (_is_handled_email s (g_id m)) eqn:Hh.
  { rewrite filter_cons_False; [apply IH |]. unfold listable. by rewrite Hread, Hh. }
  rewrite filter_cons_True by (unfold listable; by rewrite Hread, Hh).
  cbv zeta. unfold bind at 1.
  pose proof (preserves_when _handled_email_ids publish _
                (_merge_contact_handled (outlook_hit (service_type s) m)) s) as Hm.
  pose proof (preserves_when service_type publish _
                (_merge_contact_keeps service_type (fun _ _ => eq_refl)
                   (outlook_hit (service_type s) m)) s) as Hsvc.
  destruct (when publish (_merge_contact (outlook_hit (service_type s) m)) s)
    as [[[]|e] s1]; [| done].
  simpl in Hm, Hsvc. rewrite length_app.
  change (length [outlook_hit (service_type s) m]) with 1. rewrite fmap_cons.
  destruct (_ >=? _)%Z eqn:Hge.
  - intros [= <- <-] _. by rewrite take_limit_last.
  - intros E _. pose proof Hge as Hlt. rewrite Z.geb_leb in Hlt. apply Z.leb_gt in Hlt.
    apply IH in E; [| right; rewrite length_app; simpl; lia].
    rewrite E, length_app, take_limit_more, <- app_assoc by done. simpl.
    by rewrite Hsvc, (listable_same s1 s).
Qed.

(** X25. An Outlook search lists the first messages of the provider's answer
    that are unread and not handled, in the provider's order, one entry each,
    up to the limit (and one at least, whatever the limit says). *)
Theorem outlook_search_lists_first_unread (w : World) (query : string) (n : Z)
    (publish : bool) (s s' : Session) (found : list pydict) :
  outlook_search_emails w query n publish s = (Ok (json_list found), s') ->
  exists request messages,
    graph_inbox_messages w request = Ok messages
    /\ found = take (search_limit n)
                 (outlook_hit (service_type s)
                    <$> filter (fun m => listable s m = true) messages).
Proof.
  unfold outlook_search_emails, bind at 1.
  pose proof (preserves_when _handled_email_ids publish _
                (_ensure_account_identity_keeps _handled_email_ids
                   (fun _ _ => eq_refl) w) s) as Hh.
  pose proof (preserves_when service_type publish _
                (_ensure_account_identity_keeps service_type
                   (fun _ _ => eq_refl) w) s) as Hsvc.
  destruct (when publish _ s) as [[[]|e] s1]; [| done]. simpl in Hh, Hsvc.
  unfold bind at 1, call.
  destruct (graph_inbox_messages w _) as [messages|] eqn:Hreq; [| done].
  unfold bind at 1.
  destruct (outlook_search_loop n publish messages [] s1) as [[l|e] s2] eqn:E; [| done].
  apply outlook_search_loop_lists in E; [| by left].
  destruct l as [|item l]; [done |]. unfold bind.
  destruct (when publish _ s2) as [[[]|e] s3]; [| done].
  intros [= <- <-]. eexists _, messages. split; [exact Hreq |].
  rewrite E. simpl. by rewrite Z.sub_0_r, Hsvc, (listable_same s1 s).
Qed.

Lemma outlook_search_lists_first_unread_witness :
  exists request messages,
    graph_inbox_messages (outlook_world [dana_graph]) request = Ok messages
    /\ [outlook_hit "microsoft" dana_graph]
       = take (search_limit 5)
           (outlook_hit (service_type (init_session "microsoft"))
              <$> filter (fun m => listable (init_session "microsoft") m = true) messages).
Proof.
  apply (outlook_search_lists_first_unread (outlook_world [dana_graph]) "" 5 false
           (init_session "microsoft") (init_session "microsoft")).
  vm_compute. reflexivity.
Defined.

Lemma unhandled_same (s1 s2 : Session) (ids : list string) :
  _handled_email_ids s1 = _handled_email_ids s2 ->
  filter (fun id => _is_handled_email s1 (Some id) = false) ids
  = filter (fun id => _is_handled_email s2 (Some id) = false) ids.
Proof.
  intros Hh. apply list_filter_iff. intros id. by rewrite (_is_handled_email_ext s1 s2).
Qed.

Lemma gmail_search_loop_lists (w : World) (n : Z) (publish : bool) (messages : list string)
    (email_list found : list pydict) (s s' : Session) :
  gmail_search_loop w n publish messages email_list s = (Ok found, s') ->
  email_list = [] \/ (Z.of_nat (length email_list) < n)%Z ->
  exists new,
    found = email_list ++ new
    /\ Forall2 (fun id item =>
                  exists meta, gmail_messages_get w id = Ok meta
                               /\ item = gmail_hit w (service_type s) id meta)
         (take (search_limit (n - Z.of_nat (length email_list)))
            (filter (fun id => _is_handled_email s (Some id) = false) messages))
         new.
Proof.
  revert email_list s. induction messages as [|msg rest IH]; intros email_list s.
  { intros [= <- <-] _. exists []. rewrite app_nil_r, filter_nil, take_nil. by split. }
  cbn [gmail_search_loop]. unfold bind at 1, get.
  destruct (_is_handled_email s (Some msg)) eqn:Hh.
  { rewrite filter_cons_False; [apply IH |]. by rewrite Hh. }
  rewrite filter_cons_True by done.
  unfold bind at 1, call. destruct (gmail_messages_get w msg) as [meta|e] eqn:Hget; [| done].
  cbv zeta. unfold bind at 1.
  pose proof (preserves_when _handled_email_ids publish _
                (_merge_contact_handled (gmail_hit w (service_type s) msg meta)) s) as Hm.
  pose proof (preserves_when service_type publish _
                (_merge_contact_keeps service_type (fun _ _ => eq_refl)
                   (gmail_hit w (service_type s) msg meta)) s) as Hsvc.
  destruct (when publish (_merge_contact (gmail_hit w (service_type s) msg meta)) s)
    as [[[]|e] s1]; [| done].
  simpl in Hm, Hsvc. rewrite length_app.
  change (length [gmail_hit w (service_type s) msg meta]) with 1.
  destruct (_ >=? _)%Z eqn:Hge.
  - intros [= <- <-] _. eexists. split; [done |]. rewrite take_limit_last by done.
    constructor; [by exists meta | constructor].
  - intros E _. pose proof Hge as Hlt. rewrite Z.geb_leb in Hlt. apply Z.leb_gt in Hlt.
    apply IH in E as (new & -> & Hall); [| right; rewrite length_app; simpl; lia].
    exists (gmail_hit w (service_type s) msg meta :: new).
    rewrite <- app_assoc. split; [done |]. rewrite take_limit_more by done.
    constructor; [by exists meta |].
    rewrite length_app in Hall. simpl in Hall.
    by rewrite Hsvc, (unhandled_same s1 s) in Hall.
Qed.

(** X26. A Gmail search lists the first ids of the provider's answer that are
    not handled, in the provider's order, up to the limit (and one at least,
    whatever the limit says); each entry is built from the message the
    provider returns for that id. *)
Theorem gmail_search_lists_first_unhandled (w : World) (query : string) (n : Z)
    (publish : bool) (s s' : Session) (found : list pydict) :
  gmail_search_emails w query n publish s = (Ok (json_list found), s') ->
  exists ids,
    gmail_messages_list w (gmail_normalized_query query) n = Ok ids
    /\ Forall2 (fun id item =>
                  exists meta, gmail_messages_get w id = Ok meta
                               /\ item = gmail_hit w (service_type s) id meta)
         (take (search_limit n)
            (filter (fun id => _is_handled_email s (Some id) = false) ids))
         found.
Proof.
  unfold gmail_search_emails, bind at 1, call. destruct (gmail_service w); [| done].
  unfold bind at 1.
  pose proof (preserves_when _handled_email_ids publish _
                (_ensure_account_identity_keeps _handled_email_ids
                   (fun _ _ => eq_refl) w) s) as Hh.
  pose proof (preserves_when service_type publish _
                (_ensure_account_identity_keeps service_type
                   (fun _ _ => eq_refl) w) s) as Hsvc.
  destruct (when publish _ s) as [[[]|e] s1]; [| done]. simpl in Hh, Hsvc.
  unfold bind at 1, call.
  destruct (gmail_messages_list w _ n) as [ids|] eqn:Hlist; [| done].
  unfold bind at 1.
  destruct (gmail_search_loop w n publish ids [] s1) as [[l|e] s2] eqn:E; [| done].
  apply gmail_search_loop_lists in E as (new & -> & Hall); [| by left].
  rewrite app_nil_l. destruct new as [|item l]; [done |]. unfold bind.
  destruct (when publish _ s2) as [[[]|e] s3]; [| done].
  intros [= <- <-]. exists ids. split; [done |].
  simpl in Hall. by rewrite Z.sub_0_r, Hsvc, (unhandled_same s1 s) in Hall.
Qed.

Lemma gmail_search_lists_first_unhandled_witness :
  exists ids,
    gmail_messages_list (gmail_world [dana_gmail; erin_gmail])
      (gmail_normalized_query "") 1 = Ok ids
    /\ Forall2 (fun id item =>
                  exists meta,
                    gmail_messages_get (gmail_world [dana_gmail; erin_gmail]) id = Ok meta
                    /\ item = gmail_hit (gmail_world [dana_gmail; erin_gmail])
                                (service_type dana_handled) id meta)
         (take (search_limit 1)
            (filter (fun id => _is_handled_email dana_handled (Some id) = false) ids))
         [gmail_hit (gmail_world [dana_gmail; erin_gmail]) "google" "m2" erin_gmail].
Proof.
  apply (gmail_search_lists_first_unhandled (gmail_world [dana_gmail; erin_gmail]) "" 1 false
           dana_handled dana_handled).
  vm_compute. reflexivity.
Defined.
